(** * libdns-immosquare: the record translator and the transport adapter

    A shallow embedding of [provider.go] (package [libdnsimmosquare],
    version 1.0.4), of the parts of the Go standard library and of
    [github.com/libdns/libdns] that the provider calls, and of the
    driver [test/test_provider.go] that calls the provider.

    Conventions.
    - A Go [string] is a sequence of bytes: [String.string].
    - [time.Duration] is a signed 64-bit count of nanoseconds, [int] and
      [int64] are signed 64-bit integers, [uint16] is an unsigned 16-bit
      integer: all are [Z], with the wrap-around written where the code
      can overflow.
    - [float64] is IEEE 754 binary64, computed with [SpecFloat].
    - A Go pair [(value, error)] is a [Result].
    - The body of a response is the JSON document its bytes hold, or
      nothing when they are not a JSON text; the body of a request is
      the value handed to [json.Marshal].
    - The world outside the process is explicit: an operation is a
      function from the world before it to its result and the world
      after it, which records the requests that were dispatched.
    - Library behaviour that depends on tables this development does not
      carry (Unicode case mapping and case folding, the textual syntax
      of IP addresses, URL syntax) is a field of the class [GoLibrary]:
      every theorem holds for every instance. *)

From Stdlib Require Import ZArith List String Ascii Bool Lia.
From Stdlib Require Import DecimalString DecimalN SpecFloat.
Import ListNotations.
Local Open Scope string_scope.
Local Open Scope Z_scope.

Set Implicit Arguments.
Set Warnings "-register-all".

(** ** Results and errors *)

(** Go errors as the provider builds them: a message; a message
    wrapping a cause ([fmt.Errorf("msg: %w", cause)]); or an error value
    produced inside a library (the text of those is not modelled, only
    their origin). *)
Inductive error : Type :=
| errorString (msg : string)
| wrapError (msg : string) (cause : error)
| libraryError (origin : string).

Inductive Result (A : Type) : Type :=
| Ok (a : A)
| Err (e : error).
Arguments Ok {A} a.
Arguments Err {A} e.

(** ** Bytes *)

Definition byte (c : ascii) : Z := Z.of_N (N_of_ascii c).

Definition between (lo hi : Z) (c : ascii) : bool :=
  (lo <=? byte c) && (byte c <=? hi).

Fixpoint string_forallb (f : ascii -> bool) (s : string) : bool :=
  match s with
  | EmptyString => true
  | String c t => f c && string_forallb f t
  end.

Fixpoint string_existsb (f : ascii -> bool) (s : string) : bool :=
  match s with
  | EmptyString => false
  | String c t => f c || string_existsb f t
  end.

Fixpoint string_map (f : ascii -> ascii) (s : string) : string :=
  match s with
  | EmptyString => EmptyString
  | String c t => String (f c) (string_map f t)
  end.

(** [utf8.RuneSelf]: bytes below it are single-byte runes. *)
Definition RuneSelf : Z := 128.

Definition isASCII (s : string) : bool :=
  string_forallb (fun c => byte c <? RuneSelf) s.

(** ** The library interface *)

Class GoLibrary : Type := {
  (** [strings.Map(unicode.ToUpper, s)], the path [strings.ToUpper]
      takes when [s] holds a byte outside ASCII. *)
  unicode_ToUpper_Map : string -> string;
  (** [foldName] of encoding/json on a key that holds a byte outside
      ASCII (Unicode simple case folding). *)
  unicode_foldName : string -> string;
  (** [netip.Addr], [netip.ParseAddr] (with [None] for its error),
      [Addr.String], [Addr.Is6] and [Addr.IsValid] (false of the zero
      [Addr] only); an address that [ParseAddr] returns is valid. *)
  Addr : Type;
  netip_ParseAddr : string -> option Addr;
  Addr_String : Addr -> string;
  Addr_Is6 : Addr -> bool;
  Addr_IsValid : Addr -> bool;
  netip_ParseAddr_IsValid :
    forall (s : string) (ip : Addr), netip_ParseAddr s = Some ip -> Addr_IsValid ip = true;
  (** Whether [url.Parse] returns a URL for the string, as
      [http.NewRequestWithContext] asks it to. *)
  url_Parse_ok : string -> bool
}.

(** ** unicode/utf8 and unicode *)

Module utf8.

Definition RuneError : Z := 65533.

(** [utf8.DecodeRuneInString]: the first rune of [s] and its width in
    bytes; [(RuneError, 1)] on an invalid or truncated encoding and
    [(RuneError, 0)] on the empty string. *)
Definition DecodeRuneInString (s : string) : Z * nat :=
  match s with
  | EmptyString => (RuneError, 0%nat)
  | String c0 t =>
    let s0 := byte c0 in
    if s0 <? RuneSelf then (s0, 1%nat)
    else if (s0 <? 194) || (244 <? s0) then (RuneError, 1%nat)
    else if s0 <? 224 then
      match t with
      | String c1 _ =>
        if between 128 191 c1
        then (Z.lor (Z.shiftl (Z.land s0 31) 6) (Z.land (byte c1) 63), 2%nat)
        else (RuneError, 1%nat)
      | _ => (RuneError, 1%nat)
      end
    else if s0 <? 240 then
      let lo := if s0 =? 224 then 160 else 128 in
      let hi := if s0 =? 237 then 159 else 191 in
      match t with
      | String c1 (String c2 _) =>
        if between lo hi c1 && between 128 191 c2
        then (Z.lor (Z.shiftl (Z.land s0 15) 12)
                (Z.lor (Z.shiftl (Z.land (byte c1) 63) 6) (Z.land (byte c2) 63)),
              3%nat)
        else (RuneError, 1%nat)
      | _ => (RuneError, 1%nat)
      end
    else
      let lo := if s0 =? 240 then 144 else 128 in
      let hi := if s0 =? 244 then 143 else 191 in
      match t with
      | String c1 (String c2 (String c3 _)) =>
        if between lo hi c1 && between 128 191 c2 && between 128 191 c3
        then (Z.lor (Z.shiftl (Z.land s0 7) 18)
                (Z.lor (Z.shiftl (Z.land (byte c1) 63) 12)
                   (Z.lor (Z.shiftl (Z.land (byte c2) 63) 6) (Z.land (byte c3) 63))),
              4%nat)
        else (RuneError, 1%nat)
      | _ => (RuneError, 1%nat)
      end
  end.

End utf8.

Module unicode.

(** [unicode.IsSpace]: the Latin-1 cases and the [White_Space] table. *)
Definition IsSpace (r : Z) : bool :=
  ((9 <=? r) && (r <=? 13)) || (r =? 32) || (r =? 133) || (r =? 160)
  || (r =? 5760) || ((8192 <=? r) && (r <=? 8202))
  || (r =? 8232) || (r =? 8233) || (r =? 8239) || (r =? 8287) || (r =? 12288).

End unicode.

(** ** strings *)

Module strings.

(** The loop of [strings.FieldsFunc(s, unicode.IsSpace)].  [range s]
    steps rune by rune; here the string is consumed byte by byte and
    [skip] counts the bytes of the current rune still to pass.  [cur]
    is the open field ([start >= 0] in the source), [None] between
    fields. *)
Fixpoint fieldsLoop (s : string) (skip : nat) (cur : option string) : list string :=
  match s with
  | EmptyString =>
    match cur with Some f => [f] | None => [] end
  | String c t =>
    match skip with
    | S k =>
      match cur with
      | Some f => fieldsLoop t k (Some (f ++ String c EmptyString))
      | None => fieldsLoop t k None
      end
    | O =>
      let (r, w) := utf8.DecodeRuneInString s in
      if unicode.IsSpace r then
        match cur with
        | Some f => f :: fieldsLoop t (pred w) None
        | None => fieldsLoop t (pred w) None
        end
      else
        match cur with
        | Some f => fieldsLoop t (pred w) (Some (f ++ String c EmptyString))
        | None => fieldsLoop t (pred w) (Some (String c EmptyString))
        end
    end
  end.

(** [strings.Fields]: the fields of [s] around runs of white space as
    [unicode.IsSpace] defines it.  (The source has a path for ASCII
    strings that computes the same fields without decoding.) *)
Definition Fields (s : string) : list string := fieldsLoop s 0 None.

(** [strings.Join]. *)
Fixpoint Join (elems : list string) (sep : string) : string :=
  match elems with
  | [] => ""
  | [e] => e
  | e :: rest => e ++ sep ++ Join rest sep
  end.

Definition isLower (c : ascii) : bool := between 97 122 c.

Definition upperByte (c : ascii) : ascii :=
  if isLower c then ascii_of_N (N_of_ascii c - 32) else c.

(** [strings.ToUpper]: the ASCII path is written out as in the source;
    a string with a byte outside ASCII goes through
    [Map(unicode.ToUpper, s)]. *)
Definition ToUpper `{GoLibrary} (s : string) : string :=
  if isASCII s then
    if string_existsb isLower s then string_map upperByte s else s
  else unicode_ToUpper_Map s.

End strings.

(** ** strconv and fmt *)

Module strconv.

Definition isDigit (c : ascii) : bool := between 48 57 c.

(** [strconv.ParseUint(s, 10, 64)]: base 10 takes digits only; a
    value that does not fit 64 bits is a range error. *)
Definition ParseUint10 (s : string) : option Z :=
  match s with
  | EmptyString => None
  | _ =>
    if string_forallb isDigit s then
      match NilEmpty.uint_of_string s with
      | Some d =>
        let v := Z.of_N (N.of_uint d) in
        if v <? 2 ^ 64 then Some v else None
      | None => None
      end
    else None
  end.

(** [strconv.ParseInt(s, 10, 64)] is used by encoding/json on number
    literals; see [json]. *)

(** [%d] of an unsigned integer in [fmt.Sprintf]. *)
Definition FormatUint (n : Z) : string :=
  NilZero.string_of_uint (N.to_uint (Z.to_N n)).

End strconv.

Module fmt.

(** [ss.SkipSpace] with [nlIsSpace = false], as [Sscanf] sets it: white
    space is passed, a newline is the error "unexpected newline"
    ([None]).  The result is the input that is left. *)
Fixpoint SkipSpace (s : string) (skip : nat) : option string :=
  match s with
  | EmptyString => Some EmptyString
  | String c t =>
    match skip with
    | S k => SkipSpace t k
    | O =>
      let (r, w) := utf8.DecodeRuneInString s in
      if r =? 10 then None
      else if unicode.IsSpace r then SkipSpace t (pred w)
      else Some s
    end
  end.

(** [ss.scanNumber(digits, false)] with the digits that [ss.getBase]
    gives the verb [%d], ["0123456789"]: the longest prefix of decimal
    digits.  (Underscores are taken under the verb [%v] only.) *)
Fixpoint scanNumber (s : string) : string :=
  match s with
  | EmptyString => EmptyString
  | String c t =>
    if strconv.isDigit c then String c (scanNumber t) else EmptyString
  end.

(** [fmt.Sscanf(s, "%d", &result)] with [result] a [uint16]:
    [doScanf] skips space, [scanUint] skips space again, fails at the
    end of the input ("unexpected EOF") or when no digit follows
    ("expected integer"), hands the digits to [strconv.ParseUint]
    (which fails on a number of more than 64 bits) and rejects a value
    that does not fit 16 bits.  Input after the digits is left unread
    and is not an error. *)
Definition Sscanf_d_uint16 (s : string) : option Z :=
  match SkipSpace s 0 with
  | None => None
  | Some s1 =>
    match scanNumber s1 with
    | EmptyString => None
    | tok =>
      match strconv.ParseUint10 tok with
      | Some i => if i <? 2 ^ 16 then Some i else None
      | None => None
      end
    end
  end.

(** [fmt.Sprintf("%d %s", n, s)] with [n] a [uint16] ([0 <= n < 2^16]). *)
Definition Sprintf_d_s (n : Z) (s : string) : string :=
  strconv.FormatUint n ++ " " ++ s.

End fmt.

(** ** time *)

Module time.

(** [time.Duration]: nanoseconds in a signed 64-bit integer. *)
Definition Duration : Type := Z.

Definition Second : Duration := 1000000000.

Definition minInt64 : Z := - 2 ^ 63.
Definition maxInt64 : Z := 2 ^ 63 - 1.

Definition inInt64 (z : Z) : bool := (minInt64 <=? z) && (z <=? maxInt64).

(** Two's-complement wrap-around of a signed 64-bit result. *)
Definition wrap64 (z : Z) : Z := (z + 2 ^ 63) mod 2 ^ 64 - 2 ^ 63.

(** [a * b] on [int64]. *)
Definition mul64 (a b : Z) : Z := wrap64 (a * b).

(** [float64(i)] for an integer [i]: the nearest binary64 value, ties
    to even. *)
Definition float64_of_int (i : Z) : spec_float :=
  binary_normalize 53 1024 i 0 false.

(** [int(f)] for a [float64]: the fraction is discarded (truncation
    toward zero).  Go leaves the conversion of a value that is not
    finite to the implementation; the durations of an [int64] never
    reach that case. *)
Definition int_of_float64 (f : spec_float) : Z :=
  match f with
  | S754_finite s m e =>
    let v := if 0 <=? e then Z.pos m * 2 ^ e else Z.pos m / 2 ^ (- e) in
    if s then - v else v
  | _ => 0
  end.

(** [Duration.Seconds]:
    [sec := d / Second; nsec := d % Second;
     return float64(sec) + float64(nsec)/1e9]
    with Go's integer division and remainder, which truncate. *)
Definition Seconds (d : Duration) : spec_float :=
  let sec := Z.quot d Second in
  let nsec := Z.rem d Second in
  SFadd 53 1024 (float64_of_int sec)
    (SFdiv 53 1024 (float64_of_int nsec) (float64_of_int 1000000000)).

End time.

(** ** libdns *)

Module libdns.
Section Records.
Context `{GoLibrary}.

(** [libdns.RR]: the generic form of a record. *)
Record RR : Type := mkRR {
  RR_Name : string;
  RR_TTL : time.Duration;
  RR_Type : string;
  RR_Data : string
}.

(** The implementations of the interface [libdns.Record] that the
    provider builds, with the fields in the order libdns declares them:
    [Address{Name, TTL, IP}], [TXT{Name, TTL, Text}],
    [CNAME{Name, TTL, Target}], [MX{Name, TTL, Preference, Target}],
    [NS{Name, TTL, Target}] and [RR] itself ([Generic]).  [Other]
    stands for a record of any other implementation (libdns.SRV,
    libdns.CAA, a caller's own type): the provider sees it through
    its [RR] method only.  [Preference] is a [uint16].  The optional
    [ProviderData] that later versions of libdns add to each struct is
    never read or set by the provider and is left out. *)
Inductive Record_ : Type :=
| Address (Name : string) (TTL : time.Duration) (IP : Addr)
| TXT (Name : string) (TTL : time.Duration) (Text : string)
| CNAME (Name : string) (TTL : time.Duration) (Target : string)
| MX (Name : string) (TTL : time.Duration) (Preference : Z) (Target : string)
| NS (Name : string) (TTL : time.Duration) (Target : string)
| Generic (rr : RR)
| Other (rr : RR).

(** The method [RR()] of each implementation.  libdns leaves the data
    empty where the value is the zero value: for the zero [Addr], and
    for an MX record whose preference is 0 and whose target is
    empty. *)
Definition Record_RR (r : Record_) : RR :=
  match r with
  | Address name ttl ip =>
    let recType := if Addr_Is6 ip then "AAAA" else "A" in
    let data := if Addr_IsValid ip then Addr_String ip else "" in
    mkRR name ttl recType data
  | TXT name ttl text => mkRR name ttl "TXT" text
  | CNAME name ttl target => mkRR name ttl "CNAME" target
  | MX name ttl preference target =>
    let data :=
      if (preference =? 0) && String.eqb target "" then ""
      else fmt.Sprintf_d_s preference target in
    mkRR name ttl "MX" data
  | NS name ttl target => mkRR name ttl "NS" target
  | Generic rr => rr
  | Other rr => rr
  end.

End Records.
End libdns.

(** ** encoding/json *)

Module json.
Section Decode.
Context `{GoLibrary}.

(** A number literal: an integer literal (no fraction, no exponent)
    with its value, or any other literal. *)
Inductive number : Type :=
| NumInt (z : Z)
| NumOther (literal : string).

(** A JSON text after [checkValid] accepted it.  An object keeps its
    members in the order of the text, duplicates included. *)
Inductive value : Type :=
| JNull
| JBool (b : bool)
| JNumber (n : number)
| JString (s : string)
| JArray (elems : list value)
| JObject (members : list (string * value)).

(** What the body of a response holds: the document, or [None] when
    the bytes are not a JSON text ([json.Unmarshal] then fails with a
    syntax error whatever the target). *)
Definition document : Type := option value.

(** [foldName]: ASCII letters are upper-cased byte by byte; a key with
    a byte outside ASCII is folded by the Unicode tables. *)
Definition foldName (key : string) : string :=
  if isASCII key then string_map strings.upperByte key else unicode_foldName key.

(** The field a key selects: the field of that exact name, else the
    first field of the same folded name. *)
Definition findField {F : Type} (fields : list (string * F)) (key : string) : option F :=
  match find (fun f => String.eqb (fst f) key) fields with
  | Some f => Some (snd f)
  | None =>
    match find (fun f => String.eqb (foldName (fst f)) (foldName key)) fields with
    | Some f => Some (snd f)
    | None => None
    end
  end.

(** The element type of both targets of [GetRecords]:
    [struct { Name, Type, Value string; TTL int }] with the tags
    [name], [type], [value], [ttl]. *)
Record apiRecord : Type := mkApiRecord {
  Name : string;
  Type_ : string;
  Value : string;
  TTL : Z
}.

Definition zeroRecord : apiRecord := mkApiRecord "" "" "" 0.

Inductive field : Type := FName | FType | FValue | FTTL.

Definition recordFields : list (string * field) :=
  [("name", FName); ("type", FType); ("value", FValue); ("ttl", FTTL)].

(** Decoding stores what fits and goes on: a value of the wrong type
    leaves the target as it is and saves an [UnmarshalTypeError], which
    [Unmarshal] returns at the end.  Each function below returns the
    updated target and whether no error was saved. *)

(** A value into a [string] field. *)
Definition storeString (cur : string) (v : value) : string * bool :=
  match v with
  | JString s => (s, true)
  | JNull => (cur, true)
  | _ => (cur, false)
  end.

(** A value into an [int] field: the literal goes through
    [strconv.ParseInt(_, 10, 64)]. *)
Definition storeInt (cur : Z) (v : value) : Z * bool :=
  match v with
  | JNumber (NumInt z) => if time.inInt64 z then (z, true) else (cur, false)
  | JNull => (cur, true)
  | _ => (cur, false)
  end.

Definition storeMember (st : apiRecord * bool) (kv : string * value) : apiRecord * bool :=
  let (r, ok) := st in
  match findField recordFields (fst kv) with
  | Some FName =>
    let (s, ok') := storeString (Name r) (snd kv) in
    (mkApiRecord s (Type_ r) (Value r) (TTL r), ok && ok')
  | Some FType =>
    let (s, ok') := storeString (Type_ r) (snd kv) in
    (mkApiRecord (Name r) s (Value r) (TTL r), ok && ok')
  | Some FValue =>
    let (s, ok') := storeString (Value r) (snd kv) in
    (mkApiRecord (Name r) (Type_ r) s (TTL r), ok && ok')
  | Some FTTL =>
    let (z, ok') := storeInt (TTL r) (snd kv) in
    (mkApiRecord (Name r) (Type_ r) (Value r) z, ok && ok')
  | None => (r, ok)
  end.

(** A value into an element: an object fills the fields its keys
    select and leaves the others, [null] changes nothing. *)
Definition storeRecord (cur : apiRecord) (v : value) : apiRecord * bool :=
  match v with
  | JObject members => fold_left storeMember members (cur, true)
  | JNull => (cur, true)
  | _ => (cur, false)
  end.

(** A slice: its elements, and what its backing array holds past its
    length (elements an earlier, longer array left there). *)
Record slice : Type := mkSlice {
  elems : list apiRecord;
  spare : list apiRecord
}.

Definition nilSlice : slice := mkSlice [] [].

(** The loop of [decodeState.array] on a slice: element [i] is decoded
    into the slot [i] of the backing array as it is, a zero element
    once the array is exhausted. *)
Fixpoint storeElems (backing : list apiRecord) (vs : list value) : list apiRecord * bool :=
  match vs with
  | [] => ([], true)
  | v :: vs' =>
    let (r, ok) := storeRecord (hd zeroRecord backing) v in
    let (rs, ok') := storeElems (tl backing) vs' in
    (r :: rs, ok && ok')
  end.

(** A value into a slice field or a slice target. *)
Definition storeSlice (cur : slice) (v : value) : slice * bool :=
  match v with
  | JArray [] => (nilSlice, true)
  | JArray vs =>
    let backing := (elems cur ++ spare cur)%list in
    let (rs, ok) := storeElems backing vs in
    (mkSlice rs (skipn (List.length vs) backing), ok)
  | JNull => (nilSlice, true)
  | _ => (cur, false)
  end.

Definition responseFields : list (string * unit) := [("records", tt)].

Definition storeResponseMember (st : slice * bool) (kv : string * value) : slice * bool :=
  let (sl, ok) := st in
  match findField responseFields (fst kv) with
  | Some _ =>
    let (sl', ok') := storeSlice sl (snd kv) in (sl', ok && ok')
  | None => (sl, ok)
  end.

Definition typeError : error := libraryError "json.UnmarshalTypeError".
Definition syntaxError : error := libraryError "json.SyntaxError".

(** [json.Unmarshal(bodyBytes, &apiResponse)] with [apiResponse] the
    zero [struct { Records []apiRecord }]: the records on success. *)
Definition Unmarshal_apiResponse (body : document) : Result (list apiRecord) :=
  match body with
  | None => Err syntaxError
  | Some (JObject members) =>
    let (sl, ok) := fold_left storeResponseMember members (nilSlice, true) in
    if ok then Ok (elems sl) else Err typeError
  | Some JNull => Ok []
  | Some _ => Err typeError
  end.

(** [json.Unmarshal(bodyBytes, &apiRecords)] with [apiRecords] a nil
    [[]apiRecord]. *)
Definition Unmarshal_apiRecords (body : document) : Result (list apiRecord) :=
  match body with
  | None => Err syntaxError
  | Some v =>
    let (sl, ok) := storeSlice nilSlice v in
    if ok then Ok (elems sl) else Err typeError
  end.

End Decode.
End json.

(** ** net/url *)

Module url.
Section Parse.
Context `{GoLibrary}.

(** [*url.URL]: the value that [url.Parse] returns for a string, kept
    here as the string it was parsed from.  When a request is sent the
    library spells the URL in its own way ([URL.EscapedPath] writes a
    space of the path as [%20], for one, and leaves [/] as it is); that
    spelling is not modelled, and nothing is said here of the bytes of
    a request line.  Two strings that the library reads as one URL are
    kept apart here, so only equalities of URLs are used below, and an
    inequality only where the library tells the two apart as well. *)
Inductive URL : Type :=
| parsed (rawURL : string).

(** [url.Parse], with [None] for its error. *)
Definition Parse (rawURL : string) : option URL :=
  if url_Parse_ok rawURL then Some (parsed rawURL) else None.

End Parse.

(** [url.PathEscape] is not called by the provider.  It is the
    "path-escaped form" of a zone, to compare with the path the
    provider builds: [escape(s, encodePathSegment)] leaves letters,
    digits and [- _ . ~ $ & + = : @] as they are and writes every other
    byte as [%XX] with upper-case hexadecimal digits. *)
Definition shouldEscape (c : ascii) : bool :=
  let b := byte c in
  if between 97 122 c || between 65 90 c || between 48 57 c then false
  else if (b =? 45) || (b =? 95) || (b =? 46) || (b =? 126) then false
  else if (b =? 36) || (b =? 38) || (b =? 43) || (b =? 61) || (b =? 58) || (b =? 64)
  then false
  else true.

Definition upperhex (n : Z) : ascii :=
  if n <? 10 then ascii_of_N (Z.to_N (48 + n)) else ascii_of_N (Z.to_N (55 + n)).

Fixpoint PathEscape (s : string) : string :=
  match s with
  | EmptyString => EmptyString
  | String c t =>
    if shouldEscape c then
      String "%" (String (upperhex (Z.shiftr (byte c) 4))
                    (String (upperhex (Z.land (byte c) 15)) (PathEscape t)))
    else String c (PathEscape t)
  end.

End url.

(** ** net/http: requests, responses and the remote API *)

Module http.
Section Transport.
Context `{GoLibrary}.

Definition StatusOK : Z := 200.
Definition StatusCreated : Z := 201.
Definition StatusNoContent : Z := 204.

(** One element of the body of a write:
    [map[string]interface{}{"name", "type", "data", "ttl"}]. *)
Record wireRecord : Type := mkWire {
  w_name : string;
  w_type : string;
  w_data : string;
  w_ttl : Z
}.

(** The body of a write before [json.Marshal]:
    [map[string]interface{}{"records": apiRecords}].  Marshalling such
    a value (strings and integers) does not fail. *)
Record requestBody : Type := mkBody {
  records : list wireRecord
}.

(** [*http.Request]: the method, the URL, the header, and the value
    of which the body is the JSON text. *)
Record Request : Type := mkRequest {
  Method : string;
  URL : url.URL;
  Header : list (string * string);
  ReqBody : option requestBody
}.

(** [http.NewRequestWithContext(ctx, method, url, body)]: the URL is
    parsed; the request has no header yet.  (The methods that the
    provider passes are valid, and its context is not nil.) *)
Definition NewRequestWithContext (method rawURL : string) (body : option requestBody)
  : Result Request :=
  match url.Parse rawURL with
  | Some u => Ok (mkRequest method u [] body)
  | None => Err (libraryError "net/url")
  end.

(** [req.Header.Set(key, value)] for a key in canonical form. *)
Definition Header_Set (req : Request) (key value : string) : Request :=
  mkRequest (Method req) (URL req)
    (filter (fun kv => negb (String.eqb (fst kv) key)) (Header req) ++ [(key, value)])
    (ReqBody req).

(** [Body] is what [io.ReadAll(resp.Body)] returns. *)
Record Response : Type := mkResponse {
  StatusCode : Z;
  Status : string;
  Body : Result json.document
}.

(** The world outside the process: the requests dispatched so far and
    the answer of the network and the API server to the next one,
    which may depend on those before it.  An [Err] answer is a failure
    of [client.Do] (network, time-out, cancelled context). *)
Record World : Type := mkWorld {
  sent : list Request;
  remote : list Request -> Request -> Result Response
}.

Definition IO (A : Type) : Type := World -> A * World.

Definition ret {A : Type} (a : A) : IO A := fun w => (a, w).

Definition bind {A B : Type} (m : IO A) (k : A -> IO B) : IO B :=
  fun w => let (a, w') := m w in k a w'.

(** [p.client.Do(req)]: one outbound call. *)
Definition client_Do (req : Request) : IO (Result Response) :=
  fun w => (remote w (sent w) req, mkWorld (sent w ++ [req]) (remote w)).

End Transport.
End http.

Notation "x <- m ;; k" := (http.bind m (fun x => k))
  (at level 61, m at next level, right associativity).

(** ** The provider *)

Module libdnsimmosquare.
Section Provider.
Context `{GoLibrary}.
Import libdns http.

Definition Version : string := "1.0.4".

(** [defaultMinTTL = 120 * time.Second]. *)
Definition defaultMinTTL : time.Duration := 120 * time.Second.

(** The provider's configuration.  The field [client] of the source is
    a handle created on first use and carries no data the operations
    read. *)
Record Provider : Type := mkProvider {
  APIToken : string;
  Endpoint : string
}.

Definition initClient (p : Provider) : Result unit :=
  if String.eqb (Endpoint p) "" then
    Err (errorString "endpoint is required for the immosquare provider")
  else Ok tt.

Definition makeRequest (p : Provider) (method path : string) (body : option requestBody)
  : IO (Result Response) :=
  match initClient p with
  | Err err => ret (Err err)
  | Ok _ =>
    let url := Endpoint p ++ path in
    match NewRequestWithContext method url body with
    | Err err => ret (Err (wrapError "request creation error" err))
    | Ok req =>
      let req :=
        match body with
        | Some _ => Header_Set req "Content-Type" "application/json"
        | None => req
        end in
      let req :=
        if String.eqb (APIToken p) "" then req
        else Header_Set req "Authorization" ("Bearer " ++ APIToken p) in
      client_Do req
    end
  end.

(** [parseUint16]: the parsed value, [None] for [err != nil]. *)
Definition parseUint16 (s : string) : option Z := fmt.Sscanf_d_uint16 s.

(** The MX case shared word for word by [convertAPIRecordToLibDNS] and
    [convertToSpecificTypes]: preference and target from the value. *)
Definition mxParts (value : string) : Z * string :=
  let parts := strings.Fields value in
  if (2 <=? List.length parts)%nat then
    match parseUint16 (nth 0 parts "") with
    | Some pref => (pref, strings.Join (skipn 1 parts) " ")
    | None => (10, value)
    end
  else (10, value).

Definition convertAPIRecordToLibDNS (apiRecord : json.apiRecord) : Result Record_ :=
  let ttl := time.mul64 (json.TTL apiRecord) time.Second in
  let type := strings.ToUpper (json.Type_ apiRecord) in
  if String.eqb type "A" || String.eqb type "AAAA" then
    match netip_ParseAddr (json.Value apiRecord) with
    | None =>
      Err (wrapError ("invalid IP address '" ++ json.Value apiRecord ++ "'")
             (libraryError "netip.ParseAddr"))
    | Some ip => Ok (Address (json.Name apiRecord) ttl ip)
    end
  else if String.eqb type "TXT" then
    Ok (TXT (json.Name apiRecord) ttl (json.Value apiRecord))
  else if String.eqb type "CNAME" then
    Ok (CNAME (json.Name apiRecord) ttl (json.Value apiRecord))
  else if String.eqb type "MX" then
    let (preference, target) := mxParts (json.Value apiRecord) in
    Ok (MX (json.Name apiRecord) ttl preference target)
  else if String.eqb type "NS" then
    Ok (NS (json.Name apiRecord) ttl (json.Value apiRecord))
  else
    Ok (Generic (mkRR (json.Name apiRecord) ttl (json.Type_ apiRecord)
                   (json.Value apiRecord))).

(** The body of the loop of [convertToSpecificTypes]: what is appended
    to [result] for one record. *)
Definition convertToSpecificType (record : Record_) : Record_ :=
  let rr := Record_RR record in
  let type := strings.ToUpper (RR_Type rr) in
  if String.eqb type "A" || String.eqb type "AAAA" then
    match netip_ParseAddr (RR_Data rr) with
    | None => Generic rr
    | Some ip => Address (RR_Name rr) (RR_TTL rr) ip
    end
  else if String.eqb type "TXT" then TXT (RR_Name rr) (RR_TTL rr) (RR_Data rr)
  else if String.eqb type "CNAME" then CNAME (RR_Name rr) (RR_TTL rr) (RR_Data rr)
  else if String.eqb type "MX" then
    let (preference, target) := mxParts (RR_Data rr) in
    MX (RR_Name rr) (RR_TTL rr) preference target
  else if String.eqb type "NS" then NS (RR_Name rr) (RR_TTL rr) (RR_Data rr)
  else Generic rr.

Fixpoint convertToSpecificTypes_loop (records result : list Record_) : list Record_ :=
  match records with
  | [] => result
  | record :: rest =>
    convertToSpecificTypes_loop rest (result ++ [convertToSpecificType record])
  end.

Definition convertToSpecificTypes (records : list Record_) : list Record_ :=
  convertToSpecificTypes_loop records [].

(** The loop of [GetRecords] over the decoded elements (the same loop
    follows both shapes of the body). *)
Fixpoint convertRecords (apiRecords : list json.apiRecord) (records : list Record_)
  : Result (list Record_) :=
  match apiRecords with
  | [] => Ok records
  | apiRecord :: rest =>
    match convertAPIRecordToLibDNS apiRecord with
    | Err err => Err (wrapError "record conversion error" err)
    | Ok record => convertRecords rest (records ++ [record])
    end
  end.

(** [GetRecords] from the response on. *)
Definition GetRecords_response (resp : Response) : Result (list Record_) :=
  if negb (StatusCode resp =? StatusOK) then
    Err (errorString ("API error: " ++ Status resp))
  else
    match Body resp with
    | Err err => Err (wrapError "body reading error" err)
    | Ok bodyBytes =>
      match json.Unmarshal_apiResponse bodyBytes with
      | Err _ =>
        match json.Unmarshal_apiRecords bodyBytes with
        | Err err => Err (wrapError "JSON decoding error" err)
        | Ok apiRecords => convertRecords apiRecords []
        end
      | Ok apiResponse_Records => convertRecords apiResponse_Records []
      end
    end.

Definition GetRecords (p : Provider) (zone : string) : IO (Result (list Record_)) :=
  resp <- makeRequest p "GET" ("/zones/" ++ zone ++ "/records") None ;;
  match resp with
  | Err err => ret (Err (wrapError "GET request error" err))
  | Ok resp => ret (GetRecords_response resp)
  end.

(** [int(ttl.Seconds())]. *)
Definition wireTTL (ttl : time.Duration) : Z := time.int_of_float64 (time.Seconds ttl).

(** The loop of [AppendRecords] that builds [apiRecords]. *)
Fixpoint AppendRecords_apiRecords (records : list Record_) (apiRecords : list wireRecord)
  : list wireRecord :=
  match records with
  | [] => apiRecords
  | record :: rest =>
    let rr := Record_RR record in
    let ttl := RR_TTL rr in
    let ttl := if ttl <? defaultMinTTL then defaultMinTTL else ttl in
    let apiRecord := mkWire (RR_Name rr) (RR_Type rr) (RR_Data rr) (wireTTL ttl) in
    AppendRecords_apiRecords rest (apiRecords ++ [apiRecord])
  end.

Definition AppendRecords (p : Provider) (zone : string) (records : list Record_)
  : IO (Result (list Record_)) :=
  match records with
  | [] => ret (Ok [])
  | _ =>
    let apiRecords := AppendRecords_apiRecords records [] in
    let requestBody := mkBody apiRecords in
    resp <- makeRequest p "POST" ("/zones/" ++ zone ++ "/records") (Some requestBody) ;;
    match resp with
    | Err err => ret (Err (wrapError "POST request error" err))
    | Ok resp =>
      if negb (StatusCode resp =? StatusCreated) && negb (StatusCode resp =? StatusOK) then
        ret (Err (errorString ("API error during addition: " ++ Status resp)))
      else ret (Ok (convertToSpecificTypes records))
    end
  end.

(** The loop of [SetRecords] that builds [apiRecords]. *)
Fixpoint SetRecords_apiRecords (records : list Record_) (apiRecords : list wireRecord)
  : list wireRecord :=
  match records with
  | [] => apiRecords
  | record :: rest =>
    let rr := Record_RR record in
    let ttl := RR_TTL rr in
    let ttl := if ttl <? defaultMinTTL then defaultMinTTL else ttl in
    let apiRecord := mkWire (RR_Name rr) (RR_Type rr) (RR_Data rr) (wireTTL ttl) in
    SetRecords_apiRecords rest (apiRecords ++ [apiRecord])
  end.

Definition SetRecords (p : Provider) (zone : string) (records : list Record_)
  : IO (Result (list Record_)) :=
  match records with
  | [] => ret (Ok [])
  | _ =>
    let apiRecords := SetRecords_apiRecords records [] in
    let requestBody := mkBody apiRecords in
    resp <- makeRequest p "PUT" ("/zones/" ++ zone ++ "/records") (Some requestBody) ;;
    match resp with
    | Err err => ret (Err (wrapError "PUT request error" err))
    | Ok resp =>
      if negb (StatusCode resp =? StatusOK) then
        ret (Err (errorString ("API error during update: " ++ Status resp)))
      else ret (Ok (convertToSpecificTypes records))
    end
  end.

(** The loop of [DeleteRecords] that builds [apiRecords]. *)
Fixpoint DeleteRecords_apiRecords (records : list Record_) (apiRecords : list wireRecord)
  : list wireRecord :=
  match records with
  | [] => apiRecords
  | record :: rest =>
    let rr := Record_RR record in
    let apiRecord :=
      mkWire (RR_Name rr) (RR_Type rr) (RR_Data rr) (wireTTL (RR_TTL rr)) in
    DeleteRecords_apiRecords rest (apiRecords ++ [apiRecord])
  end.

Definition DeleteRecords (p : Provider) (zone : string) (records : list Record_)
  : IO (Result (list Record_)) :=
  match records with
  | [] => ret (Ok [])
  | _ =>
    let apiRecords := DeleteRecords_apiRecords records [] in
    let requestBody := mkBody apiRecords in
    resp <- makeRequest p "DELETE" ("/zones/" ++ zone ++ "/records") (Some requestBody) ;;
    match resp with
    | Err err => ret (Err (wrapError "DELETE request error" err))
    | Ok resp =>
      if (StatusCode resp =? StatusOK) || (StatusCode resp =? StatusNoContent) then
        ret (Ok (convertToSpecificTypes records))
      else ret (Ok [])
    end
  end.

End Provider.
End libdnsimmosquare.

(** ** The test driver ([test/test_provider.go], package [main]) *)

Module test_provider.
Section Main.
Context `{GoLibrary}.
Import libdns http libdnsimmosquare.

(** The zero [netip.Addr], which [netip.ParseAddr] returns with an
    error. *)
Variable zeroAddr : Addr.

(** A value handed to a verb of a format string. *)
Inductive arg : Type :=
| Int (n : Z)
| Str (s : string)
| Dur (d : time.Duration)
| Error (err : error).

(** One call that writes: [fmt.Println] and [fmt.Printf] to the
    standard output, [log.Printf] and [log.Fatal] to the standard
    logger. *)
Inductive output : Type :=
| fmt_Println (s : string)
| fmt_Printf (format : string) (args : list arg)
| log_Printf (format : string) (args : list arg)
| log_Fatal (s : string).

(** How [main] ends: it returns, or [log.Fatal] calls [os.Exit(1)]. *)
Inductive exit : Type :=
| Returned
| Exited (code : Z).

(** The line feed of the format strings, and the bytes of the check
    mark U+2705 that opens the lines of success. *)
Definition nl : string := String (ascii_of_nat 10) "".
Definition checkMark : string :=
  String (ascii_of_nat 226) (String (ascii_of_nat 156) (String (ascii_of_nat 133) "")).

(** The loop that prints the records of a result; [i] is the index
    of the first of [records]. *)
Fixpoint printRecords (records : list Record_) (i : Z) : list output :=
  match records with
  | [] => []
  | record :: rest =>
    let rr := Record_RR record in
    fmt_Printf ("  %d. %s %s %s (TTL: %s)" ++ nl)
      [Int (i + 1); Str (RR_Name rr); Str (RR_Type rr); Str (RR_Data rr); Dur (RR_TTL rr)]
    :: printRecords rest (i + 1)
  end.

(** [ip, _ := netip.ParseAddr(s)]: the error is dropped, and with it
    the driver keeps the zero address. *)
Definition parseOrZero (s : string) : Addr :=
  match netip_ParseAddr s with
  | Some ip => ip
  | None => zeroAddr
  end.

(** [main]: the calls that write, in order, how the program ends, and
    the world after it.  [getenv] is [os.Getenv]. *)
Definition main (getenv : string -> string) (w : World) : exit * list output * World :=
  let apiToken := getenv "API_TOKEN" in
  let endPoint := getenv "ENDPOINT" in
  if String.eqb apiToken "" then
    (Exited 1, [log_Fatal "Error: API_TOKEN environment variable not defined"], w)
  else if String.eqb endPoint "" then
    (Exited 1, [log_Fatal "Error: ENDPOINT environment variable not defined"], w)
  else
    let provider := mkProvider apiToken endPoint in
    let zone := "example.com" in
    let out := [fmt_Println "=== Testing immosquare DNS provider ==="] in
    (* Test 1 *)
    let out := List.app out [fmt_Println (nl ++ "1. Retrieving existing records...")] in
    let (result, w) := GetRecords provider zone w in
    let out :=
      List.app out (match result with
             | Err err => [log_Printf "GetRecords error: %v" [Error err]]
             | Ok records =>
               fmt_Printf (checkMark ++ " %d records found" ++ nl)
                 [Int (Z.of_nat (List.length records))]
               :: printRecords records 0
             end) in
    (* Test 2 *)
    let out := List.app out [fmt_Println (nl ++ "2. Adding a TXT record for ACME challenge...")] in
    let newTXTRecord := TXT "_acme-challenge" (300 * time.Second) "test-challenge-token-12345" in
    let (result, w) := AppendRecords provider zone [newTXTRecord] w in
    let out :=
      List.app out (match result with
             | Err err => [log_Printf "AppendRecords error: %v" [Error err]]
             | Ok addedRecords =>
               fmt_Printf (checkMark ++ " %d records added" ++ nl)
                 [Int (Z.of_nat (List.length addedRecords))]
               :: printRecords addedRecords 0
             end) in
    (* Test 3 *)
    let out := List.app out [fmt_Println (nl ++ "3. Testing SetRecords (replace all records)...")] in
    let ip1 := parseOrZero "192.99.250.180" in
    let ip2 := parseOrZero "192.99.250.181" in
    let ip3 := parseOrZero "192.99.250.182" in
    let setRecords :=
      [Address "www" (600 * time.Second) ip1;
       Address "mail" (900 * time.Second) ip2;
       Address "api" (1200 * time.Second) ip3] in
    let (result, w) := SetRecords provider zone setRecords w in
    let out :=
      List.app out (match result with
             | Err err => [log_Printf "SetRecords error: %v" [Error err]]
             | Ok updatedRecords =>
               fmt_Printf (checkMark ++ " %d records defined" ++ nl)
                 [Int (Z.of_nat (List.length updatedRecords))]
               :: printRecords updatedRecords 0
             end) in
    (* Test 4 *)
    let out := List.app out [fmt_Println (nl ++ "4. Testing DeleteRecords (delete a record)...")] in
    let deleteRecords := [Address "api" (1200 * time.Second) ip3] in
    let (result, w) := DeleteRecords provider zone deleteRecords w in
    let out :=
      List.app out (match result with
             | Err err => [log_Printf "DeleteRecords error: %v" [Error err]]
             | Ok deletedRecords =>
               [fmt_Printf (checkMark ++ " %d records deleted" ++ nl)
                  [Int (Z.of_nat (List.length deletedRecords))]]
             end) in
    (* Test 5 *)
    let out := List.app out [fmt_Println (nl ++ "5. Testing with different record types...")] in
    let cnameRecord := CNAME "www2" (300 * time.Second) "www.example.com" in
    let mxRecord := MX "@" (600 * time.Second) 10 "mail.example.com" in
    let nsRecord := NS "@" (86400 * time.Second) "ns1.example.com" in
    let mixedRecords := [cnameRecord; mxRecord; nsRecord] in
    let (result, w) := AppendRecords provider zone mixedRecords w in
    let out :=
      List.app out (match result with
             | Err err => [log_Printf "AppendRecords error (mixed types): %v" [Error err]]
             | Ok addedMixedRecords =>
               fmt_Printf (checkMark ++ " %d mixed records added" ++ nl)
                 [Int (Z.of_nat (List.length addedMixedRecords))]
               :: printRecords addedMixedRecords 0
             end) in
    let out := List.app out [fmt_Println (nl ++ "=== Test completed ===")] in
    (Returned, out, w).

End Main.
End test_provider.

(** ** A library to run the model on

    IPv4 literals in dotted-decimal form as the only addresses, every
    one of them valid, strings
    with a byte outside ASCII left as they are by case mapping and
    folding, every URL accepted.  The examples below are ASCII and do
    not reach the Unicode fields. *)

Module Example.

Definition Addr4 : Type := (Z * Z * Z * Z)%type.

Fixpoint splitDots (s cur : string) : list string :=
  match s with
  | EmptyString => [cur]
  | String c t =>
    if byte c =? 46 then cur :: splitDots t EmptyString
    else splitDots t (cur ++ String c EmptyString)
  end.

(** One field of an IPv4 literal: one to three digits, no leading
    zero, at most 255. *)
Definition parseOctet (s : string) : option Z :=
  match s with
  | EmptyString => None
  | String c t =>
    if string_forallb strconv.isDigit s
       && (String.length s <=? 3)%nat
       && negb ((byte c =? 48) && (1 <=? String.length t)%nat)
    then
      match strconv.ParseUint10 s with
      | Some v => if v <=? 255 then Some v else None
      | None => None
      end
    else None
  end.

Definition ParseAddr4 (s : string) : option Addr4 :=
  match splitDots s EmptyString with
  | [a; b; c; d] =>
    match parseOctet a, parseOctet b, parseOctet c, parseOctet d with
    | Some a, Some b, Some c, Some d => Some (a, b, c, d)
    | _, _, _, _ => None
    end
  | _ => None
  end.

Definition String4 (ip : Addr4) : string :=
  let '(a, b, c, d) := ip in
  strconv.FormatUint a ++ "." ++ strconv.FormatUint b ++ "."
    ++ strconv.FormatUint c ++ "." ++ strconv.FormatUint d.

Definition library : GoLibrary := {|
  unicode_ToUpper_Map := fun s => s;
  unicode_foldName := fun s => s;
  Addr := Addr4;
  netip_ParseAddr := ParseAddr4;
  Addr_String := String4;
  Addr_Is6 := fun _ => false;
  Addr_IsValid := fun _ => true;
  netip_ParseAddr_IsValid := fun _ _ _ => eq_refl;
  url_Parse_ok := fun _ => true
|}.

(** A world in which nothing was sent yet and every request gets the
    same response. *)
Definition always (resp : http.Response) : http.World :=
  http.mkWorld [] (fun _ _ => Ok resp).

Definition provider : @libdnsimmosquare.Provider :=
  libdnsimmosquare.mkProvider "secret" "https://dns.example/api".

Definition ok200 (body : json.document) : http.Response :=
  http.mkResponse 200 "200 OK" (Ok body).

(** [{"name":"a","type":"TXT","value":"x","ttl":60}] *)
Definition txtElement : json.value :=
  json.JObject [("name", json.JString "a"); ("type", json.JString "TXT");
                ("value", json.JString "x"); ("ttl", json.JNumber (json.NumInt 60))].

(** [{"name":"www","type":"A","value":"not-an-ip","ttl":60}] *)
Definition badAddressElement : json.value :=
  json.JObject [("name", json.JString "www"); ("type", json.JString "A");
                ("value", json.JString "not-an-ip");
                ("ttl", json.JNumber (json.NumInt 60))].

End Example.

(** ** Vocabulary of the properties *)

Section Vocabulary.
Context `{GoLibrary}.
Import libdns http libdnsimmosquare.

(** The path every operation passes to [makeRequest]. *)
Definition zonePath (zone : string) : string := "/zones/" ++ zone ++ "/records".

(** The headers [makeRequest] sets. *)
Definition requestHeader (p : Provider) (body : option requestBody) : list (string * string) :=
  let contentType :=
    match body with
    | Some _ => [("Content-Type", "application/json")]
    | None => []
    end in
  let authorization :=
    if String.eqb (APIToken p) "" then []
    else [("Authorization", "Bearer " ++ APIToken p)] in
  contentType ++ authorization.

(** The request [makeRequest] hands to the client. *)
Definition requestOf (p : Provider) (method zone : string) (body : option requestBody) : Request :=
  mkRequest method (url.parsed (Endpoint p ++ zonePath zone)) (requestHeader p body) body.

(** One element of the body of an append or a set. *)
Definition flooredWire (record : Record_) : wireRecord :=
  let rr := Record_RR record in
  mkWire (RR_Name rr) (RR_Type rr) (RR_Data rr)
    (wireTTL (if RR_TTL rr <? defaultMinTTL then defaultMinTTL else RR_TTL rr)).

(** One element of the body of a delete. *)
Definition plainWire (record : Record_) : wireRecord :=
  let rr := Record_RR record in
  mkWire (RR_Name rr) (RR_Type rr) (RR_Data rr) (wireTTL (RR_TTL rr)).

(** What an operation may do to the world: nothing, or dispatch one
    request to the zone's URL built from the zone as given. *)
Definition atMostOneCall (p : Provider) (zone : string) (w w' : World) : Prop :=
  w' = w
  \/ exists req,
       sent w' = (sent w ++ [req])%list
       /\ URL req = url.parsed (Endpoint p ++ "/zones/" ++ zone ++ "/records").

(** A type tag that upper-cases to [A] or [AAAA]. *)
Definition isAddressTag (type : string) : bool :=
  String.eqb (strings.ToUpper type) "A" || String.eqb (strings.ToUpper type) "AAAA".

(** The error of [GetRecords] for a record it cannot convert. *)
Definition conversionError (value : string) : error :=
  wrapError "record conversion error"
    (wrapError ("invalid IP address '" ++ value ++ "'") (libraryError "netip.ParseAddr")).

(** The two ways a body yields a list of elements: as an object with
    a field [records], or, when that parse fails, as a bare array. *)
Definition decodesTo (body : json.document) (apiRecords : list json.apiRecord) : Prop :=
  json.Unmarshal_apiResponse body = Ok apiRecords
  \/ ((exists e, json.Unmarshal_apiResponse body = Err e)
      /\ json.Unmarshal_apiRecords body = Ok apiRecords).

(** No member of the object selects the field [records]. *)
Definition noRecordsField (members : list (string * json.value)) : Prop :=
  forall kv, In kv members -> json.findField json.responseFields (fst kv) = None.

(** The field that is open at a point of the loop, as a string. *)
Definition openField (cur : option string) : string :=
  match cur with Some f => f | None => EmptyString end.

(** The tags of the dispatch table, as the [switch] tests them. *)
Definition inDispatchTable (type : string) : bool :=
  let t := strings.ToUpper type in
  String.eqb t "A" || String.eqb t "AAAA" || String.eqb t "TXT"
  || String.eqb t "CNAME" || String.eqb t "MX" || String.eqb t "NS".

(** No rune of [s] is white space ([skip] bytes of [s] belong to a
    rune already seen). *)
Fixpoint spaceFree (s : string) (skip : nat) : bool :=
  match s with
  | EmptyString => true
  | String c t =>
    match skip with
    | S k => spaceFree t k
    | O =>
      let (r, w) := utf8.DecodeRuneInString s in
      negb (unicode.IsSpace r) && spaceFree t (pred w)
    end
  end.

(** A target that the MX case reads back as it was written: it has a
    token, and it is its tokens joined by single spaces. *)
Definition readsBack (target : string) : Prop :=
  strings.Fields target <> []
  /\ strings.Join (strings.Fields target) " " = target.

(** What a shift record stands for while a mantissa is shifted right:
    the exact quantity [T / den], of which [shr_m] is the integer part
    and the round and sticky bits locate the fraction against one
    half. *)
Definition locates (mrs : shr_record) (den T : Z) : Prop :=
  0 < den /\ 0 <= shr_m mrs
  /\ 0 <= T - shr_m mrs * den < den
  /\ shr_r mrs = (den <=? 2 * (T - shr_m mrs * den))
  /\ shr_s mrs
     = negb (2 * (T - shr_m mrs * den) - (if shr_r mrs then den else 0) =? 0).

(** The divisor of [Duration.Seconds]. *)
Definition nanosPerSecond : Z := 1000000000.

(** What [makeRequest] puts on a request of a provider: the bearer
    token exactly when one is configured, the JSON content type exactly
    when there is a body, and no other header. *)
Definition carriesCredentials (p : Provider) (req : Request) : Prop :=
  (forall v, In ("Authorization", v) (Header req)
             <-> APIToken p <> "" /\ v = "Bearer " ++ APIToken p)
  /\ (forall v, In ("Content-Type", v) (Header req)
                <-> ReqBody req <> None /\ v = "application/json")
  /\ (forall k v, In (k, v) (Header req) -> k = "Authorization" \/ k = "Content-Type").

(** A network on which every call fails with [err]. *)
Definition unreachable (w : World) (err : error) : Prop :=
  forall log req, remote w log req = Err err.

(** The largest number of seconds whose nanoseconds fit a [Duration]. *)
Definition maxSeconds : Z := 9223372036.

(** Whether a JSON value can be stored in a field of an element: a
    string or [null] in [name], [type] and [value]; an integer literal
    that fits 64 bits or [null] in [ttl]. *)
Definition fits (f : json.field) (v : json.value) : bool :=
  match f, v with
  | _, json.JNull => true
  | json.FTTL, json.JNumber (json.NumInt z) => time.inInt64 z
  | json.FTTL, _ => false
  | _, json.JString _ => true
  | _, _ => false
  end.

(** Whether a member fits the field its key selects, if any. *)
Definition memberFits (kv : string * json.value) : bool :=
  match json.findField json.recordFields (fst kv) with
  | Some f => fits f (snd kv)
  | None => true
  end.

(** Whether a JSON value can be stored in an element: [null], or an
    object whose members fit the fields their keys select. *)
Definition wellTyped (v : json.value) : bool :=
  match v with
  | json.JNull => true
  | json.JObject members => forallb memberFits members
  | _ => false
  end.

(** The element a JSON value decodes to, starting from the zero
    element. *)
Definition decodeElement (v : json.value) : json.apiRecord :=
  fst (json.storeRecord json.zeroRecord v).

(** An element of a body and the record it is listed as. *)
Definition listedAs (v : json.value) (r : Record_) : Prop :=
  wellTyped v = true /\ convertAPIRecordToLibDNS (decodeElement v) = Ok r.

(** No member selects the field [f]. *)
Definition noMemberFor (f : json.field) (members : list (string * json.value)) : Prop :=
  forall kv, In kv members -> json.findField json.recordFields (fst kv) <> Some f.

(** An element of a listing and the element of a write that carries
    the record it was listed as; [floor] is the TTL floor of the write
    in seconds. *)
Definition writtenAs (floor : Z) (a : json.apiRecord) (sentRecord : wireRecord) : Prop :=
  w_name sentRecord = json.Name a
  /\ w_ttl sentRecord = Z.max (json.TTL a) floor
  /\ (isAddressTag (json.Type_ a) = false ->
      strings.ToUpper (json.Type_ a) <> "MX" ->
      w_data sentRecord = json.Value a).

(** A record and the element that carries it in the body of a write
    that raises TTLs to [floor]: the element's [ttl] is the whole
    seconds of the raised TTL, or one more. *)
Definition ttlWithinOne (floor : time.Duration) (r : Record_) (sentRecord : wireRecord)
  : Prop :=
  let ttl := Z.max (RR_TTL (Record_RR r)) floor in
  Z.quot ttl time.Second <= w_ttl sentRecord <= Z.quot ttl time.Second + 1.

(** The first byte of [s] is a continuation byte of UTF-8. *)
Definition startsWithContinuation (s : string) : bool :=
  match s with
  | EmptyString => false
  | String c _ => between 128 191 c
  end.

(** [spaceFree] for a part [f] of a longer string, of which [rest]
    follows [f]: runes are decoded with what follows in sight. *)
Fixpoint spaceFreeBefore (f : string) (skip : nat) (rest : string) : bool :=
  match f with
  | EmptyString => true
  | String c t =>
    match skip with
    | S k => spaceFreeBefore t k rest
    | O =>
      let (r, w) := utf8.DecodeRuneInString (f ++ rest) in
      negb (unicode.IsSpace r) && spaceFreeBefore t (pred w) rest
    end
  end.

(** What [strings.Fields] returns: strings that are not empty and hold
    no white space. *)
Definition isField (f : string) : Prop := f <> "" /\ spaceFree f 0 = true.

(** A value that starts with a preference: at least two tokens, of
    which [parseUint16] accepts the first. *)
Definition hasPreference (value : string) : Prop :=
  exists first rest n,
    strings.Fields value = first :: rest /\ rest <> [] /\ parseUint16 first = Some n.

(** The records that re-typing maps to a record it leaves alone: the
    text of a parsed address parses back to that address, and the data
    of an MX record starts with a preference or is a target in the form
    the MX case reads back. *)
Definition settlesOnRetype (r : Record_) : Prop :=
  let rr := Record_RR r in
  (isAddressTag (RR_Type rr) = true ->
   forall ip, netip_ParseAddr (RR_Data rr) = Some ip ->
              netip_ParseAddr (Addr_String ip) = Some ip)
  /\ (strings.ToUpper (RR_Type rr) = "MX" ->
      hasPreference (RR_Data rr) \/ readsBack (RR_Data rr)).

(** An element that a listing can convert: it is well typed and, when
    its type is an address tag, its value parses as an address. *)
Definition convertible (v : json.value) : Prop :=
  wellTyped v = true
  /\ (isAddressTag (json.Type_ (decodeElement v)) = true ->
      netip_ParseAddr (json.Value (decodeElement v)) <> None).

(** The element of a write for an address record. *)
Definition addressWire (name : string) (ip : Addr) (seconds : Z) : wireRecord :=
  mkWire name (if Addr_Is6 ip then "AAAA" else "A")
    (if Addr_IsValid ip then Addr_String ip else "") seconds.

(** Whether a string starts with a decimal digit. *)
Definition startsWithDigit (s : string) : bool :=
  match s with
  | EmptyString => false
  | String c _ => strconv.isDigit c
  end.

(** "The token parses as an unsigned 16-bit integer", in the words of
    the interface description: the whole token is the decimal numeral
    of a value below 65536, as [strconv.ParseUint(tok, 10, 16)] has
    it. *)
Definition parsesAsUint16 (tok : string) (n : Z) : Prop :=
  strconv.ParseUint10 tok = Some n /\ n < 65536.

(** What the code asks of the token: it starts with the decimal numeral
    of a value below 65536.  [rest], which does not start with a digit,
    is what follows the numeral in the token. *)
Definition startsWithUint16 (tok : string) (n : Z) : Prop :=
  exists digits rest,
    tok = digits ++ rest
    /\ startsWithDigit rest = false
    /\ strconv.ParseUint10 digits = Some n
    /\ n < 65536.

(** A token that starts with no such numeral: it does not start with a
    digit, or the digits it starts with are the numeral of a value of
    65536 or more. *)
Definition startsWithNoUint16 (tok : string) : Prop :=
  startsWithDigit tok = false
  \/ exists digits rest,
       tok = digits ++ rest
       /\ digits <> ""
       /\ string_forallb strconv.isDigit digits = true
       /\ startsWithDigit rest = false
       /\ forall n, strconv.ParseUint10 digits = Some n -> 65536 <= n.

(** The record [r] with the TTL [ttl]. *)
Definition withTTL (ttl : time.Duration) (r : Record_) : Record_ :=
  match r with
  | Address name _ ip => Address name ttl ip
  | TXT name _ text => TXT name ttl text
  | CNAME name _ target => CNAME name ttl target
  | MX name _ preference target => MX name ttl preference target
  | NS name _ target => NS name ttl target
  | Generic rr => Generic (mkRR (RR_Name rr) ttl (RR_Type rr) (RR_Data rr))
  | Other rr => Other (mkRR (RR_Name rr) ttl (RR_Type rr) (RR_Data rr))
  end.

(** The element of a listing that has the name, the type and the data
    of the generic form [rr], and a TTL of [seconds]. *)
Definition elementOf (rr : RR) (seconds : Z) : json.apiRecord :=
  json.mkApiRecord (RR_Name rr) (RR_Type rr) (RR_Data rr) seconds.

(** Re-typing of [r] gives [out] by the dispatch table of decode: what
    decode makes of the element that has the name, type and data of
    the generic form of [r], with the TTL of [r]; and where decode
    fails, the generic form itself. *)
Definition dispatchedAsDecode (r out : Record_) : Prop :=
  forall seconds : Z,
    match convertAPIRecordToLibDNS (elementOf (Record_RR r) seconds) with
    | Ok decoded => out = withTTL (RR_TTL (Record_RR r)) decoded
    | Err _ => out = Generic (Record_RR r)
    end.

(** The five requests of the driver, in order. *)
Definition driverRequests (zeroAddr : Addr) (p : Provider) : list Request :=
  let ip1 := test_provider.parseOrZero zeroAddr "192.99.250.180" in
  let ip2 := test_provider.parseOrZero zeroAddr "192.99.250.181" in
  let ip3 := test_provider.parseOrZero zeroAddr "192.99.250.182" in
  [requestOf p "GET" "example.com" None;
   requestOf p "POST" "example.com"
     (Some (mkBody [mkWire "_acme-challenge" "TXT" "test-challenge-token-12345" 300]));
   requestOf p "PUT" "example.com"
     (Some (mkBody [addressWire "www" ip1 600; addressWire "mail" ip2 900;
                    addressWire "api" ip3 1200]));
   requestOf p "DELETE" "example.com" (Some (mkBody [addressWire "api" ip3 1200]));
   requestOf p "POST" "example.com"
     (Some (mkBody [mkWire "www2" "CNAME" "www.example.com" 300;
                    mkWire "@" "MX" "10 mail.example.com" 600;
                    mkWire "@" "NS" "ns1.example.com" 86400]))].

End Vocabulary.

(** * Properties *)

Unset Implicit Arguments.

Import libdns http libdnsimmosquare.

Section Loops.
Context `{GoLibrary}.

Lemma makeRequest_cases (p : Provider) (method zone : string) (body : option requestBody)
  (w : World) :
  (exists err, makeRequest p method (zonePath zone) body w = (Err err, w))
  \/ makeRequest p method (zonePath zone) body w
     = (remote w (sent w) (requestOf p method zone body),
        mkWorld (sent w ++ [requestOf p method zone body]) (remote w)).
Proof.
  unfold makeRequest, initClient, NewRequestWithContext, url.Parse.
  destruct (String.eqb (Endpoint p) "").
  - left. eexists. reflexivity.
  - destruct (url_Parse_ok (Endpoint p ++ zonePath zone)).
    + right. unfold requestOf, requestHeader, client_Do.
      destruct body; destruct (String.eqb (APIToken p) ""); reflexivity.
    + left. eexists. reflexivity.
Qed.

Lemma makeRequest_dispatch (p : Provider) (method zone : string) (body : option requestBody)
  (w : World) :
  Endpoint p <> "" ->
  url_Parse_ok (Endpoint p ++ zonePath zone) = true ->
  makeRequest p method (zonePath zone) body w
  = (remote w (sent w) (requestOf p method zone body),
     mkWorld (sent w ++ [requestOf p method zone body]) (remote w)).
Proof.
  intros Hend Hurl.
  unfold makeRequest, initClient, NewRequestWithContext, url.Parse.
  destruct (String.eqb_spec (Endpoint p) "") as [E | _]; [contradiction |].
  rewrite Hurl. unfold requestOf, requestHeader, client_Do.
  destruct body; destruct (String.eqb (APIToken p) ""); reflexivity.
Qed.

Lemma convertToSpecificTypes_loop_map (records result : list Record_) :
  convertToSpecificTypes_loop records result
  = (result ++ map convertToSpecificType records)%list.
Proof.
  revert result. induction records as [| r rest IH]; intros result; simpl.
  - now rewrite app_nil_r.
  - rewrite IH, <- app_assoc. reflexivity.
Qed.

Lemma convertToSpecificTypes_map (records : list Record_) :
  convertToSpecificTypes records = map convertToSpecificType records.
Proof. apply convertToSpecificTypes_loop_map. Qed.

Lemma AppendRecords_apiRecords_map (records : list Record_) (acc : list wireRecord) :
  AppendRecords_apiRecords records acc = (acc ++ map flooredWire records)%list.
Proof.
  revert acc. induction records as [| r rest IH]; intros acc; simpl.
  - now rewrite app_nil_r.
  - rewrite IH, <- app_assoc. reflexivity.
Qed.

Lemma SetRecords_apiRecords_map (records : list Record_) (acc : list wireRecord) :
  SetRecords_apiRecords records acc = (acc ++ map flooredWire records)%list.
Proof.
  revert acc. induction records as [| r rest IH]; intros acc; simpl.
  - now rewrite app_nil_r.
  - rewrite IH, <- app_assoc. reflexivity.
Qed.

Lemma DeleteRecords_apiRecords_map (records : list Record_) (acc : list wireRecord) :
  DeleteRecords_apiRecords records acc = (acc ++ map plainWire records)%list.
Proof.
  revert acc. induction records as [| r rest IH]; intros acc; simpl.
  - now rewrite app_nil_r.
  - rewrite IH, <- app_assoc. reflexivity.
Qed.

(** The operations after [makeRequest] is resolved. *)
Lemma GetRecords_dispatch (p : Provider) (zone : string) (w : World) :
  Endpoint p <> "" ->
  url_Parse_ok (Endpoint p ++ zonePath zone) = true ->
  GetRecords p zone w
  = (match remote w (sent w) (requestOf p "GET" zone None) with
     | Err err => Err (wrapError "GET request error" err)
     | Ok resp => GetRecords_response resp
     end,
     mkWorld (sent w ++ [requestOf p "GET" zone None]) (remote w)).
Proof.
  intros Hend Hurl. unfold GetRecords, bind.
  fold (zonePath zone). rewrite (makeRequest_dispatch _ _ _ _ _ Hend Hurl).
  destruct (remote w (sent w) _); reflexivity.
Qed.

End Loops.

Section Operations.
Context `{GoLibrary}.

Lemma makeRequest_atMostOneCall (p : Provider) (method zone : string)
  (body : option requestBody) (w : World) :
  atMostOneCall p zone w (snd (makeRequest p method (zonePath zone) body w)).
Proof.
  destruct (makeRequest_cases p method zone body w) as [[err E] | E]; rewrite E; simpl.
  - left. reflexivity.
  - right. eexists. split; reflexivity.
Qed.

(** Each operation is [makeRequest] followed by a computation that
    does not touch the world. *)
Lemma GetRecords_world (p : Provider) (zone : string) (w : World) :
  snd (GetRecords p zone w) = snd (makeRequest p "GET" (zonePath zone) None w).
Proof.
  unfold GetRecords, bind, ret. fold (zonePath zone).
  destruct (makeRequest p "GET" (zonePath zone) None w) as [[resp | err] w']; reflexivity.
Qed.

Lemma AppendRecords_world (p : Provider) (zone : string) (r : Record_)
  (rest : list Record_) (w : World) :
  snd (AppendRecords p zone (r :: rest) w)
  = snd (makeRequest p "POST" (zonePath zone)
           (Some (mkBody (map flooredWire (r :: rest)))) w).
Proof.
  unfold AppendRecords, bind, ret. fold (zonePath zone).
  rewrite AppendRecords_apiRecords_map. simpl app.
  destruct (makeRequest p "POST" _ _ w) as [[resp | err] w']; [| reflexivity].
  destruct (negb (StatusCode resp =? StatusCreated) && negb (StatusCode resp =? StatusOK));
    reflexivity.
Qed.

Lemma SetRecords_world (p : Provider) (zone : string) (r : Record_)
  (rest : list Record_) (w : World) :
  snd (SetRecords p zone (r :: rest) w)
  = snd (makeRequest p "PUT" (zonePath zone)
           (Some (mkBody (map flooredWire (r :: rest)))) w).
Proof.
  unfold SetRecords, bind, ret. fold (zonePath zone).
  rewrite SetRecords_apiRecords_map. simpl app.
  destruct (makeRequest p "PUT" _ _ w) as [[resp | err] w']; [| reflexivity].
  destruct (negb (StatusCode resp =? StatusOK)); reflexivity.
Qed.

Lemma DeleteRecords_world (p : Provider) (zone : string) (r : Record_)
  (rest : list Record_) (w : World) :
  snd (DeleteRecords p zone (r :: rest) w)
  = snd (makeRequest p "DELETE" (zonePath zone)
           (Some (mkBody (map plainWire (r :: rest)))) w).
Proof.
  unfold DeleteRecords, bind, ret. fold (zonePath zone).
  rewrite DeleteRecords_apiRecords_map. simpl app.
  destruct (makeRequest p "DELETE" _ _ w) as [[resp | err] w']; [| reflexivity].
  destruct ((StatusCode resp =? StatusOK) || (StatusCode resp =? StatusNoContent));
    reflexivity.
Qed.

(** C8.  With an empty list of records [AppendRecords], [SetRecords]
    and [DeleteRecords] return an empty list and no error, and the
    world is as before: no request was dispatched. *)
Theorem empty_batch_returns_without_call (p : Provider) (zone : string) (w : World) :
  AppendRecords p zone [] w = (Ok [], w)
  /\ SetRecords p zone [] w = (Ok [], w)
  /\ DeleteRecords p zone [] w = (Ok [], w).
Proof. repeat split. Qed.

(** The write operations once [makeRequest] has dispatched the
    request. *)
Lemma AppendRecords_dispatch (p : Provider) (zone : string) (records : list Record_)
  (w : World) :
  records <> [] ->
  Endpoint p <> "" ->
  url_Parse_ok (Endpoint p ++ zonePath zone) = true ->
  AppendRecords p zone records w
  = (match remote w (sent w)
             (requestOf p "POST" zone (Some (mkBody (map flooredWire records)))) with
     | Err err => Err (wrapError "POST request error" err)
     | Ok resp =>
       if negb (StatusCode resp =? 201) && negb (StatusCode resp =? 200)
       then Err (errorString ("API error during addition: " ++ Status resp))
       else Ok (convertToSpecificTypes records)
     end,
     mkWorld (sent w ++ [requestOf p "POST" zone (Some (mkBody (map flooredWire records)))])
       (remote w)).
Proof.
  intros Hne Hend Hurl. destruct records as [| r rest]; [contradiction |].
  unfold AppendRecords, bind, ret. fold (zonePath zone).
  rewrite AppendRecords_apiRecords_map. simpl app.
  rewrite (makeRequest_dispatch _ _ _ _ _ Hend Hurl).
  destruct (remote w (sent w) _) as [resp | err]; [| reflexivity].
  unfold StatusCreated, StatusOK.
  destruct (negb (StatusCode resp =? 201) && negb (StatusCode resp =? 200)); reflexivity.
Qed.

Lemma SetRecords_dispatch (p : Provider) (zone : string) (records : list Record_)
  (w : World) :
  records <> [] ->
  Endpoint p <> "" ->
  url_Parse_ok (Endpoint p ++ zonePath zone) = true ->
  SetRecords p zone records w
  = (match remote w (sent w)
             (requestOf p "PUT" zone (Some (mkBody (map flooredWire records)))) with
     | Err err => Err (wrapError "PUT request error" err)
     | Ok resp =>
       if negb (StatusCode resp =? 200)
       then Err (errorString ("API error during update: " ++ Status resp))
       else Ok (convertToSpecificTypes records)
     end,
     mkWorld (sent w ++ [requestOf p "PUT" zone (Some (mkBody (map flooredWire records)))])
       (remote w)).
Proof.
  intros Hne Hend Hurl. destruct records as [| r rest]; [contradiction |].
  unfold SetRecords, bind, ret. fold (zonePath zone).
  rewrite SetRecords_apiRecords_map. simpl app.
  rewrite (makeRequest_dispatch _ _ _ _ _ Hend Hurl).
  destruct (remote w (sent w) _) as [resp | err]; [| reflexivity].
  unfold StatusOK.
  destruct (negb (StatusCode resp =? 200)); reflexivity.
Qed.

Lemma DeleteRecords_dispatch (p : Provider) (zone : string) (records : list Record_)
  (w : World) :
  records <> [] ->
  Endpoint p <> "" ->
  url_Parse_ok (Endpoint p ++ zonePath zone) = true ->
  DeleteRecords p zone records w
  = (match remote w (sent w)
             (requestOf p "DELETE" zone (Some (mkBody (map plainWire records)))) with
     | Err err => Err (wrapError "DELETE request error" err)
     | Ok resp =>
       if (StatusCode resp =? 200) || (StatusCode resp =? 204)
       then Ok (convertToSpecificTypes records)
       else Ok []
     end,
     mkWorld (sent w ++ [requestOf p "DELETE" zone (Some (mkBody (map plainWire records)))])
       (remote w)).
Proof.
  intros Hne Hend Hurl. destruct records as [| r rest]; [contradiction |].
  unfold DeleteRecords, bind, ret. fold (zonePath zone).
  rewrite DeleteRecords_apiRecords_map. simpl app.
  rewrite (makeRequest_dispatch _ _ _ _ _ Hend Hurl).
  destruct (remote w (sent w) _) as [resp | err]; [| reflexivity].
  unfold StatusOK, StatusNoContent.
  destruct ((StatusCode resp =? 200) || (StatusCode resp =? 204)); reflexivity.
Qed.

(** C9, as the code has it.  The URL of every request an operation
    dispatches is the one the HTTP library parses from the string made
    of the endpoint, ["/zones/"], the zone as the caller passed it and
    ["/records"]: the provider hands the zone to the library as it is,
    without path-escaping it first.  An operation dispatches at most
    one request, and exactly one when the endpoint is set, the library
    accepts that string and, for a write, the list is not empty. *)
Theorem request_url_concatenates_zone_unescaped (p : Provider) (zone : string)
  (records : list Record_) (w : World) :
  (atMostOneCall p zone w (snd (GetRecords p zone w))
   /\ atMostOneCall p zone w (snd (AppendRecords p zone records w))
   /\ atMostOneCall p zone w (snd (SetRecords p zone records w))
   /\ atMostOneCall p zone w (snd (DeleteRecords p zone records w)))
  /\ (Endpoint p <> "" ->
      url_Parse_ok (Endpoint p ++ "/zones/" ++ zone ++ "/records") = true ->
      let url := url.parsed (Endpoint p ++ "/zones/" ++ zone ++ "/records") in
      map URL (sent (snd (GetRecords p zone w))) = List.app (map URL (sent w)) [url]
      /\ (records <> [] ->
          map URL (sent (snd (AppendRecords p zone records w)))
          = List.app (map URL (sent w)) [url]
          /\ map URL (sent (snd (SetRecords p zone records w)))
             = List.app (map URL (sent w)) [url]
          /\ map URL (sent (snd (DeleteRecords p zone records w)))
             = List.app (map URL (sent w)) [url])).
Proof.
  split.
  - split; [| split; [| split]].
    + rewrite GetRecords_world. apply makeRequest_atMostOneCall.
    + destruct records as [| r rest]; [left; reflexivity |].
      rewrite AppendRecords_world. apply makeRequest_atMostOneCall.
    + destruct records as [| r rest]; [left; reflexivity |].
      rewrite SetRecords_world. apply makeRequest_atMostOneCall.
    + destruct records as [| r rest]; [left; reflexivity |].
      rewrite DeleteRecords_world. apply makeRequest_atMostOneCall.
  - intros Hend Hurl url. fold (zonePath zone) in Hurl. split.
    + rewrite (GetRecords_dispatch _ _ _ Hend Hurl). cbn [snd sent].
      rewrite map_app. reflexivity.
    + intros Hne.
      rewrite (AppendRecords_dispatch _ _ _ _ Hne Hend Hurl),
        (SetRecords_dispatch _ _ _ _ Hne Hend Hurl),
        (DeleteRecords_dispatch _ _ _ _ Hne Hend Hurl).
      cbn [snd sent]. rewrite !map_app. repeat split.
Qed.

(** Without an endpoint no request leaves the process: every operation
    that would dispatch one returns the configuration error, wrapped
    with the name of its method. *)
Theorem endpoint_is_required (p : Provider) (zone : string) (records : list Record_)
  (w : World) :
  Endpoint p = "" ->
  records <> [] ->
  let err := errorString "endpoint is required for the immosquare provider" in
  GetRecords p zone w = (Err (wrapError "GET request error" err), w)
  /\ AppendRecords p zone records w = (Err (wrapError "POST request error" err), w)
  /\ SetRecords p zone records w = (Err (wrapError "PUT request error" err), w)
  /\ DeleteRecords p zone records w = (Err (wrapError "DELETE request error" err), w).
Proof.
  intros Hend Hne err. destruct records as [| r rest]; [contradiction |].
  unfold GetRecords, AppendRecords, SetRecords, DeleteRecords, bind, ret, makeRequest,
    initClient.
  rewrite Hend. repeat split.
Qed.

End Operations.

Section Translator.
Context `{GoLibrary}.

(** *** Re-typing *)

Lemma convertToSpecificType_name_ttl (r : Record_) :
  RR_Name (Record_RR (convertToSpecificType r)) = RR_Name (Record_RR r)
  /\ RR_TTL (Record_RR (convertToSpecificType r)) = RR_TTL (Record_RR r).
Proof.
  unfold convertToSpecificType.
  repeat match goal with
         | |- context [if ?b then _ else _] => destruct b
         | |- context [match netip_ParseAddr ?s with _ => _ end] =>
           destruct (netip_ParseAddr s)
         | |- context [let (_, _) := ?m in _] => destruct m
         end; simpl; split; reflexivity.
Qed.

Lemma retype_unparsable_address (r : Record_) :
  isAddressTag (RR_Type (Record_RR r)) = true ->
  netip_ParseAddr (RR_Data (Record_RR r)) = None ->
  convertToSpecificType r = Generic (Record_RR r).
Proof.
  unfold isAddressTag, convertToSpecificType. intros Htag Hip.
  rewrite Htag, Hip. reflexivity.
Qed.

Lemma retype_follows_decode (a : json.apiRecord) (r : Record_) :
  convertAPIRecordToLibDNS a = Ok r ->
  convertToSpecificType
    (Generic (mkRR (json.Name a) (time.mul64 (json.TTL a) time.Second)
                (json.Type_ a) (json.Value a)))
  = r.
Proof.
  unfold convertAPIRecordToLibDNS, convertToSpecificType. simpl.
  repeat match goal with
         | |- context [if ?b then _ else _] => destruct b
         | |- context [match netip_ParseAddr ?s with _ => _ end] =>
           destruct (netip_ParseAddr s)
         | |- context [let (_, _) := ?m in _] => destruct m
         end; intros E; inversion E; reflexivity.
Qed.

Lemma retype_dispatches_as_decode (r : Record_) :
  dispatchedAsDecode r (convertToSpecificType r).
Proof.
  intros seconds.
  unfold convertAPIRecordToLibDNS, convertToSpecificType, elementOf.
  destruct (Record_RR r) as [name ttl type data].
  cbn [json.Name json.Type_ json.Value json.TTL RR_Name RR_TTL RR_Type RR_Data].
  repeat match goal with
         | |- context [if ?b then _ else _] => destruct b
         | |- context [match netip_ParseAddr ?s with _ => _ end] =>
           destruct (netip_ParseAddr s)
         | |- context [let (_, _) := ?m in _] => destruct m
         end; reflexivity.
Qed.

(** C7.  Re-typing is a total function of the list: the output has one
    record per input record, in the input's order (the record at each
    index is the re-typing of the input at that index, and it keeps
    that input's name and TTL); a record tagged A or AAAA whose data is
    not an address stays a generic record; on whatever decode accepts,
    re-typing the generic record of the same name, type, value and TTL
    gives decode's result; and every input record, typed, generic or
    of another implementation, is re-typed by the dispatch table of
    decode: the output is what decode makes of the name, type and data
    of the record's generic form, with the record's TTL, and the
    generic form itself where decode fails. *)
Theorem retype_is_total_and_ordered (records : list Record_) :
  List.length (convertToSpecificTypes records) = List.length records
  /\ Forall2 dispatchedAsDecode records (convertToSpecificTypes records)
  /\ (forall i : nat,
        nth_error (convertToSpecificTypes records) i
        = option_map convertToSpecificType (nth_error records i))
  /\ (forall r : Record_,
        RR_Name (Record_RR (convertToSpecificType r)) = RR_Name (Record_RR r)
        /\ RR_TTL (Record_RR (convertToSpecificType r)) = RR_TTL (Record_RR r))
  /\ (forall r : Record_,
        isAddressTag (RR_Type (Record_RR r)) = true ->
        netip_ParseAddr (RR_Data (Record_RR r)) = None ->
        convertToSpecificTypes [r] = [Generic (Record_RR r)])
  /\ (forall (a : json.apiRecord) (r : Record_),
        convertAPIRecordToLibDNS a = Ok r ->
        convertToSpecificTypes
          [Generic (mkRR (json.Name a) (time.mul64 (json.TTL a) time.Second)
                      (json.Type_ a) (json.Value a))]
        = [r]).
Proof.
  rewrite convertToSpecificTypes_map.
  split; [apply length_map |].
  split.
  { induction records as [| r rest IH]; simpl; constructor;
      [apply retype_dispatches_as_decode | exact IH]. }
  split; [intros i; apply nth_error_map |].
  split; [intros r; apply convertToSpecificType_name_ttl |].
  split.
  - intros r Htag Hip. rewrite convertToSpecificTypes_map. simpl.
    now rewrite retype_unparsable_address.
  - intros a r E. rewrite convertToSpecificTypes_map. simpl.
    now rewrite (retype_follows_decode a r E).
Qed.

(** *** MX values *)

Lemma mxParts_with_preference (value first : string) (rest : list string) (n : Z) :
  strings.Fields value = first :: rest ->
  rest <> [] ->
  parseUint16 first = Some n ->
  mxParts value = (n, strings.Join rest " ").
Proof.
  intros HF Hrest Hp. unfold mxParts. rewrite HF.
  destruct rest as [| second rest']; [contradiction |].
  simpl. rewrite Hp. reflexivity.
Qed.

Lemma mxParts_default (value : string) :
  (List.length (strings.Fields value) < 2)%nat
  \/ parseUint16 (hd "" (strings.Fields value)) = None ->
  mxParts value = (10, value).
Proof.
  intros Hc. unfold mxParts.
  destruct (strings.Fields value) as [| first [| second rest]] eqn:HF; try reflexivity.
  destruct Hc as [Hlen | Hp]; [simpl in Hlen; lia |].
  simpl in *. rewrite Hp. reflexivity.
Qed.

Lemma ParseUint10_nonneg (s : string) (v : Z) : strconv.ParseUint10 s = Some v -> 0 <= v.
Proof.
  unfold strconv.ParseUint10. destruct s; [discriminate |].
  destruct (string_forallb _ _); [| discriminate].
  destruct (NilEmpty.uint_of_string _); [| discriminate].
  destruct (_ <? _); [| discriminate].
  intros E. inversion E. lia.
Qed.

Lemma parseUint16_range (s : string) (n : Z) : parseUint16 s = Some n -> 0 <= n < 65536.
Proof.
  unfold parseUint16, fmt.Sscanf_d_uint16.
  destruct (fmt.SkipSpace s 0); [| discriminate].
  destruct (fmt.scanNumber _) eqn:Htok; [discriminate |].
  destruct (strconv.ParseUint10 _) as [i |] eqn:Hi; [| discriminate].
  destruct (Z.ltb_spec i (2 ^ 16)); [| discriminate].
  intros E. inversion E. subst. apply ParseUint10_nonneg in Hi. lia.
Qed.

Lemma convert_mx (a : json.apiRecord) :
  strings.ToUpper (json.Type_ a) = "MX" ->
  convertAPIRecordToLibDNS a
  = Ok (MX (json.Name a) (time.mul64 (json.TTL a) time.Second)
          (fst (mxParts (json.Value a))) (snd (mxParts (json.Value a)))).
Proof.
  intros Hty. unfold convertAPIRecordToLibDNS. rewrite Hty. simpl.
  destruct (mxParts (json.Value a)). reflexivity.
Qed.

Lemma retype_mx (r : Record_) :
  strings.ToUpper (RR_Type (Record_RR r)) = "MX" ->
  convertToSpecificType r
  = MX (RR_Name (Record_RR r)) (RR_TTL (Record_RR r))
      (fst (mxParts (RR_Data (Record_RR r)))) (snd (mxParts (RR_Data (Record_RR r)))).
Proof.
  intros Hty. unfold convertToSpecificType. rewrite Hty. simpl.
  destruct (mxParts (RR_Data (Record_RR r))). reflexivity.
Qed.

End Translator.

Section Decoding.
Context `{GoLibrary}.

(** *** The conversion loop *)

Lemma convertAPIRecordToLibDNS_Err (a : json.apiRecord) (e : error) :
  convertAPIRecordToLibDNS a = Err e ->
  isAddressTag (json.Type_ a) = true
  /\ netip_ParseAddr (json.Value a) = None
  /\ e = wrapError ("invalid IP address '" ++ json.Value a ++ "'")
           (libraryError "netip.ParseAddr").
Proof.
  unfold convertAPIRecordToLibDNS, isAddressTag.
  destruct (String.eqb _ "A" || String.eqb _ "AAAA").
  - destruct (netip_ParseAddr (json.Value a)); [discriminate |].
    intros E. inversion E. repeat split.
  - repeat match goal with
           | |- context [if ?b then _ else _] => destruct b
           | |- context [let (_, _) := ?m in _] => destruct m
           end; discriminate.
Qed.

Lemma convertAPIRecordToLibDNS_invalid (a : json.apiRecord) :
  isAddressTag (json.Type_ a) = true ->
  netip_ParseAddr (json.Value a) = None ->
  convertAPIRecordToLibDNS a
  = Err (wrapError ("invalid IP address '" ++ json.Value a ++ "'")
           (libraryError "netip.ParseAddr")).
Proof.
  unfold convertAPIRecordToLibDNS, isAddressTag. intros Htag Hip.
  rewrite Htag, Hip. reflexivity.
Qed.

(** A record the loop cannot convert makes the loop fail, whatever it
    has converted so far and whatever follows. *)
Lemma convertRecords_invalid (apiRecords : list json.apiRecord) (bad : json.apiRecord) :
  In bad apiRecords ->
  isAddressTag (json.Type_ bad) = true ->
  netip_ParseAddr (json.Value bad) = None ->
  forall records : list Record_,
  exists value : string, convertRecords apiRecords records = Err (conversionError value).
Proof.
  intros Hin Htag Hip.
  induction apiRecords as [| a rest IH]; [contradiction |].
  intros records. simpl.
  destruct (convertAPIRecordToLibDNS a) as [record | e] eqn:E.
  - destruct Hin as [-> | Hin].
    + rewrite (convertAPIRecordToLibDNS_invalid bad Htag Hip) in E. discriminate.
    + apply (IH Hin).
  - apply convertAPIRecordToLibDNS_Err in E as (_ & _ & ->).
    exists (json.Value a). reflexivity.
Qed.

Lemma GetRecords_response_decodesTo (resp : Response) (body : json.document)
  (apiRecords : list json.apiRecord) :
  StatusCode resp = 200 ->
  Body resp = Ok body ->
  decodesTo body apiRecords ->
  GetRecords_response resp = convertRecords apiRecords [].
Proof.
  intros Hs Hb Hd. unfold GetRecords_response, StatusOK. rewrite Hs, Hb. simpl.
  destruct Hd as [E | [[e E] E']].
  - rewrite E. reflexivity.
  - rewrite E, E'. reflexivity.
Qed.

(** C6.  When one record of a decoded response is tagged A or AAAA
    (in any letter case) and its value is not an IP address,
    [GetRecords] returns an error and no record, whatever the other
    records of the response are. *)
Theorem invalid_address_fails_whole_listing (p : Provider) (zone : string) (w : World)
  (resp : Response) (body : json.document) (apiRecords : list json.apiRecord)
  (bad : json.apiRecord) :
  Endpoint p <> "" ->
  url_Parse_ok (Endpoint p ++ zonePath zone) = true ->
  remote w (sent w) (requestOf p "GET" zone None) = Ok resp ->
  StatusCode resp = 200 ->
  Body resp = Ok body ->
  decodesTo body apiRecords ->
  In bad apiRecords ->
  isAddressTag (json.Type_ bad) = true ->
  netip_ParseAddr (json.Value bad) = None ->
  exists value : string, fst (GetRecords p zone w) = Err (conversionError value).
Proof.
  intros Hend Hurl Hresp Hs Hb Hd Hin Htag Hip.
  rewrite (GetRecords_dispatch _ _ _ Hend Hurl), Hresp. simpl.
  rewrite (GetRecords_response_decodesTo resp body apiRecords Hs Hb Hd).
  apply (convertRecords_invalid apiRecords bad Hin Htag Hip).
Qed.

(** *** The two shapes of a body *)

Lemma findField_records : json.findField json.responseFields "records" = Some tt.
Proof. reflexivity. Qed.

Lemma Unmarshal_wrapped_array (vs : list json.value) :
  json.Unmarshal_apiResponse (Some (json.JObject [("records", json.JArray vs)]))
  = json.Unmarshal_apiRecords (Some (json.JArray vs)).
Proof.
  unfold json.Unmarshal_apiResponse, json.Unmarshal_apiRecords. cbn [fold_left].
  unfold json.storeResponseMember. cbn [fst snd]. rewrite findField_records.
  destruct (json.storeSlice json.nilSlice (json.JArray vs)) as [sl ok].
  reflexivity.
Qed.

(** A bare array is never an [apiResponse]; an object is never a
    slice. *)
Lemma Unmarshal_apiResponse_array (vs : list json.value) :
  json.Unmarshal_apiResponse (Some (json.JArray vs)) = Err json.typeError.
Proof. reflexivity. Qed.

Lemma Unmarshal_apiRecords_object (members : list (string * json.value)) :
  json.Unmarshal_apiRecords (Some (json.JObject members)) = Err json.typeError.
Proof. reflexivity. Qed.

Lemma Unmarshal_apiRecords_Err (v : json.value) (e : error) :
  json.Unmarshal_apiRecords (Some v) = Err e -> e = json.typeError.
Proof.
  unfold json.Unmarshal_apiRecords.
  destruct (json.storeSlice json.nilSlice v) as [sl [|]]; intros E; now inversion E.
Qed.

Lemma GetRecords_response_shapes (status : string) (vs : list json.value) :
  GetRecords_response
    (mkResponse 200 status (Ok (Some (json.JObject [("records", json.JArray vs)]))))
  = GetRecords_response (mkResponse 200 status (Ok (Some (json.JArray vs)))).
Proof.
  unfold GetRecords_response. simpl negb. cbv iota. simpl Body. cbv iota.
  rewrite Unmarshal_wrapped_array, Unmarshal_apiResponse_array,
    Unmarshal_apiRecords_object.
  destruct (json.Unmarshal_apiRecords (Some (json.JArray vs))) as [rs | e] eqn:E;
    [reflexivity |].
  now rewrite (Unmarshal_apiRecords_Err _ e E).
Qed.

(** C5.  On a response of status 200 [GetRecords] first decodes the
    body as an object with a field [records] and converts those
    records; only when that decoding fails does it decode the body as
    a bare array and convert its elements; when both fail the result
    is the error "JSON decoding error".  The same array of elements
    gives the same result wrapped in [{"records": ...}] and bare
    (the same records, or an error of the same kind). *)
Theorem body_is_object_else_array (p : Provider) (zone : string) (w : World)
  (resp : Response) (body : json.document) :
  Endpoint p <> "" ->
  url_Parse_ok (Endpoint p ++ zonePath zone) = true ->
  remote w (sent w) (requestOf p "GET" zone None) = Ok resp ->
  StatusCode resp = 200 ->
  Body resp = Ok body ->
  (forall apiRecords,
      json.Unmarshal_apiResponse body = Ok apiRecords ->
      fst (GetRecords p zone w) = convertRecords apiRecords [])
  /\ (forall e apiRecords,
        json.Unmarshal_apiResponse body = Err e ->
        json.Unmarshal_apiRecords body = Ok apiRecords ->
        fst (GetRecords p zone w) = convertRecords apiRecords [])
  /\ (forall e e',
        json.Unmarshal_apiResponse body = Err e ->
        json.Unmarshal_apiRecords body = Err e' ->
        fst (GetRecords p zone w) = Err (wrapError "JSON decoding error" e'))
  /\ (forall (status : string) (vs : list json.value),
        GetRecords_response
          (mkResponse 200 status (Ok (Some (json.JObject [("records", json.JArray vs)]))))
        = GetRecords_response (mkResponse 200 status (Ok (Some (json.JArray vs))))).
Proof.
  intros Hend Hurl Hresp Hs Hb.
  rewrite (GetRecords_dispatch _ _ _ Hend Hurl), Hresp. simpl fst.
  unfold GetRecords_response at 1 2 3, StatusOK. rewrite Hs, Hb. simpl negb. cbv iota.
  repeat split.
  - intros rs E. rewrite E. reflexivity.
  - intros e rs E E'. rewrite E, E'. reflexivity.
  - intros e e' E E'. rewrite E, E'. reflexivity.
  - apply GetRecords_response_shapes.
Qed.

(** *** Objects *)

Lemma storeResponseMember_skips (members : list (string * json.value))
  (st : json.slice * bool) :
  noRecordsField members ->
  fold_left json.storeResponseMember members st = st.
Proof.
  revert st. induction members as [| kv rest IH]; intros st Hno; [reflexivity |].
  simpl. unfold json.storeResponseMember at 2. destruct st as [sl ok].
  rewrite (Hno kv (or_introl eq_refl)).
  apply IH. intros kv' Hin. apply Hno. now right.
Qed.

(** C10, as the code has it.  On a response of status 200 whose body
    is a JSON object: when no member selects the field [records]
    (as in [{}]) the result is an empty list and no error; in every
    case the bare-array decoding of an object fails, so the result is
    either the conversion of what the first decoding gave or the
    error "JSON decoding error" (which an object with a member of the
    wrong type does reach). *)
Theorem object_body_decoding (p : Provider) (zone : string) (w : World)
  (resp : Response) (members : list (string * json.value)) :
  Endpoint p <> "" ->
  url_Parse_ok (Endpoint p ++ zonePath zone) = true ->
  remote w (sent w) (requestOf p "GET" zone None) = Ok resp ->
  StatusCode resp = 200 ->
  Body resp = Ok (Some (json.JObject members)) ->
  (noRecordsField members -> fst (GetRecords p zone w) = Ok [])
  /\ fst (GetRecords p zone w)
     = match json.Unmarshal_apiResponse (Some (json.JObject members)) with
       | Ok apiRecords => convertRecords apiRecords []
       | Err _ => Err (wrapError "JSON decoding error" json.typeError)
       end.
Proof.
  intros Hend Hurl Hresp Hs Hb.
  rewrite (GetRecords_dispatch _ _ _ Hend Hurl), Hresp. simpl fst.
  unfold GetRecords_response, StatusOK. rewrite Hs, Hb. simpl negb. cbv iota.
  rewrite Unmarshal_apiRecords_object.
  split; [| reflexivity].
  intros Hno. unfold json.Unmarshal_apiResponse.
  rewrite (storeResponseMember_skips members _ Hno). reflexivity.
Qed.

End Decoding.

(** *** Strings, numerals and fields *)

Lemma append_assoc (a b c : string) : (a ++ b) ++ c = a ++ (b ++ c).
Proof. induction a as [| x a IH]; simpl; [reflexivity | now rewrite IH]. Qed.

Lemma append_nil_r (a : string) : a ++ "" = a.
Proof. induction a as [| x a IH]; simpl; [reflexivity | now rewrite IH]. Qed.

Lemma length_append (a b : string) :
  String.length (a ++ b) = (String.length a + String.length b)%nat.
Proof. induction a as [| x a IH]; simpl; [reflexivity | now rewrite IH]. Qed.

(** What the scanner and the field splitter see of a decimal digit. *)
Lemma digit_byte (c : ascii) :
  strconv.isDigit c = true ->
  (byte c <? RuneSelf) = true
  /\ (byte c =? 10) = false
  /\ unicode.IsSpace (byte c) = false.
Proof.
  destruct c as [[|] [|] [|] [|] [|] [|] [|] [|]]; vm_compute;
    intros E; try discriminate E; repeat split.
Qed.

Lemma string_of_uint_digits (d : Decimal.uint) :
  string_forallb strconv.isDigit (NilEmpty.string_of_uint d) = true.
Proof. induction d; simpl; [reflexivity | assumption ..]. Qed.

Lemma FormatUint_digits (n : Z) :
  string_forallb strconv.isDigit (strconv.FormatUint n) = true
  /\ strconv.FormatUint n <> "".
Proof.
  unfold strconv.FormatUint, NilZero.string_of_uint.
  destruct (N.to_uint (Z.to_N n)) eqn:E;
    (split; [first [reflexivity | rewrite <- E; apply string_of_uint_digits]
            | discriminate]).
Qed.

Lemma uint_of_FormatUint (n : Z) :
  0 <= n ->
  exists d, NilEmpty.uint_of_string (strconv.FormatUint n) = Some d
            /\ Z.of_N (N.of_uint d) = n.
Proof.
  intros Hn. unfold strconv.FormatUint, NilZero.string_of_uint.
  pose proof (DecimalN.Unsigned.of_to (Z.to_N n)) as Hof.
  destruct (N.to_uint (Z.to_N n)) eqn:E.
  1: { exists Decimal.zero. split; [reflexivity |]. simpl in Hof. simpl. lia. }
  all: eexists; split; [rewrite <- E; apply NilEmpty.usu |];
    rewrite DecimalN.Unsigned.of_to; lia.
Qed.

Lemma ParseUint10_FormatUint (n : Z) :
  0 <= n < 2 ^ 64 -> strconv.ParseUint10 (strconv.FormatUint n) = Some n.
Proof.
  intros Hn. unfold strconv.ParseUint10.
  destruct (FormatUint_digits n) as [Hd Hne].
  destruct (uint_of_FormatUint n) as (d & Hu & Hv); [lia |].
  destruct (strconv.FormatUint n) as [| c t]; [contradiction |].
  rewrite Hd, Hu, Hv.
  destruct (Z.ltb_spec n (2 ^ 64)); [reflexivity | lia].
Qed.

Lemma scanNumber_digits (s : string) :
  string_forallb strconv.isDigit s = true -> fmt.scanNumber s = s.
Proof.
  induction s as [| c t IH]; simpl; [reflexivity |].
  intros Hd. apply andb_true_iff in Hd as [Hc Ht].
  rewrite Hc. now rewrite IH.
Qed.

Lemma SkipSpace_digit (c : ascii) (t : string) :
  strconv.isDigit c = true -> fmt.SkipSpace (String c t) 0 = Some (String c t).
Proof.
  intros Hc. destruct (digit_byte c Hc) as (Ha & Hnl & Hsp).
  unfold fmt.SkipSpace, utf8.DecodeRuneInString. rewrite Ha, Hnl, Hsp. reflexivity.
Qed.

(** The decimal numeral of a [uint16] scans back to its value. *)
Lemma parseUint16_FormatUint (n : Z) :
  0 <= n < 65536 -> parseUint16 (strconv.FormatUint n) = Some n.
Proof.
  intros Hn. unfold parseUint16, fmt.Sscanf_d_uint16.
  destruct (FormatUint_digits n) as [Hd Hne].
  pose proof (ParseUint10_FormatUint n) as Hp.
  destruct (strconv.FormatUint n) as [| c t] eqn:E; [contradiction |].
  pose proof Hd as Hd'. simpl in Hd'. apply andb_true_iff in Hd' as [Hc _].
  rewrite (SkipSpace_digit c t Hc), (scanNumber_digits _ Hd), Hp by lia.
  destruct (Z.ltb_spec n (2 ^ 16)); [reflexivity | lia].
Qed.

Lemma scanNumber_digits_app (digits rest : string) :
  string_forallb strconv.isDigit digits = true ->
  fmt.scanNumber rest = "" ->
  fmt.scanNumber (digits ++ rest) = digits.
Proof.
  intros Hd Hrest. induction digits as [| c t IH]; simpl; [assumption |].
  simpl in Hd. apply andb_true_iff in Hd as [Hc Ht].
  rewrite Hc. now rewrite IH.
Qed.

(** [parseUint16] reads the digits a string starts with and leaves
    what follows them unread: a string that starts with the numeral of
    a 16-bit value, followed by a character that is not a digit, is
    accepted with that value: [1_000] is read as 1. *)
Theorem parseUint16_accepts_digit_prefix (digits rest : string) (n : Z) :
  digits <> "" ->
  string_forallb strconv.isDigit digits = true ->
  fmt.scanNumber rest = "" ->
  strconv.ParseUint10 digits = Some n ->
  n < 65536 ->
  parseUint16 (digits ++ rest) = Some n.
Proof.
  intros Hne Hd Hrest Hv Hn. unfold parseUint16, fmt.Sscanf_d_uint16.
  destruct digits as [| c t] eqn:E; [contradiction |].
  pose proof Hd as Hd'. simpl in Hd'. apply andb_true_iff in Hd' as [Hc _].
  change (String c t ++ rest) with (String c (t ++ rest)).
  rewrite (SkipSpace_digit c (t ++ rest) Hc).
  change (String c (t ++ rest)) with (String c t ++ rest).
  rewrite (scanNumber_digits_app _ _ Hd Hrest), Hv.
  destruct (Z.ltb_spec n (2 ^ 16)); [reflexivity | lia].
Qed.

(** A run of digits extends the open field, or opens one. *)
Lemma fieldsLoop_digits (run rest : string) (cur : option string) :
  string_forallb strconv.isDigit run = true ->
  run <> "" ->
  strings.fieldsLoop (run ++ rest) 0 cur
  = strings.fieldsLoop rest 0 (Some (openField cur ++ run)).
Proof.
  revert cur. induction run as [| c run IH]; intros cur Hd Hne; [contradiction |].
  simpl in Hd. apply andb_true_iff in Hd as [Hc Hd].
  destruct (digit_byte c Hc) as (Ha & _ & Hsp).
  change ((String c run) ++ rest) with (String c (run ++ rest)).
  unfold strings.fieldsLoop at 1; fold strings.fieldsLoop.
  unfold utf8.DecodeRuneInString. rewrite Ha, Hsp. simpl pred.
  destruct run as [| c' run'].
  - destruct cur; reflexivity.
  - assert (Hstep : forall f, strings.fieldsLoop (String c' run' ++ rest) 0 (Some f)
                              = strings.fieldsLoop rest 0 (Some (f ++ String c' run'))).
    { intros f. apply (IH (Some f)); [assumption | discriminate]. }
    destruct cur as [f |]; rewrite Hstep.
    + now rewrite append_assoc.
    + reflexivity.
Qed.

Lemma Fields_numeral_space (n : Z) (s : string) :
  strings.Fields (fmt.Sprintf_d_s n s) = strconv.FormatUint n :: strings.Fields s.
Proof.
  unfold strings.Fields, fmt.Sprintf_d_s.
  destruct (FormatUint_digits n) as [Hd Hne].
  rewrite (fieldsLoop_digits _ _ None Hd Hne). reflexivity.
Qed.

(** What the MX case reads back from the data [MX.RR()] wrote. *)
Lemma mxParts_Sprintf (n : Z) (target : string) :
  0 <= n < 65536 ->
  mxParts (fmt.Sprintf_d_s n target)
  = match strings.Fields target with
    | [] => (10, fmt.Sprintf_d_s n target)
    | fields => (n, strings.Join fields " ")
    end.
Proof.
  intros Hn. unfold mxParts. rewrite Fields_numeral_space.
  destruct (strings.Fields target) as [| f fs]; [reflexivity |].
  simpl. rewrite (parseUint16_FormatUint n Hn). reflexivity.
Qed.

(** A string without white space is one field. *)
Lemma fieldsLoop_spaceFree (s : string) (skip : nat) (f : string) :
  spaceFree s skip = true ->
  strings.fieldsLoop s skip (Some f) = [f ++ s].
Proof.
  revert skip f. induction s as [| c t IH]; intros skip f Hfree.
  - simpl. now rewrite append_nil_r.
  - destruct skip as [| k].
    + unfold spaceFree in Hfree; fold spaceFree in Hfree.
      unfold strings.fieldsLoop; fold strings.fieldsLoop.
      destruct (utf8.DecodeRuneInString (String c t)) as [r w].
      apply andb_true_iff in Hfree as [Hr Ht].
      apply negb_true_iff in Hr. rewrite Hr, (IH _ _ Ht), append_assoc. reflexivity.
    + simpl in Hfree. simpl. rewrite (IH _ _ Hfree), append_assoc. reflexivity.
Qed.

Lemma Fields_spaceFree (s : string) :
  s <> "" -> spaceFree s 0 = true -> strings.Fields s = [s].
Proof.
  intros Hne Hfree. destruct s as [| c t]; [contradiction |].
  unfold strings.Fields.
  unfold spaceFree in Hfree; fold spaceFree in Hfree.
  unfold strings.fieldsLoop; fold strings.fieldsLoop.
  destruct (utf8.DecodeRuneInString (String c t)) as [r w].
  apply andb_true_iff in Hfree as [Hr Ht].
  apply negb_true_iff in Hr. rewrite Hr, (fieldsLoop_spaceFree _ _ _ Ht). reflexivity.
Qed.

Section RoundTrip.
Context `{GoLibrary}.

Lemma retype_MX (name : string) (ttl : time.Duration) (preference : Z) (target : string) :
  0 <= preference < 65536 ->
  convertToSpecificType (MX name ttl preference target)
  = match strings.Fields target with
    | [] => MX name ttl 10 (RR_Data (Record_RR (MX name ttl preference target)))
    | fields => MX name ttl preference (strings.Join fields " ")
    end.
Proof.
  intros Hp. rewrite retype_mx by reflexivity. simpl Record_RR.
  destruct ((preference =? 0) && String.eqb target "") eqn:Hzero.
  - apply andb_true_iff in Hzero as [_ Ht]. apply String.eqb_eq in Ht. subst target.
    reflexivity.
  - cbn [RR_Name RR_TTL RR_Data]. rewrite (mxParts_Sprintf preference target Hp).
    destruct (strings.Fields target); reflexivity.
Qed.

Lemma Sprintf_d_s_longer (n : Z) (s : string) : fmt.Sprintf_d_s n s <> s.
Proof.
  intros E. apply (f_equal String.length) in E.
  unfold fmt.Sprintf_d_s in E. rewrite !length_append in E. simpl in E. lia.
Qed.

Lemma retype_MX_iff (name : string) (ttl : time.Duration) (preference : Z)
  (target : string) :
  0 <= preference < 65536 ->
  convertToSpecificType (MX name ttl preference target) = MX name ttl preference target
  <-> readsBack target.
Proof.
  intros Hp. rewrite (retype_MX name ttl preference target Hp). unfold readsBack.
  destruct (strings.Fields target) as [| f fs] eqn:HF.
  - split.
    + intros E. inversion E as [[E1 E2]]. simpl in E2.
      destruct ((preference =? 0) && String.eqb target "") eqn:Hzero.
      * apply andb_true_iff in Hzero as [Hz _]. lia.
      * now apply Sprintf_d_s_longer in E2.
    + intros [Hne _]. contradiction.
  - split.
    + intros E. inversion E as [E1]. split; [discriminate | now rewrite E1].
    + intros [_ E]. now rewrite E.
Qed.

Lemma retype_Generic_outside (rr : RR) :
  inDispatchTable (RR_Type rr) = false ->
  convertToSpecificType (Generic rr) = Generic rr.
Proof.
  unfold inDispatchTable, convertToSpecificType. simpl Record_RR.
  intros Hout. repeat (apply orb_false_iff in Hout as [Hout ?]).
  repeat match goal with E : _ = false |- _ => rewrite E; clear E end.
  reflexivity.
Qed.

Lemma retype_Generic_verbatim (rr : RR) :
  strings.ToUpper (RR_Type rr) = "TXT"
  \/ strings.ToUpper (RR_Type rr) = "CNAME"
  \/ strings.ToUpper (RR_Type rr) = "NS" ->
  Record_RR (convertToSpecificType (Generic rr))
  = mkRR (RR_Name rr) (RR_TTL rr) (strings.ToUpper (RR_Type rr)) (RR_Data rr).
Proof.
  unfold convertToSpecificType. simpl Record_RR.
  intros [E | [E | E]]; rewrite E; reflexivity.
Qed.

(** C4, as the code has it.  Projecting a typed record to its generic
    form and re-typing it gives the record back
    - for an Address whose address text [ParseAddr] reads back as the
      same address, and for every TXT, CNAME and NS record;
    - for an MX record exactly when its target has at least one token
      and is its tokens joined by single spaces, as every non-empty
      target free of white space is;
    - for a Generic record whose tag is outside the dispatch table.
    A Generic record tagged TXT, CNAME or NS becomes the typed record
    of the same name, TTL and data and of the tag in upper case.  Name
    and TTL are kept for every record. *)
Theorem retype_round_trip :
  (forall name ttl ip,
      netip_ParseAddr (Addr_String ip) = Some ip ->
      convertToSpecificTypes [Address name ttl ip] = [Address name ttl ip])
  /\ (forall name ttl text,
        convertToSpecificTypes [TXT name ttl text] = [TXT name ttl text])
  /\ (forall name ttl target,
        convertToSpecificTypes [CNAME name ttl target] = [CNAME name ttl target])
  /\ (forall name ttl target,
        convertToSpecificTypes [NS name ttl target] = [NS name ttl target])
  /\ (forall name ttl preference target,
        0 <= preference < 65536 ->
        (convertToSpecificTypes [MX name ttl preference target]
         = [MX name ttl preference target]
         <-> readsBack target))
  /\ (forall target, target <> "" -> spaceFree target 0 = true -> readsBack target)
  /\ (forall rr,
        inDispatchTable (RR_Type rr) = false ->
        convertToSpecificTypes [Generic rr] = [Generic rr])
  /\ (forall rr,
        strings.ToUpper (RR_Type rr) = "TXT"
        \/ strings.ToUpper (RR_Type rr) = "CNAME"
        \/ strings.ToUpper (RR_Type rr) = "NS" ->
        map Record_RR (convertToSpecificTypes [Generic rr])
        = [mkRR (RR_Name rr) (RR_TTL rr) (strings.ToUpper (RR_Type rr)) (RR_Data rr)])
  /\ (forall records,
        map (fun r => (RR_Name (Record_RR r), RR_TTL (Record_RR r)))
          (convertToSpecificTypes records)
        = map (fun r => (RR_Name (Record_RR r), RR_TTL (Record_RR r))) records).
Proof.
  repeat match goal with |- _ /\ _ => split end.
  - intros name ttl ip Hip.
    unfold convertToSpecificTypes, convertToSpecificTypes_loop, convertToSpecificType.
    simpl Record_RR. cbn [RR_Type RR_Data RR_Name RR_TTL].
    rewrite (@netip_ParseAddr_IsValid _ _ _ Hip).
    destruct (Addr_Is6 ip); simpl; rewrite Hip; reflexivity.
  - reflexivity.
  - reflexivity.
  - reflexivity.
  - intros name ttl preference target Hp.
    rewrite convertToSpecificTypes_map. simpl map.
    rewrite <- (retype_MX_iff name ttl preference target Hp).
    split; intros E; [injection E as E'; exact E' | now rewrite E].
  - intros target Hne Hfree. unfold readsBack.
    rewrite (Fields_spaceFree target Hne Hfree). split; [discriminate | reflexivity].
  - intros rr Hout. rewrite convertToSpecificTypes_map. simpl.
    now rewrite retype_Generic_outside.
  - intros rr Htag. rewrite convertToSpecificTypes_map. simpl.
    now rewrite retype_Generic_verbatim.
  - intros records. rewrite convertToSpecificTypes_map, map_map.
    apply map_ext. intros r.
    destruct (convertToSpecificType_name_ttl r) as [-> ->]. reflexivity.
Qed.

End RoundTrip.

(** *** Seconds of a duration *)

Lemma digits2_pos_iter_xO (p k : positive) :
  digits2_pos (Pos.iter xO p k) = (digits2_pos p + k)%positive.
Proof.
  induction k as [| k IH] using Pos.peano_ind.
  - simpl. lia.
  - rewrite Pos.iter_succ. simpl. rewrite IH. lia.
Qed.

Lemma Zpos_iter_xO (p k : positive) :
  Z.pos (Pos.iter xO p k) = Z.pos p * 2 ^ Z.pos k.
Proof.
  induction k as [| k IH] using Pos.peano_ind.
  - simpl. lia.
  - rewrite Pos.iter_succ, Pos2Z.inj_xO, IH, Pos2Z.inj_succ, Z.pow_succ_r by lia. lia.
Qed.

Lemma digits2_pos_le (p : positive) :
  2 ^ (Z.pos (digits2_pos p) - 1) <= Z.pos p.
Proof.
  induction p as [p IH | p IH |]; simpl digits2_pos.
  - rewrite Pos2Z.inj_succ.
    replace (Z.succ (Z.pos (digits2_pos p)) - 1)
      with (Z.succ (Z.pos (digits2_pos p) - 1)) by lia.
    rewrite Z.pow_succ_r by lia. lia.
  - rewrite Pos2Z.inj_succ.
    replace (Z.succ (Z.pos (digits2_pos p)) - 1)
      with (Z.succ (Z.pos (digits2_pos p) - 1)) by lia.
    rewrite Z.pow_succ_r by lia. lia.
  - simpl. lia.
Qed.

Lemma digits2_pos_lt (p : positive) : Z.pos p < 2 ^ Z.pos (digits2_pos p).
Proof.
  induction p as [p IH | p IH |]; simpl digits2_pos.
  - rewrite Pos2Z.inj_succ, Z.pow_succ_r by lia. lia.
  - rewrite Pos2Z.inj_succ, Z.pow_succ_r by lia. lia.
  - simpl. lia.
Qed.

Lemma digits2_pos_small (p : positive) :
  Z.pos p < 2 ^ 53 -> Z.pos (digits2_pos p) <= 53.
Proof.
  intros Hp. pose proof (digits2_pos_le p) as Hd.
  destruct (Z.le_gt_cases (Z.pos (digits2_pos p)) 53) as [Hle | Hgt]; [assumption |].
  assert (2 ^ 53 <= 2 ^ (Z.pos (digits2_pos p) - 1)) by (apply Z.pow_le_mono_r; lia).
  lia.
Qed.

(** A mantissa of 53 bits with an exponent in range is its own
    rounding. *)
Lemma binary_round_aux_exact (m : positive) (e : Z) :
  digits2_pos m = 53%positive ->
  -1074 <= e <= 971 ->
  binary_round_aux 53 1024 false (Z.pos m) e loc_Exact = S754_finite false m e.
Proof.
  intros Hd He.
  assert (Hshr : shr_fexp 53 1024 (Z.pos m) e loc_Exact
                 = (Build_shr_record (Z.pos m) false false, e)).
  { unfold shr_fexp, fexp, emin, Zdigits2. rewrite Hd.
    replace (Z.max (53 + e - 53) (3 - 1024 - 53) - e) with 0 by lia.
    reflexivity. }
  unfold binary_round_aux. rewrite Hshr.
  cbn [shr_m loc_of_shr_record round_nearest_even]. rewrite Hshr. cbn [shr_m].
  destruct (Z.leb_spec e (1024 - 53)); [reflexivity | lia].
Qed.

(** [float64(i)] for [0 < i < 2^53]: a mantissa of 53 bits that holds
    [i] shifted left, exactly. *)
Lemma float64_of_int_pos (p : positive) :
  Z.pos p < 2 ^ 53 ->
  exists (m : positive) (k : Z),
    time.float64_of_int (Z.pos p) = S754_finite false m (- k)
    /\ 0 <= k <= 52
    /\ Z.pos m = Z.pos p * 2 ^ k
    /\ 2 ^ 52 <= Z.pos m < 2 ^ 53.
Proof.
  intros Hp. pose proof (digits2_pos_small p Hp) as Hd.
  unfold time.float64_of_int, binary_normalize, binary_round, shl_align, fexp, emin.
  replace (Z.max (Z.pos (digits2_pos p) + 0 - 53) (3 - 1024 - 53) - 0)
    with (Z.pos (digits2_pos p) - 53) by lia.
  replace (Z.max (Z.pos (digits2_pos p) + 0 - 53) (3 - 1024 - 53))
    with (Z.pos (digits2_pos p) - 53) by lia.
  destruct (Z.pos (digits2_pos p) - 53) as [| q | q] eqn:Hq; [| lia |].
  - assert (Hdig : digits2_pos p = 53%positive) by (apply Pos2Z.inj; lia).
    exists p, 0. rewrite binary_round_aux_exact by (assumption || lia).
    pose proof (digits2_pos_le p) as Hlo. pose proof (digits2_pos_lt p) as Hhi.
    rewrite Hdig in Hlo, Hhi.
    repeat split; try lia; assumption.
  - assert (Hdig : digits2_pos (Pos.iter xO p q) = 53%positive)
      by (rewrite digits2_pos_iter_xO; lia).
    exists (Pos.iter xO p q), (Z.pos q).
    rewrite binary_round_aux_exact by (assumption || lia).
    pose proof (digits2_pos_le (Pos.iter xO p q)) as Hlo.
    pose proof (digits2_pos_lt (Pos.iter xO p q)) as Hhi.
    rewrite Hdig in Hlo, Hhi.
    repeat split; try lia; try assumption. apply Zpos_iter_xO.
Qed.

Lemma int_of_float64_of_int (i : Z) :
  0 <= i < 2 ^ 53 -> time.int_of_float64 (time.float64_of_int i) = i.
Proof.
  intros Hi. destruct i as [| p | p]; [reflexivity | | lia].
  destruct (float64_of_int_pos p) as (m & k & -> & Hk & Hm & _); [lia |].
  unfold time.int_of_float64.
  destruct (Z.leb_spec 0 (- k)).
  - replace k with 0 in * by lia. simpl in *. lia.
  - rewrite Z.opp_involutive, Hm. apply Z.div_mul.
    apply Z.pow_nonzero; lia.
Qed.

(** A duration of a whole number of seconds is sent as that number. *)
Lemma wireTTL_whole_seconds (seconds : Z) :
  0 <= seconds < 2 ^ 53 -> wireTTL (seconds * time.Second) = seconds.
Proof.
  intros Hs. unfold wireTTL, time.Seconds.
  rewrite Z.quot_mul, Z.rem_mul by (unfold time.Second; lia).
  change (SFdiv 53 1024 (time.float64_of_int 0) (time.float64_of_int 1000000000))
    with (S754_zero false).
  destruct seconds as [| p | p]; [reflexivity | | lia].
  destruct (float64_of_int_pos p) as (m & k & E & _); [lia |].
  rewrite <- (int_of_float64_of_int (Z.pos p)) at 2 by lia.
  rewrite E. reflexivity.
Qed.

Lemma wireTTL_defaultMinTTL : wireTTL defaultMinTTL = 120.
Proof. reflexivity. Qed.

(** *** Rounding to nearest in [binary_round_aux] *)

Ltac reflect_cmp :=
  repeat match goal with
         | |- context [?a <=? ?b] => destruct (Z.leb_spec a b)
         | |- context [?a =? ?b] => destruct (Z.eqb_spec a b)
         | H : context [?a <=? ?b] |- _ => destruct (Z.leb_spec a b)
         | H : context [?a =? ?b] |- _ => destruct (Z.eqb_spec a b)
         end.

Lemma locates_shr_1 (mrs : shr_record) (den T : Z) :
  locates mrs den T -> locates (shr_1 mrs) (2 * den) T.
Proof.
  destruct mrs as [m r s]. unfold locates. cbn [shr_m shr_r shr_s].
  intros (Hden & Hm & Hrn & Hr & Hs).
  destruct m as [| [p | p |] | p]; cbn [shr_1 shr_m shr_r shr_s]; try lia;
    (split; [lia |]); (split; [lia |]); (split; [lia |]);
    subst r s; split; reflect_cmp; simpl; try reflexivity; try lia.
Qed.

Lemma iter_pos_nat {A : Type} (f : A -> A) (p : positive) (x : A) :
  iter_pos f p x = Nat.iter (Pos.to_nat p) f x.
Proof.
  revert x. induction p as [p IH | p IH |]; intros x; cbn [iter_pos].
  - rewrite !IH, Pos2Nat.inj_xI.
    replace (S (2 * Pos.to_nat p))%nat with (Pos.to_nat p + S (Pos.to_nat p))%nat by lia.
    rewrite Nat.iter_add. now rewrite Nat.iter_succ_r.
  - rewrite !IH, Pos2Nat.inj_xO.
    replace (2 * Pos.to_nat p)%nat with (Pos.to_nat p + Pos.to_nat p)%nat by lia.
    now rewrite Nat.iter_add.
  - reflexivity.
Qed.

Lemma locates_iter (n : nat) (mrs : shr_record) (den T : Z) :
  locates mrs den T -> locates (Nat.iter n shr_1 mrs) (2 ^ Z.of_nat n * den) T.
Proof.
  intros Hl. induction n as [| n IH].
  - change (2 ^ Z.of_nat 0) with 1. cbn [Nat.iter nat_rect]. now rewrite Z.mul_1_l.
  - rewrite Nat2Z.inj_succ, Z.pow_succ_r by lia. cbn [Nat.iter nat_rect]. fold (Nat.iter n shr_1 mrs).
    rewrite <- Z.mul_assoc. now apply locates_shr_1.
Qed.

Lemma shr_nat (mrs : shr_record) (e n : Z) :
  0 <= n -> shr mrs e n = (Nat.iter (Z.to_nat n) shr_1 mrs, e + n).
Proof.
  intros Hn. destruct n as [| p | p]; [| | lia].
  - simpl. now rewrite Z.add_0_r.
  - unfold shr. now rewrite iter_pos_nat.
Qed.

Lemma locates_shr (mrs : shr_record) (e n den T : Z) :
  0 <= n -> locates mrs den T ->
  locates (fst (shr mrs e n)) (2 ^ n * den) T /\ snd (shr mrs e n) = e + n.
Proof.
  intros Hn Hl. rewrite (shr_nat mrs e n Hn). simpl. split; [| reflexivity].
  rewrite <- (Z2Nat.id n Hn) at 2. now apply locates_iter.
Qed.

Lemma round_nearest_even_locates (mrs : shr_record) (den T : Z) :
  locates mrs den T ->
  shr_m mrs <= round_nearest_even (shr_m mrs) (loc_of_shr_record mrs) <= shr_m mrs + 1
  /\ - den <= 2 * (round_nearest_even (shr_m mrs) (loc_of_shr_record mrs) * den - T) <= den.
Proof.
  destruct mrs as [m r s]. unfold locates. cbn [shr_m shr_r shr_s].
  intros (Hden & Hm & Hrn & Hr & Hs).
  destruct r, s; cbn [loc_of_shr_record round_nearest_even]; cbv iota in Hs;
    try destruct (Z.even m); reflect_cmp; try discriminate; lia.
Qed.

Lemma Zdigits2_bounds (m : Z) :
  0 < m -> 2 ^ (Zdigits2 m - 1) <= m < 2 ^ Zdigits2 m.
Proof.
  destruct m as [| p | p]; try lia. intros _. simpl Zdigits2.
  split; [apply digits2_pos_le | apply digits2_pos_lt].
Qed.

Lemma Zdigits2_unique (m k : Z) :
  2 ^ (k - 1) <= m < 2 ^ k -> 0 < m -> Zdigits2 m = k.
Proof.
  intros [Hlo Hhi] Hm. pose proof (Zdigits2_bounds m Hm) as [Dlo Dhi].
  assert (Hk : 0 < k).
  { destruct (Z.lt_ge_cases 0 k); [assumption |].
    rewrite (Z.pow_neg_r 2 (k - 1)) in Hlo by lia.
    assert (2 ^ k <= 2 ^ 0) by (apply Z.pow_le_mono_r; lia). simpl in *. lia. }
  assert (HD : 0 < Zdigits2 m) by (destruct m; simpl; lia).
  destruct (Z.lt_trichotomy (Zdigits2 m) k) as [Hlt | [Heq | Hgt]]; [| assumption |].
  - assert (2 ^ Zdigits2 m <= 2 ^ (k - 1)) by (apply Z.pow_le_mono_r; lia). lia.
  - assert (2 ^ k <= 2 ^ (Zdigits2 m - 1)) by (apply Z.pow_le_mono_r; lia). lia.
Qed.

Lemma shr_m_of_loc (m : Z) (l : location) : shr_m (shr_record_of_loc m l) = m.
Proof. destruct l as [| []]; reflexivity. Qed.

Lemma fexp_normal (x : Z) : -1021 <= x -> fexp 53 1024 x = x - 53.
Proof. intros Hx. unfold fexp, emin. lia. Qed.

Lemma binary_round_aux_nearest (m0 e : Z) (l : location) (den T : Z) :
  locates (shr_record_of_loc m0 l) den T ->
  0 < m0 ->
  53 <= Zdigits2 m0 ->
  -1074 <= e + (Zdigits2 m0 - 53) <= 970 ->
  exists (mf : positive) (ef : Z),
    binary_round_aux 53 1024 false m0 e l = S754_finite false mf ef
    /\ e <= ef <= e + (Zdigits2 m0 - 53) + 1
    /\ - (2 ^ (Zdigits2 m0 - 53) * den)
       <= 2 * (Z.pos mf * 2 ^ (ef - e) * den - T)
       <= 2 ^ (Zdigits2 m0 - 53) * den.
Proof.
  intros Hl Hm0 HD He.
  set (n := Zdigits2 m0 - 53) in *.
  assert (Hn : 0 <= n) by lia.
  pose proof (Zdigits2_bounds m0 Hm0) as [Dlo Dhi].
  replace (Zdigits2 m0 - 1) with (52 + n) in Dlo by lia.
  replace (Zdigits2 m0) with (53 + n) in Dhi by lia.
  rewrite Z.pow_add_r in Dlo, Dhi by lia.
  assert (HP : 0 < 2 ^ n) by (apply Z.pow_pos_nonneg; lia).
  pose proof Hl as (Hden & _ & Hrn0 & _). rewrite shr_m_of_loc in Hrn0.
  unfold binary_round_aux, shr_fexp.
  rewrite fexp_normal by lia.
  replace (Zdigits2 m0 + e - 53 - e) with n by lia.
  destruct (locates_shr (shr_record_of_loc m0 l) e n den T Hn Hl) as [Hl' He'].
  destruct (shr (shr_record_of_loc m0 l) e n) as [mrs' e'] eqn:Hshr.
  cbn [fst snd] in Hl', He'. subst e'.
  destruct (round_nearest_even_locates mrs' (2 ^ n * den) T Hl') as [Hmr Hnear].
  set (mr := round_nearest_even (shr_m mrs') (loc_of_shr_record mrs')) in *.
  destruct Hl' as (_ & Hm' & Hrn' & _).
  assert (Hm'lo : 2 ^ 52 <= shr_m mrs') by nia.
  assert (Hm'hi : shr_m mrs' < 2 ^ 53) by nia.
  destruct (Z.eq_dec mr (2 ^ 53)) as [Etop | Ntop].
  - rewrite Etop in *.
    replace (Zdigits2 (2 ^ 53)) with 54 by reflexivity.
    rewrite fexp_normal by lia.
    replace (54 + (e + n) - 53 - (e + n)) with 1 by lia.
    cbn [shr_record_of_loc shr iter_pos]. 
    change (shr_1 {| shr_m := 2 ^ 53; shr_r := false; shr_s := false |})
      with {| shr_m := 2 ^ 52; shr_r := false; shr_s := false |}.
    cbn [shr_m]. change (2 ^ 52) with (Z.pos (2 ^ 52)).
    destruct (Z.leb_spec (e + n + 1) (1024 - 53)); [| lia].
    exists (2 ^ 52)%positive, (e + n + 1). split; [reflexivity |]. split; [lia |].
    replace (e + n + 1 - e) with (1 + n) by lia. rewrite Z.pow_add_r by lia.
    change (Z.pos (2 ^ 52)) with (2 ^ 52). change (2 ^ 1) with 2.
    replace (2 ^ 52 * (2 * 2 ^ n) * den) with (2 ^ 53 * (2 ^ n * den)) by (change (2 ^ 53) with (2 * 2 ^ 52); ring).
    lia.
  - assert (Hmrlo : 2 ^ 52 <= mr < 2 ^ 53) by lia.
    assert (Hdig : Zdigits2 mr = 53) by (apply Zdigits2_unique; simpl; lia).
    rewrite Hdig, fexp_normal by lia.
    replace (53 + (e + n) - 53 - (e + n)) with 0 by lia.
    cbn [shr_record_of_loc shr shr_m].
    destruct mr as [| mf | mf] eqn:Emr; try lia.
    destruct (Z.leb_spec (e + n) (1024 - 53)); [| lia].
    exists mf, (e + n). split; [reflexivity |]. split; [lia |].
    replace (e + n - e) with n by lia.
    replace (Z.pos mf * 2 ^ n * den) with (Z.pos mf * (2 ^ n * den)) by ring.
    lia.
Qed.

Lemma Zdigits2_ge_53 (m : Z) : 2 ^ 52 <= m -> 53 <= Zdigits2 m.
Proof.
  intros Hm. assert (H0 : 0 < m) by (change (2 ^ 52) with 4503599627370496 in Hm; lia).
  pose proof (Zdigits2_bounds m H0) as [_ Hhi].
  destruct (Z.le_gt_cases 53 (Zdigits2 m)) as [Hle | Hgt]; [assumption |].
  assert (0 <= Zdigits2 m) by (destruct m; simpl; lia).
  assert (2 ^ Zdigits2 m <= 2 ^ 52) by (apply Z.pow_le_mono_r; lia). lia.
Qed.

Lemma Zdigits2_le (m k : Z) : 0 < m -> m < 2 ^ k -> Zdigits2 m <= k.
Proof.
  intros H0 Hm. pose proof (Zdigits2_bounds m H0) as [Hlo _].
  destruct (Z.le_gt_cases (Zdigits2 m) k) as [Hle | Hgt]; [assumption |].
  destruct (Z.lt_ge_cases k 0) as [Hneg | Hpos].
  - rewrite Z.pow_neg_r in Hm by assumption. lia.
  - assert (2 ^ k <= 2 ^ (Zdigits2 m - 1)) by (apply Z.pow_le_mono_r; lia). lia.
Qed.

Lemma locates_quotient (den T : Z) :
  0 < den -> 0 <= T ->
  locates (shr_record_of_loc (T / den) (new_location_even den (T mod den))) den T.
Proof.
  intros Hden HT.
  pose proof (Z.mod_pos_bound T den Hden) as Hr.
  pose proof (Z.div_mod T den ltac:(lia)) as Hdm.
  assert (Hq : 0 <= T / den) by (apply Z.div_pos; lia).
  assert (Hrn : T - T / den * den = T mod den) by lia.
  unfold locates, new_location_even. rewrite shr_m_of_loc, Hrn.
  destruct (Z.eqb_spec (T mod den) 0) as [E0 | N0].
  - cbn [shr_record_of_loc shr_r shr_s]. rewrite E0.
    repeat split; try lia; reflect_cmp; try reflexivity; lia.
  - destruct (Z.compare_spec (2 * (T mod den)) den);
      cbn [shr_record_of_loc shr_r shr_s];
      repeat split; try lia; reflect_cmp; try reflexivity; lia.
Qed.

(** The fraction of a second in [float64]: for [0 < nsec < 10^9] the
    quotient [float64(nsec)/1e9] is a finite positive value [mq * 2^eq]
    within [2^-53] of [nsec / 10^9]. *)
Lemma fraction_bounds (nsec : Z) :
  0 < nsec < nanosPerSecond ->
  exists (mq : positive) (eq : Z),
    SFdiv 53 1024 (time.float64_of_int nsec) (time.float64_of_int 1000000000)
    = S754_finite false mq eq
    /\ -83 <= eq < 0
    /\ (2 ^ 53 - nanosPerSecond) * 2 ^ (- eq) <= Z.pos mq * nanosPerSecond * 2 ^ 53
    /\ Z.pos mq * nanosPerSecond * 2 ^ 53
       <= ((nanosPerSecond - 1) * 2 ^ 53 + nanosPerSecond) * 2 ^ (- eq).
Proof.
  unfold nanosPerSecond. intros Hn.
  destruct nsec as [| pn | pn]; try lia.
  destruct (float64_of_int_pos pn) as (m1 & k1 & E1 & Hk1 & Hm1 & Hm1b); [lia |].
  set (nsec := Z.pos pn) in *.
  rewrite E1.
  change (time.float64_of_int 1000000000)
    with (S754_finite false 8388608000000000 (-23)).
  unfold SFdiv, SFdiv_core_binary.
  replace (Zdigits2 (Z.pos m1)) with 53
    by (symmetry; apply Zdigits2_unique; simpl; lia).
  change (Zdigits2 8388608000000000) with 53.
  rewrite fexp_normal by lia.
  replace (Z.min (53 + - k1 - (53 + -23) - 53) (- k1 - -23)) with (- 30 - k1) by lia.
  replace (- k1 - -23 - (-30 - k1)) with 53 by lia.
  cbv iota.
  rewrite Z.shiftl_mul_pow2 by lia.
  set (T := Z.pos m1 * 2 ^ 53).
  set (den := 8388608000000000).
  assert (Hden : 0 < den) by reflexivity.
  assert (HT : 0 <= T) by (unfold T; lia).
  pose proof (Z.div_mod T den ltac:(lia)) as Hdm.
  pose proof (Z.mod_pos_bound T den Hden) as Hr.
  unfold Z.div, Z.modulo in Hdm, Hr.
  pose proof (locates_quotient den T Hden HT) as Hloc.
  unfold Z.div, Z.modulo in Hloc.
  destruct (Z.div_eucl T den) as [q r].
  change (new_location den r) with (new_location_even den r).
  assert (Hq : 2 ^ 52 <= q < 2 ^ 54).
  { clear Hloc. unfold T, den in *. change (2 ^ 52) with 4503599627370496 in *.
    change (2 ^ 53) with 9007199254740992 in *.
    change (2 ^ 54) with 18014398509481984. lia. }
  assert (Hq0 : 0 < q) by (change (2 ^ 52) with 4503599627370496 in Hq; lia).
  pose proof (Zdigits2_ge_53 q (proj1 Hq)) as HD.
  pose proof (Zdigits2_le q 54 Hq0 (proj2 Hq)) as HD'.
  destruct (binary_round_aux_nearest q (-30 - k1) (new_location_even den r) den T
              Hloc Hq0 HD ltac:(lia))
    as (mq & eq & Eq & Heq & Hnear).
  cbn [xorb]. rewrite Eq. exists mq, eq. split; [reflexivity |]. split; [lia |].
  set (n := Zdigits2 q - 53) in *.
  assert (Hpn : 0 < 2 ^ n <= 2).
  { split; [apply Z.pow_pos_nonneg; lia |].
    change 2 with (2 ^ 1) at 2. apply Z.pow_le_mono_r; lia. }
  (* scale: 2^(-(-30-k1)) = 2^(-eq) * 2^(eq - (-30-k1)) *)
  set (g := 2 ^ (eq - (-30 - k1))) in *.
  assert (Hg : 0 < g) by (apply Z.pow_pos_nonneg; lia).
  assert (HP : 2 ^ (- eq) * g = 2 ^ 30 * 2 ^ k1).
  { unfold g. rewrite <- !Z.pow_add_r by lia. f_equal. lia. }
  assert (Hk : 1 <= 2 ^ k1)
    by (pose proof (Z.pow_pos_nonneg 2 k1 ltac:(lia) ltac:(lia)); lia).
  assert (Hpq : 0 < 2 ^ (- eq)) by (apply Z.pow_pos_nonneg; lia).
  (* nsec large enough: 2^52 <= nsec * 2^k1, nsec < 10^9 < 2^30, so 2^23 <= 2^k1 *)
  assert (Hk23 : 2 ^ 23 <= 2 ^ k1).
  { destruct (Z.le_gt_cases 23 k1) as [Hge | Hlt];
      [apply Z.pow_le_mono_r; lia |].
    assert (Hsmall : 2 ^ k1 <= 2 ^ 22) by (apply Z.pow_le_mono_r; lia).
    assert (Hprod : nsec * 2 ^ k1 <= 1000000000 * 2 ^ 22)
      by (apply Z.mul_le_mono_nonneg; lia).
    change (2 ^ 52) with 4503599627370496 in Hm1b.
    change (2 ^ 22) with 4194304 in Hprod. lia. }
  unfold T, den in Hnear. rewrite Hm1 in Hnear.
  change (2 ^ 53) with 9007199254740992 in *.
  change (2 ^ 30) with 1073741824 in *.
  change (2 ^ 23) with 8388608 in *.
  set (P := 2 ^ (- eq)) in *. set (K := 2 ^ k1) in *. set (c := 2 ^ n) in *.
  set (a := Z.pos mq) in *.
  split; nia.
Qed.

Lemma shl_align_value (m : positive) (e ez : Z) :
  ez <= e -> Z.pos (fst (shl_align m e ez)) = Z.pos m * 2 ^ (e - ez).
Proof.
  intros Hle. unfold shl_align.
  destruct (ez - e) as [| d | d] eqn:Hd; try lia.
  - replace (e - ez) with 0 by lia. simpl. lia.
  - cbn [fst]. rewrite Zpos_iter_xO. f_equal. f_equal. lia.
Qed.

(** Rounding a positive integer mantissa of at least 53 bits. *)
Lemma binary_normalize_nearest (M ez : Z) :
  2 ^ 52 <= M ->
  -1074 <= ez + (Zdigits2 M - 53) <= 970 ->
  exists (mf : positive) (ef : Z),
    binary_normalize 53 1024 M ez false = S754_finite false mf ef
    /\ ez <= ef <= ez + (Zdigits2 M - 53) + 1
    /\ - 2 ^ (Zdigits2 M - 53) <= 2 * (Z.pos mf * 2 ^ (ef - ez) - M)
       <= 2 ^ (Zdigits2 M - 53).
Proof.
  intros HM He.
  pose proof (Zdigits2_ge_53 M HM) as HD.
  assert (HM0 : 0 < M) by (change (2 ^ 52) with 4503599627370496 in HM; lia).
  destruct M as [| pM | pM]; try lia.
  unfold binary_normalize, binary_round, shl_align.
  change (Z.pos (digits2_pos pM)) with (Zdigits2 (Z.pos pM)).
  rewrite fexp_normal by lia.
  destruct (Zdigits2 (Z.pos pM) + ez - 53 - ez) as [| d | d] eqn:Hd; try lia.
  - destruct (binary_round_aux_nearest (Z.pos pM) ez loc_Exact 1 (Z.pos pM))
      as (mf & ef & E & Hef & Hnear); try assumption.
    { unfold locates. cbn [shr_record_of_loc shr_m shr_r shr_s].
      repeat split; try lia; reflect_cmp; try reflexivity; lia. }
    exists mf, ef. split; [exact E |]. split; [exact Hef | lia].
  - destruct (binary_round_aux_nearest (Z.pos pM) ez loc_Exact 1 (Z.pos pM))
      as (mf & ef & E & Hef & Hnear); try assumption.
    { unfold locates. cbn [shr_record_of_loc shr_m shr_r shr_s].
      repeat split; try lia; reflect_cmp; try reflexivity; lia. }
    exists mf, ef. split; [exact E |]. split; [exact Hef | lia].
Qed.

Lemma int_of_float64_floor (mf : positive) (ef ez s : Z) :
  ez <= ef -> ez <= 0 ->
  s * 2 ^ (- ez) <= Z.pos mf * 2 ^ (ef - ez) < (s + 1) * 2 ^ (- ez) ->
  time.int_of_float64 (S754_finite false mf ef) = s.
Proof.
  intros Hle Hez Hb. unfold time.int_of_float64.
  assert (Hpz : 0 < 2 ^ (- ez)) by (apply Z.pow_pos_nonneg; lia).
  destruct (Z.leb_spec 0 ef) as [Hpos | Hneg].
  - replace (ef - ez) with (ef + - ez) in Hb by lia.
    rewrite Z.pow_add_r in Hb by lia.
    assert (0 < 2 ^ ef) by (apply Z.pow_pos_nonneg; lia). nia.
  - assert (Hg : 0 < 2 ^ (ef - ez)) by (apply Z.pow_pos_nonneg; lia).
    assert (Hsplit : 2 ^ (- ez) = 2 ^ (- ef) * 2 ^ (ef - ez)).
    { rewrite <- Z.pow_add_r by lia. f_equal. lia. }
    rewrite Hsplit in Hb.
    assert (Hpf : 0 < 2 ^ (- ef)) by (apply Z.pow_pos_nonneg; lia).
    symmetry. apply (Z.div_unique_pos _ _ _ (Z.pos mf - s * 2 ^ (- ef))); nia.
Qed.

(** A duration of less than [2^24] seconds is sent as its whole
    seconds, whatever its fraction of a second. *)
Lemma wireTTL_below_2_24 (d : Z) :
  0 <= d -> Z.quot d time.Second < 2 ^ 24 -> wireTTL d = Z.quot d time.Second.
Proof.
  intros Hd Hlt.
  pose proof (Z.quot_rem' d time.Second) as Hqr.
  pose proof (Z.rem_bound_pos d time.Second Hd ltac:(reflexivity)) as Hrem.
  assert (Hsec : 0 <= Z.quot d time.Second) by (apply Z.quot_pos; [lia | reflexivity]).
  destruct (Z.eq_dec (Z.rem d time.Second) 0) as [E0 | N0].
  - rewrite Hqr at 1. rewrite E0, Z.add_0_r, Z.mul_comm.
    apply wireTTL_whole_seconds. change (2 ^ 24) with 16777216 in Hlt.
    change (2 ^ 53) with 9007199254740992. lia.
  - unfold wireTTL, time.Seconds.
    set (sec := Z.quot d time.Second) in *. set (nsec := Z.rem d time.Second) in *.
    destruct (fraction_bounds nsec) as (mq & eq & Eq & Heq & Hlo & Hhi);
      [unfold nanosPerSecond, time.Second in *; lia |].
    rewrite Eq. unfold nanosPerSecond in Hlo, Hhi.
    assert (Hpq : 0 < 2 ^ (- eq)) by (apply Z.pow_pos_nonneg; lia).
    change (2 ^ 53) with 9007199254740992 in Hlo, Hhi.
    destruct (Z.eq_dec sec 0) as [S0 | SN].
    + rewrite S0. change (time.float64_of_int 0) with (S754_zero false).
      cbn [SFadd]. unfold time.int_of_float64.
      destruct (Z.leb_spec 0 eq); [lia |].
      apply Z.div_small. lia.
    + destruct sec as [| ps | ps] eqn:Esec; try lia.
      destruct (float64_of_int_pos ps) as (mx & kx & Ex & Hkx & Hmx & Hmxb).
      { change (2 ^ 24) with 16777216 in Hlt. change (2 ^ 53) with 9007199254740992. lia. }
      rewrite <- Esec in *. clear Esec.
      rewrite Ex. cbn [SFadd cond_Zopp].
      set (ez := Z.min (- kx) eq).
      rewrite !shl_align_value by (unfold ez; lia).
      set (M := Z.pos mx * 2 ^ (- kx - ez) + Z.pos mq * 2 ^ (eq - ez)).
      assert (Hez : ez <= 0) by (unfold ez; lia).
      assert (Hpz : 0 < 2 ^ (- ez)) by (apply Z.pow_pos_nonneg; lia).
      assert (Hgx : 2 ^ kx * 2 ^ (- kx - ez) = 2 ^ (- ez)).
      { rewrite <- Z.pow_add_r by (unfold ez; lia). f_equal. lia. }
      assert (Hgq : 2 ^ (- eq) * 2 ^ (eq - ez) = 2 ^ (- ez)).
      { rewrite <- Z.pow_add_r by (unfold ez; lia). f_equal. lia. }
      assert (Hg1 : 0 < 2 ^ (- kx - ez)) by (apply Z.pow_pos_nonneg; unfold ez; lia).
      assert (Hg2 : 0 < 2 ^ (eq - ez)) by (apply Z.pow_pos_nonneg; unfold ez; lia).
      assert (HMx : Z.pos mx * 2 ^ (- kx - ez) = sec * 2 ^ (- ez)).
      { rewrite Hmx, <- Hgx. ring. }
      set (Y := Z.pos mq * 2 ^ (eq - ez)) in *.
      assert (HYlo : (9007199254740992 - 1000000000) * 2 ^ (- ez)
                     <= Y * 1000000000 * 9007199254740992).
      { unfold Y. rewrite <- Hgq. nia. }
      assert (HYhi : Y * 1000000000 * 9007199254740992
                     <= ((1000000000 - 1) * 9007199254740992 + 1000000000) * 2 ^ (- ez)).
      { unfold Y. rewrite <- Hgq. nia. }
      assert (HM : M = sec * 2 ^ (- ez) + Y) by (unfold M; rewrite HMx; reflexivity).
      assert (HM52 : 2 ^ 52 <= M).
      { unfold M. change (2 ^ 52) with 4503599627370496 in *. nia. }
      assert (HMhi : M < 2 ^ 24 * 2 ^ (- ez)).
      { rewrite HM. change (2 ^ 24) with 16777216 in *. nia. }
      assert (HD : Zdigits2 M <= 24 - ez).
      { apply Zdigits2_le; [change (2 ^ 52) with 4503599627370496 in HM52; lia |].
        replace (24 - ez) with (24 + - ez) by lia. rewrite Z.pow_add_r by lia. exact HMhi. }
      pose proof (Zdigits2_ge_53 M HM52) as HD53.
      destruct (binary_normalize_nearest M ez HM52) as (mf & ef & E & Hef & Hnear).
      { unfold ez in *. lia. }
      rewrite E.
      set (n := Zdigits2 M - 53) in *.
      assert (Hc : 2 ^ n * 2 ^ 29 <= 2 ^ (- ez)).
      { rewrite <- Z.pow_add_r by lia. apply Z.pow_le_mono_r; lia. }
      assert (Hc0 : 0 < 2 ^ n) by (apply Z.pow_pos_nonneg; lia).
      change (2 ^ 29) with 536870912 in Hc.
      apply (int_of_float64_floor mf ef ez sec); [lia | lia |].
      set (V := Z.pos mf * 2 ^ (ef - ez)) in *.
      set (Pz := 2 ^ (- ez)) in *. set (c := 2 ^ n) in *.
      rewrite HM in Hnear. split; lia.
Qed.

Section TTLFloor.
Context `{GoLibrary}.

Lemma flooredWire_below (r : Record_) :
  RR_TTL (Record_RR r) < defaultMinTTL -> w_ttl (flooredWire r) = 120.
Proof.
  intros Hlt. unfold flooredWire. cbn [w_ttl].
  destruct (Z.ltb_spec (RR_TTL (Record_RR r)) defaultMinTTL); [reflexivity | lia].
Qed.

Lemma flooredWire_whole_seconds (r : Record_) (seconds : Z) :
  RR_TTL (Record_RR r) = seconds * time.Second ->
  time.inInt64 (RR_TTL (Record_RR r)) = true ->
  120 <= seconds ->
  w_ttl (flooredWire r) = seconds.
Proof.
  intros Httl Hrange Hs. unfold flooredWire. cbn [w_ttl].
  unfold time.inInt64, time.minInt64, time.maxInt64 in Hrange.
  apply andb_true_iff in Hrange as [_ Hmax]. apply Z.leb_le in Hmax.
  rewrite Httl in *. unfold defaultMinTTL, time.Second in *.
  destruct (Z.ltb_spec (seconds * 1000000000) (120 * 1000000000)); [lia |].
  apply wireTTL_whole_seconds. lia.
Qed.

Lemma flooredWire_below_2_24 (r : Record_) :
  defaultMinTTL <= RR_TTL (Record_RR r) ->
  Z.quot (RR_TTL (Record_RR r)) time.Second < 2 ^ 24 ->
  w_ttl (flooredWire r) = Z.quot (RR_TTL (Record_RR r)) time.Second.
Proof.
  intros Hmin Hlt. unfold flooredWire. cbn [w_ttl].
  destruct (Z.ltb_spec (RR_TTL (Record_RR r)) defaultMinTTL); [lia |].
  apply wireTTL_below_2_24; [unfold defaultMinTTL, time.Second in Hmin; lia | assumption].
Qed.

Lemma retyped_TTLs (records : list Record_) :
  map (fun r => RR_TTL (Record_RR r)) (convertToSpecificTypes records)
  = map (fun r => RR_TTL (Record_RR r)) records.
Proof.
  rewrite convertToSpecificTypes_map, map_map. apply map_ext. intros r.
  apply convertToSpecificType_name_ttl.
Qed.

(** C2, as the code has it.  [AppendRecords] and [SetRecords] with a
    non-empty list dispatch one request whose body holds, record by
    record, [int(ttl.Seconds())] of the TTL raised to 120 s when it is
    lower: 120 for a TTL below 120 s; the whole seconds of a TTL from
    120 s on that is shorter than [2^24] seconds; the number of
    seconds of a TTL of a whole number of seconds from 120 s on.  The
    records returned on success carry the TTLs of the input,
    unchanged. *)
Theorem write_ttl_floor_on_wire_only (p : Provider) (zone : string)
  (records : list Record_) (w : World) :
  records <> [] ->
  Endpoint p <> "" ->
  url_Parse_ok (Endpoint p ++ zonePath zone) = true ->
  sent (snd (AppendRecords p zone records w))
  = (sent w ++ [requestOf p "POST" zone (Some (mkBody (map flooredWire records)))])%list
  /\ sent (snd (SetRecords p zone records w))
     = (sent w ++ [requestOf p "PUT" zone (Some (mkBody (map flooredWire records)))])%list
  /\ (forall r : Record_,
        RR_TTL (Record_RR r) < 120 * time.Second -> w_ttl (flooredWire r) = 120)
  /\ (forall r : Record_,
        120 * time.Second <= RR_TTL (Record_RR r) ->
        Z.quot (RR_TTL (Record_RR r)) time.Second < 2 ^ 24 ->
        w_ttl (flooredWire r) = Z.quot (RR_TTL (Record_RR r)) time.Second)
  /\ (forall (r : Record_) (seconds : Z),
        RR_TTL (Record_RR r) = seconds * time.Second ->
        time.inInt64 (RR_TTL (Record_RR r)) = true ->
        120 <= seconds ->
        w_ttl (flooredWire r) = seconds)
  /\ (forall out : list Record_,
        fst (AppendRecords p zone records w) = Ok out
        \/ fst (SetRecords p zone records w) = Ok out ->
        map (fun r => RR_TTL (Record_RR r)) out
        = map (fun r => RR_TTL (Record_RR r)) records).
Proof.
  intros Hne Hend Hurl.
  rewrite (AppendRecords_dispatch _ _ _ _ Hne Hend Hurl).
  rewrite (SetRecords_dispatch _ _ _ _ Hne Hend Hurl).
  cbn [fst snd sent].
  repeat match goal with |- _ /\ _ => split end; try reflexivity.
  - apply flooredWire_below.
  - apply flooredWire_below_2_24.
  - apply flooredWire_whole_seconds.
  - intros out [E | E].
    + destruct (remote w (sent w) _) as [resp | err]; [| discriminate].
      destruct (negb (StatusCode resp =? 201) && negb (StatusCode resp =? 200));
        [discriminate |].
      injection E as <-. apply retyped_TTLs.
    + destruct (remote w (sent w) _) as [resp | err]; [| discriminate].
      destruct (negb (StatusCode resp =? 200)); [discriminate |].
      injection E as <-. apply retyped_TTLs.
Qed.

End TTLFloor.

Section Delete.
Context `{GoLibrary}.

(** C3.  [DeleteRecords] on a non-empty list, once the API answered:
    status 200 or 204 gives the re-typed input and no error, every
    other status gives an empty list and no error.  The request carries
    each record with [int(rr.TTL.Seconds())] of its own TTL
    ([plainWire]): a TTL shorter than [2^24] seconds is sent as its
    whole seconds, below 120 as well.  The three other operations turn
    a status outside their success set into an error that carries the
    status text. *)
Theorem delete_swallows_failure_statuses (p : Provider) (zone : string)
  (records : list Record_) (w : World) (resp : Response) :
  records <> [] ->
  Endpoint p <> "" ->
  url_Parse_ok (Endpoint p ++ zonePath zone) = true ->
  (remote w (sent w) (requestOf p "DELETE" zone (Some (mkBody (map plainWire records))))
   = Ok resp ->
   DeleteRecords p zone records w
   = (Ok (if (StatusCode resp =? 200) || (StatusCode resp =? 204)
          then convertToSpecificTypes records else []),
      mkWorld
        (sent w ++ [requestOf p "DELETE" zone (Some (mkBody (map plainWire records)))])
        (remote w)))
  /\ (forall r : Record_,
        0 <= RR_TTL (Record_RR r) ->
        Z.quot (RR_TTL (Record_RR r)) time.Second < 2 ^ 24 ->
        w_ttl (plainWire r) = Z.quot (RR_TTL (Record_RR r)) time.Second)
  /\ (remote w (sent w) (requestOf p "GET" zone None) = Ok resp ->
      StatusCode resp <> 200 ->
      fst (GetRecords p zone w) = Err (errorString ("API error: " ++ Status resp)))
  /\ (remote w (sent w) (requestOf p "POST" zone (Some (mkBody (map flooredWire records))))
      = Ok resp ->
      StatusCode resp <> 200 -> StatusCode resp <> 201 ->
      fst (AppendRecords p zone records w)
      = Err (errorString ("API error during addition: " ++ Status resp)))
  /\ (remote w (sent w) (requestOf p "PUT" zone (Some (mkBody (map flooredWire records))))
      = Ok resp ->
      StatusCode resp <> 200 ->
      fst (SetRecords p zone records w)
      = Err (errorString ("API error during update: " ++ Status resp))).
Proof.
  intros Hne Hend Hurl. split; [| split; [| split; [| split]]].
  - intros Hresp. rewrite (DeleteRecords_dispatch _ _ _ _ Hne Hend Hurl), Hresp.
    destruct ((StatusCode resp =? 200) || (StatusCode resp =? 204)); reflexivity.
  - intros r. apply wireTTL_below_2_24.
  - intros Hresp Hs. rewrite (GetRecords_dispatch _ _ _ Hend Hurl), Hresp. simpl.
    unfold GetRecords_response, StatusOK.
    destruct (Z.eqb_spec (StatusCode resp) 200); [contradiction | reflexivity].
  - intros Hresp H200 H201. rewrite (AppendRecords_dispatch _ _ _ _ Hne Hend Hurl), Hresp.
    simpl. destruct (Z.eqb_spec (StatusCode resp) 201); [contradiction |].
    destruct (Z.eqb_spec (StatusCode resp) 200); [contradiction | reflexivity].
  - intros Hresp H200. rewrite (SetRecords_dispatch _ _ _ _ Hne Hend Hurl), Hresp.
    simpl. destruct (Z.eqb_spec (StatusCode resp) 200); [contradiction | reflexivity].
Qed.

End Delete.

(** *** Three computations that no library changes *)

Section EveryLibrary.
Context `{GoLibrary}.

(** [int(ttl.Seconds())] of 16777216.999999999 s. *)
Lemma wireTTL_rounds_up : wireTTL 16777216999999999 = 16777217.
Proof. vm_compute. reflexivity. Qed.

Lemma retype_MX_empty_target (name : string) (ttl : time.Duration) :
  convertToSpecificTypes [MX name ttl 5 ""] = [MX name ttl 10 "5 "].
Proof. reflexivity. Qed.

Lemma GetRecords_response_mistyped_records (status : string) (v : json.value) :
  (forall vs, v <> json.JArray vs) ->
  v <> json.JNull ->
  GetRecords_response
    (mkResponse 200 status (Ok (Some (json.JObject [("records", v)]))))
  = Err (wrapError "JSON decoding error" json.typeError).
Proof.
  intros Harr Hnull. unfold GetRecords_response. cbn.
  destruct v as [| b | n | s | vs | members];
    try reflexivity; [contradiction | now destruct (Harr vs)].
Qed.

End EveryLibrary.

(** ** Further properties of the operations *)

(** *** Requests *)

Section Requests.
Context `{GoLibrary}.

Lemma requestOf_carriesCredentials (p : Provider) (method zone : string)
  (body : option requestBody) :
  carriesCredentials p (requestOf p method zone body).
Proof.
  unfold carriesCredentials, requestOf, requestHeader. cbn [Header ReqBody].
  destruct (String.eqb_spec (APIToken p) "") as [E | N]; destruct body as [b |];
    cbn [List.app In]; repeat split; intros;
    repeat match goal with
           | H : _ \/ _ |- _ => destruct H
           | H : _ /\ _ |- _ => destruct H
           | H : (_, _) = (_, _) |- _ => inversion H; clear H; subst
           | H : False |- _ => destruct H
           end;
    subst; try congruence; try discriminate; auto.
Qed.

Lemma last_request (log : list Request) (a b : Request) :
  (log ++ [a] = log ++ [b])%list -> a = b.
Proof. intros E. apply app_inv_head in E. now inversion E. Qed.

Lemma not_grown (log : list Request) (a : Request) : log <> (log ++ [a])%list.
Proof.
  intros E. apply (f_equal (@List.length _)) in E. rewrite length_app in E.
  simpl in E. lia.
Qed.

Lemma makeRequest_sent (p : Provider) (method zone : string) (body : option requestBody)
  (w : World) (req : Request) :
  sent (snd (makeRequest p method (zonePath zone) body w)) = (sent w ++ [req])%list ->
  req = requestOf p method zone body.
Proof.
  destruct (makeRequest_cases p method zone body w) as [[err E] | E]; rewrite E;
    cbn [snd sent]; intros Hs.
  - now apply not_grown in Hs.
  - symmetry. now apply last_request in Hs.
Qed.

(** The request behind each operation.  [GetRecords] dispatches a GET
    without a body, [AppendRecords] a POST, [SetRecords] a PUT and
    [DeleteRecords] a DELETE, each with a body.  Every request carries
    the header [Authorization: Bearer <token>] exactly when the
    provider has a token, [Content-Type: application/json] exactly
    when it has a body, and no other header. *)
Theorem requests_carry_method_token_and_content_type (p : Provider) (zone : string)
  (records : list Record_) (w : World) (req : Request) :
  (sent (snd (GetRecords p zone w)) = (sent w ++ [req])%list ->
   Method req = "GET" /\ ReqBody req = None /\ carriesCredentials p req)
  /\ (sent (snd (AppendRecords p zone records w)) = (sent w ++ [req])%list ->
      Method req = "POST" /\ ReqBody req <> None /\ carriesCredentials p req)
  /\ (sent (snd (SetRecords p zone records w)) = (sent w ++ [req])%list ->
      Method req = "PUT" /\ ReqBody req <> None /\ carriesCredentials p req)
  /\ (sent (snd (DeleteRecords p zone records w)) = (sent w ++ [req])%list ->
      Method req = "DELETE" /\ ReqBody req <> None /\ carriesCredentials p req).
Proof.
  split; [| split; [| split]].
  - rewrite GetRecords_world. intros Hs. apply makeRequest_sent in Hs. subst req.
    split; [reflexivity |]. split; [reflexivity |]. apply requestOf_carriesCredentials.
  - destruct records as [| r rest]; [intros Hs; now apply not_grown in Hs |].
    rewrite AppendRecords_world. intros Hs. apply makeRequest_sent in Hs. subst req.
    split; [reflexivity |]. split; [discriminate |]. apply requestOf_carriesCredentials.
  - destruct records as [| r rest]; [intros Hs; now apply not_grown in Hs |].
    rewrite SetRecords_world. intros Hs. apply makeRequest_sent in Hs. subst req.
    split; [reflexivity |]. split; [discriminate |]. apply requestOf_carriesCredentials.
  - destruct records as [| r rest]; [intros Hs; now apply not_grown in Hs |].
    rewrite DeleteRecords_world. intros Hs. apply makeRequest_sent in Hs. subst req.
    split; [reflexivity |]. split; [discriminate |]. apply requestOf_carriesCredentials.
Qed.

(** Failures before a response, with an endpoint and a list that is
    not empty.  When the call fails in the transport, every operation,
    [DeleteRecords] included, returns the error of the transport
    wrapped with the name of its method, and the request has been
    dispatched.  When the HTTP library rejects the URL, every operation
    returns "request creation error", wrapped likewise, and dispatches
    nothing.  When the body of a response of status 200 cannot be
    read, [GetRecords] returns "body reading error". *)
Theorem transport_failures_are_returned (p : Provider) (zone : string)
  (records : list Record_) (w : World) :
  Endpoint p <> "" ->
  records <> [] ->
  (forall err : error,
      url_Parse_ok (Endpoint p ++ "/zones/" ++ zone ++ "/records") = true ->
      unreachable w err ->
      fst (GetRecords p zone w) = Err (wrapError "GET request error" err)
      /\ fst (AppendRecords p zone records w) = Err (wrapError "POST request error" err)
      /\ fst (SetRecords p zone records w) = Err (wrapError "PUT request error" err)
      /\ fst (DeleteRecords p zone records w) = Err (wrapError "DELETE request error" err)
      /\ List.length (sent (snd (DeleteRecords p zone records w)))
         = S (List.length (sent w)))
  /\ (url_Parse_ok (Endpoint p ++ "/zones/" ++ zone ++ "/records") = false ->
      let err := wrapError "request creation error" (libraryError "net/url") in
      GetRecords p zone w = (Err (wrapError "GET request error" err), w)
      /\ AppendRecords p zone records w = (Err (wrapError "POST request error" err), w)
      /\ SetRecords p zone records w = (Err (wrapError "PUT request error" err), w)
      /\ DeleteRecords p zone records w = (Err (wrapError "DELETE request error" err), w))
  /\ (forall (resp : Response) (err : error),
        url_Parse_ok (Endpoint p ++ "/zones/" ++ zone ++ "/records") = true ->
        (forall log req, remote w log req = Ok resp) ->
        StatusCode resp = 200 ->
        Body resp = Err err ->
        fst (GetRecords p zone w) = Err (wrapError "body reading error" err)).
Proof.
  intros Hend Hne. split; [| split].
  - intros err Hurl Hdown. fold (zonePath zone) in Hurl.
    rewrite (GetRecords_dispatch _ _ _ Hend Hurl),
      (AppendRecords_dispatch _ _ _ _ Hne Hend Hurl),
      (SetRecords_dispatch _ _ _ _ Hne Hend Hurl),
      (DeleteRecords_dispatch _ _ _ _ Hne Hend Hurl).
    rewrite !Hdown. cbn [fst snd sent]. rewrite length_app. simpl.
    repeat split. lia.
  - intros Hurl err. fold (zonePath zone) in Hurl.
    destruct records as [| r rest]; [contradiction |].
    unfold GetRecords, AppendRecords, SetRecords, DeleteRecords, bind, ret, makeRequest,
      initClient, NewRequestWithContext, url.Parse.
    destruct (String.eqb_spec (Endpoint p) "") as [E | _]; [contradiction |].
    fold (zonePath zone). rewrite Hurl. repeat split.
  - intros resp err Hurl Hresp Hs Hb. fold (zonePath zone) in Hurl.
    rewrite (GetRecords_dispatch _ _ _ Hend Hurl), Hresp. cbn [fst].
    unfold GetRecords_response, StatusOK. rewrite Hs, Hb. reflexivity.
Qed.

End Requests.

(** *** Type tags and TTLs of listed records *)

Lemma upperByte_not_lower (c : ascii) :
  strings.isLower c = false -> strings.upperByte c = c.
Proof. unfold strings.upperByte. now intros ->. Qed.

Lemma string_map_upperByte_fixed (s : string) :
  string_existsb strings.isLower s = false -> string_map strings.upperByte s = s.
Proof.
  induction s as [| c t IH]; simpl; [reflexivity |].
  intros E. apply orb_false_iff in E as [Hc Ht].
  now rewrite (upperByte_not_lower c Hc), IH.
Qed.

Section Tags.
Context `{GoLibrary}.

Lemma ToUpper_ascii (s : string) :
  isASCII s = true -> strings.ToUpper s = string_map strings.upperByte s.
Proof.
  intros Ha. unfold strings.ToUpper. rewrite Ha.
  destruct (string_existsb strings.isLower s) eqn:E; [reflexivity |].
  symmetry. now apply string_map_upperByte_fixed.
Qed.

Lemma convertAPIRecordToLibDNS_by_tag (name t1 t2 value : string) (ttl : Z) :
  strings.ToUpper t1 = strings.ToUpper t2 ->
  inDispatchTable t1 = true ->
  convertAPIRecordToLibDNS (json.mkApiRecord name t1 value ttl)
  = convertAPIRecordToLibDNS (json.mkApiRecord name t2 value ttl).
Proof.
  intros E Hin. unfold inDispatchTable in Hin. unfold convertAPIRecordToLibDNS.
  cbn [json.Name json.Type_ json.Value json.TTL]. rewrite <- E.
  repeat match goal with
         | |- context [String.eqb ?a ?b] =>
           destruct (String.eqb a b) eqn:?; cbn [orb]
         end; try reflexivity.
  repeat match goal with E : String.eqb _ _ = false |- _ => rewrite E in Hin; clear E end.
  discriminate.
Qed.

(** Type tags are read without regard to the case of ASCII letters:
    two ASCII tags that differ in letter case only and select a case
    of the dispatch table give the same record in decode, and the same
    record in re-typing unless the tag is an address tag and the data
    is no address (the record then stays generic, with its tag as
    spelled). *)
Theorem type_tag_is_case_insensitive (name t1 t2 value : string) (ttl : Z) :
  isASCII t1 = true ->
  isASCII t2 = true ->
  string_map strings.upperByte t1 = string_map strings.upperByte t2 ->
  inDispatchTable t1 = true ->
  convertAPIRecordToLibDNS (json.mkApiRecord name t1 value ttl)
  = convertAPIRecordToLibDNS (json.mkApiRecord name t2 value ttl)
  /\ (isAddressTag t1 = false \/ netip_ParseAddr value <> None ->
      convertToSpecificTypes [Generic (mkRR name ttl t1 value)]
      = convertToSpecificTypes [Generic (mkRR name ttl t2 value)]).
Proof.
  intros H1 H2 E Hin.
  assert (E' : strings.ToUpper t1 = strings.ToUpper t2)
    by (now rewrite !ToUpper_ascii).
  split.
  - now apply convertAPIRecordToLibDNS_by_tag.
  - intros Hc. rewrite !convertToSpecificTypes_map. cbn [map]. f_equal.
    unfold inDispatchTable in Hin. unfold isAddressTag in Hc.
    unfold convertToSpecificType.
    cbn [Record_RR RR_Type RR_Name RR_TTL RR_Data]. rewrite <- E'.
    destruct (String.eqb (strings.ToUpper t1) "A" || String.eqb (strings.ToUpper t1) "AAAA")
      eqn:Haddr.
    + destruct (netip_ParseAddr value); [reflexivity |].
      destruct Hc as [Hc | Hc]; [discriminate | contradiction].
    + cbn [orb] in Hin.
      repeat match goal with
             | |- context [String.eqb ?a ?b] =>
               destruct (String.eqb a b) eqn:?; cbn [orb]
             end; try reflexivity.
      repeat match goal with E : String.eqb _ _ = false |- _ => rewrite E in Hin; clear E end.
      discriminate.
Qed.

(** What decode stores, whatever the type. *)
Lemma convertAPIRecordToLibDNS_name_ttl (a : json.apiRecord) (r : Record_) :
  convertAPIRecordToLibDNS a = Ok r ->
  RR_Name (Record_RR r) = json.Name a
  /\ RR_TTL (Record_RR r) = time.mul64 (json.TTL a) time.Second.
Proof.
  unfold convertAPIRecordToLibDNS.
  repeat match goal with
         | |- context [if ?b then _ else _] => destruct b
         | |- context [match netip_ParseAddr ?s with _ => _ end] =>
           destruct (netip_ParseAddr s)
         | |- context [let (_, _) := ?m in _] => destruct m
         end; intros E; inversion E; split; reflexivity.
Qed.

Lemma mul64_seconds (seconds : Z) :
  - maxSeconds <= seconds <= maxSeconds ->
  time.mul64 seconds time.Second = seconds * 1000000000.
Proof.
  unfold maxSeconds, time.mul64, time.wrap64, time.Second. intros Hs.
  change (2 ^ 63) with 9223372036854775808.
  change (2 ^ 64) with 18446744073709551616.
  rewrite Z.mod_small by lia. lia.
Qed.

(** The TTL of a listed record is the element's [ttl] times one
    second as long as the [ttl] is between -9223372036 and 9223372036;
    at 9223372037 the 64-bit product wraps around and the TTL is
    negative. *)
Theorem listed_ttl_is_seconds_until_overflow (a : json.apiRecord) (r : Record_) :
  convertAPIRecordToLibDNS a = Ok r ->
  (- maxSeconds <= json.TTL a <= maxSeconds ->
   RR_TTL (Record_RR r) = json.TTL a * 1000000000)
  /\ (json.TTL a = maxSeconds + 1 ->
      RR_TTL (Record_RR r) = - 9223372036709551616).
Proof.
  intros E. destruct (convertAPIRecordToLibDNS_name_ttl a r E) as [_ ->]. split.
  - apply mul64_seconds.
  - intros ->. reflexivity.
Qed.

(** The type a listed record reports through [RR()]: [AAAA] or [A] by
    the family of the parsed address when the tag is an address tag,
    whatever the tag said; the tag in upper case for TXT, CNAME, MX and
    NS; and for a tag outside the dispatch table the record is generic
    and keeps the tag as spelled. *)
Theorem listed_type_is_canonical (a : json.apiRecord) (r : Record_) :
  convertAPIRecordToLibDNS a = Ok r ->
  (isAddressTag (json.Type_ a) = true ->
   exists ip, netip_ParseAddr (json.Value a) = Some ip
              /\ RR_Type (Record_RR r) = (if Addr_Is6 ip then "AAAA" else "A"))
  /\ (isAddressTag (json.Type_ a) = false ->
      inDispatchTable (json.Type_ a) = true ->
      RR_Type (Record_RR r) = strings.ToUpper (json.Type_ a))
  /\ (inDispatchTable (json.Type_ a) = false ->
      r = Generic (mkRR (json.Name a) (time.mul64 (json.TTL a) time.Second)
                     (json.Type_ a) (json.Value a))).
Proof.
  unfold convertAPIRecordToLibDNS, isAddressTag, inDispatchTable.
  destruct (String.eqb (strings.ToUpper (json.Type_ a)) "A"
            || String.eqb (strings.ToUpper (json.Type_ a)) "AAAA") eqn:Haddr.
  - destruct (netip_ParseAddr (json.Value a)) as [ip |]; [| discriminate].
    intros E. inversion E. subst r. split; [| split].
    + intros _. exists ip. split; reflexivity.
    + discriminate.
    + cbn [orb]. discriminate.
  - cbn [orb].
    destruct (String.eqb_spec (strings.ToUpper (json.Type_ a)) "TXT") as [Et | _].
    { intros E. inversion E. repeat split; try discriminate. intros _ _. now rewrite Et. }
    destruct (String.eqb_spec (strings.ToUpper (json.Type_ a)) "CNAME") as [Et | _].
    { intros E. inversion E. repeat split; try discriminate. intros _ _. now rewrite Et. }
    destruct (String.eqb_spec (strings.ToUpper (json.Type_ a)) "MX") as [Et | _].
    { destruct (mxParts (json.Value a)).
      intros E. inversion E. repeat split; try discriminate. intros _ _. now rewrite Et. }
    destruct (String.eqb_spec (strings.ToUpper (json.Type_ a)) "NS") as [Et | _].
    { intros E. inversion E. repeat split; try discriminate. intros _ _. now rewrite Et. }
    intros E. inversion E. repeat split; discriminate.
Qed.

End Tags.

(** *** Numerals that are no preference *)

(** A numeral too large for 16 bits is no preference. *)
Lemma ParseUint10_FormatUint_large (n : Z) :
  2 ^ 64 <= n -> strconv.ParseUint10 (strconv.FormatUint n) = None.
Proof.
  intros Hn. unfold strconv.ParseUint10.
  destruct (FormatUint_digits n) as [Hd Hne].
  destruct (uint_of_FormatUint n) as (d & Hu & Hv); [lia |].
  destruct (strconv.FormatUint n) as [| c t]; [contradiction |].
  rewrite Hd, Hu, Hv.
  destruct (Z.ltb_spec n (2 ^ 64)); [lia | reflexivity].
Qed.

Lemma parseUint16_FormatUint_large (n : Z) :
  65536 <= n -> parseUint16 (strconv.FormatUint n) = None.
Proof.
  intros Hn. unfold parseUint16, fmt.Sscanf_d_uint16.
  destruct (FormatUint_digits n) as [Hd Hne].
  pose proof (ParseUint10_FormatUint n) as Hp.
  pose proof (ParseUint10_FormatUint_large n) as Hl.
  destruct (strconv.FormatUint n) as [| c t] eqn:E; [contradiction |].
  pose proof Hd as Hd'. simpl in Hd'. apply andb_true_iff in Hd' as [Hc _].
  rewrite (SkipSpace_digit c t Hc), (scanNumber_digits _ Hd).
  destruct (Z.lt_ge_cases n (2 ^ 64)) as [Hlt | Hge].
  - rewrite Hp by lia. destruct (Z.ltb_spec n (2 ^ 16)); [| reflexivity].
    change (2 ^ 16) with 65536 in *. lia.
  - now rewrite Hl.
Qed.

Lemma mxParts_large_numeral (n : Z) (rest : string) :
  65536 <= n ->
  mxParts (fmt.Sprintf_d_s n rest) = (10, fmt.Sprintf_d_s n rest).
Proof.
  intros Hn. apply mxParts_default. right.
  rewrite Fields_numeral_space. cbn [hd]. now apply parseUint16_FormatUint_large.
Qed.

Section Preference.
Context `{GoLibrary}.

(** A first token that is the decimal numeral of a number of more than
    16 bits is not a preference: the record gets preference 10 and
    keeps the whole value as its target. *)
Theorem mx_preference_out_of_range (a : json.apiRecord) (first rest : string) (n : Z) :
  strings.ToUpper (json.Type_ a) = "MX" ->
  json.Value a = first ++ " " ++ rest ->
  first = strconv.FormatUint n ->
  65536 <= n ->
  convertAPIRecordToLibDNS a
  = Ok (MX (json.Name a) (time.mul64 (json.TTL a) time.Second) 10 (json.Value a)).
Proof.
  intros Hty Hv -> Hn. rewrite (convert_mx a Hty), Hv.
  change (strconv.FormatUint n ++ " " ++ rest) with (fmt.Sprintf_d_s n rest).
  now rewrite (mxParts_large_numeral n rest Hn).
Qed.

End Preference.

(** *** The first failure of a listing *)

Section FirstFailure.
Context `{GoLibrary}.

Lemma convertRecords_first_invalid (good rest : list json.apiRecord) (bad : json.apiRecord)
  (records : list Record_) :
  Forall (fun a => exists r, convertAPIRecordToLibDNS a = Ok r) good ->
  isAddressTag (json.Type_ bad) = true ->
  netip_ParseAddr (json.Value bad) = None ->
  convertRecords (good ++ bad :: rest) records = Err (conversionError (json.Value bad)).
Proof.
  intros Hgood Htag Hip. revert records.
  induction Hgood as [| a good [r Ha] _ IH]; intros records; simpl.
  - now rewrite (convertAPIRecordToLibDNS_invalid bad Htag Hip).
  - rewrite Ha. apply IH.
Qed.

(** The conversion loop, element by element. *)
Lemma convertRecords_Ok (apiRecords : list json.apiRecord) (acc records : list Record_) :
  convertRecords apiRecords acc = Ok records
  <-> exists converted,
        records = (acc ++ converted)%list
        /\ Forall2 (fun a r => convertAPIRecordToLibDNS a = Ok r) apiRecords converted.
Proof.
  revert acc. induction apiRecords as [| a rest IH]; intros acc; simpl.
  - split.
    + intros E. inversion E. exists []. split; [now rewrite app_nil_r | constructor].
    + intros (converted & -> & HF). inversion HF. now rewrite app_nil_r.
  - destruct (convertAPIRecordToLibDNS a) as [r | e] eqn:Ha.
    + rewrite IH. split.
      * intros (converted & -> & HF). exists (r :: converted).
        split; [now rewrite <- app_assoc | now constructor].
      * intros (converted & -> & HF). inversion HF as [| a' r' rest' conv' Hr HF' E1 E2].
        subst. exists conv'. split; [| assumption].
        rewrite <- app_assoc. simpl. congruence.
    + split; [discriminate |].
      intros (converted & _ & HF). inversion HF. congruence.
Qed.

(** The error of a listing names the first address that does not
    parse: when the elements before it convert, [GetRecords] returns
    "record conversion error" wrapping "invalid IP address" with the
    value of that element, whatever follows it. *)
Theorem listing_reports_first_invalid_address (p : Provider) (zone : string) (w : World)
  (resp : Response) (body : json.document) (good rest : list json.apiRecord)
  (bad : json.apiRecord) :
  Endpoint p <> "" ->
  url_Parse_ok (Endpoint p ++ zonePath zone) = true ->
  remote w (sent w) (requestOf p "GET" zone None) = Ok resp ->
  StatusCode resp = 200 ->
  Body resp = Ok body ->
  decodesTo body (good ++ bad :: rest) ->
  Forall (fun a => exists r, convertAPIRecordToLibDNS a = Ok r) good ->
  isAddressTag (json.Type_ bad) = true ->
  netip_ParseAddr (json.Value bad) = None ->
  fst (GetRecords p zone w)
  = Err (wrapError "record conversion error"
           (wrapError ("invalid IP address '" ++ json.Value bad ++ "'")
              (libraryError "netip.ParseAddr"))).
Proof.
  intros Hend Hurl Hresp Hs Hb Hd Hgood Htag Hip.
  rewrite (GetRecords_dispatch _ _ _ Hend Hurl), Hresp. simpl.
  rewrite (GetRecords_response_decodesTo resp body _ Hs Hb Hd).
  now apply convertRecords_first_invalid.
Qed.

End FirstFailure.

(** *** The elements of a listing *)

Section Elements.
Context `{GoLibrary}.

Lemma storeMember_ok (r : json.apiRecord) (ok : bool) (kv : string * json.value) :
  snd (json.storeMember (r, ok) kv) = ok && memberFits kv.
Proof.
  unfold json.storeMember, memberFits.
  destruct (json.findField json.recordFields (fst kv)) as [[| | |] |];
    cbn [snd]; try (now rewrite andb_true_r);
    destruct (snd kv) as [| b | [z | l] | s | vs | ms]; cbn; try reflexivity;
    destruct (time.inInt64 z); reflexivity.
Qed.

Lemma storeMembers_ok (members : list (string * json.value)) (st : json.apiRecord * bool) :
  snd (fold_left json.storeMember members st) = snd st && forallb memberFits members.
Proof.
  revert st. induction members as [| kv rest IH]; intros [r ok]; cbn [fold_left forallb].
  - cbn. now rewrite andb_true_r.
  - rewrite IH. destruct (json.storeMember (r, ok) kv) as [r' ok'] eqn:E.
    pose proof (storeMember_ok r ok kv) as Hk. rewrite E in Hk. cbn [snd] in *.
    subst ok'. now rewrite andb_assoc.
Qed.

Lemma storeRecord_ok (cur : json.apiRecord) (v : json.value) :
  snd (json.storeRecord cur v) = wellTyped v.
Proof.
  destruct v as [| b | n | s | vs | members]; try reflexivity.
  cbn [json.storeRecord wellTyped]. now rewrite storeMembers_ok.
Qed.

Lemma storeElems_fresh (vs : list json.value) :
  json.storeElems [] vs = (map decodeElement vs, forallb wellTyped vs).
Proof.
  induction vs as [| v rest IH]; [reflexivity |].
  cbn [json.storeElems hd tl map forallb]. rewrite IH.
  pose proof (storeRecord_ok json.zeroRecord v) as Hok. unfold decodeElement.
  destruct (json.storeRecord json.zeroRecord v) as [r ok]. cbn [fst snd] in *.
  now subst ok.
Qed.

Lemma Unmarshal_apiRecords_array (vs : list json.value) :
  json.Unmarshal_apiRecords (Some (json.JArray vs))
  = if forallb wellTyped vs then Ok (map decodeElement vs) else Err json.typeError.
Proof.
  unfold json.Unmarshal_apiRecords, json.storeSlice.
  destruct vs as [| v rest]; [reflexivity |].
  cbn [json.elems json.spare json.nilSlice List.app]. rewrite storeElems_fresh.
  reflexivity.
Qed.

Lemma GetRecords_response_array (status : string) (vs : list json.value) :
  GetRecords_response (mkResponse 200 status (Ok (Some (json.JArray vs))))
  = if forallb wellTyped vs then convertRecords (map decodeElement vs) []
    else Err (wrapError "JSON decoding error" json.typeError).
Proof.
  unfold GetRecords_response. cbn [StatusCode Body]. change (200 =? StatusOK) with true.
  cbn [negb]. rewrite Unmarshal_apiResponse_array, Unmarshal_apiRecords_array.
  destruct (forallb wellTyped vs); reflexivity.
Qed.

Lemma Forall2_listedAs (vs : list json.value) (rs : list Record_) :
  Forall2 listedAs vs rs
  <-> forallb wellTyped vs = true
      /\ Forall2 (fun a r => convertAPIRecordToLibDNS a = Ok r) (map decodeElement vs) rs.
Proof.
  split.
  - induction 1 as [| v r vs rs [Hw Hc] _ [IHw IHc]]; [split; constructor |].
    cbn [forallb map]. rewrite Hw, IHw. split; [reflexivity | now constructor].
  - revert rs. induction vs as [| v vs IH]; intros rs [Hw Hc].
    + inversion Hc. constructor.
    + cbn [forallb map] in *. apply andb_true_iff in Hw as [Hv Hw].
      inversion Hc as [| a r l l' Hr Hrest]; subst.
      constructor; [split; assumption | apply IH; split; assumption].
Qed.

Lemma GetRecords_response_array_Ok (status : string) (vs : list json.value)
  (rs : list Record_) :
  GetRecords_response (mkResponse 200 status (Ok (Some (json.JArray vs)))) = Ok rs
  <-> Forall2 listedAs vs rs.
Proof.
  rewrite GetRecords_response_array, Forall2_listedAs.
  destruct (forallb wellTyped vs).
  - rewrite convertRecords_Ok. cbn [List.app]. split.
    + intros (converted & -> & HF). split; [reflexivity | assumption].
    + intros [_ HF]. exists rs. split; [reflexivity | assumption].
  - split; [discriminate | intros [E _]; discriminate].
Qed.

(** The records of a listing, element by element.  For a body of
    status 200 that is an array of elements, bare or under [records]:
    [GetRecords] returns a list exactly when every element is well
    typed (which is when the decoder stores it without a type error)
    and each record is the conversion of the element at its place,
    decoded from the zero element; the list has one record per
    element; and one element that is not well typed makes the listing
    fail with "JSON decoding error". *)
Theorem listing_is_elementwise (p : Provider) (zone : string) (w : World)
  (status : string) (vs : list json.value) (body : json.value) :
  Endpoint p <> "" ->
  url_Parse_ok (Endpoint p ++ zonePath zone) = true ->
  remote w (sent w) (requestOf p "GET" zone None)
  = Ok (mkResponse 200 status (Ok (Some body))) ->
  body = json.JArray vs \/ body = json.JObject [("records", json.JArray vs)] ->
  (forall cur v, snd (json.storeRecord cur v) = wellTyped v)
  /\ (forall rs, fst (GetRecords p zone w) = Ok rs <-> Forall2 listedAs vs rs)
  /\ (forall rs, fst (GetRecords p zone w) = Ok rs -> List.length rs = List.length vs)
  /\ ((exists v, In v vs /\ wellTyped v = false) ->
      fst (GetRecords p zone w) = Err (wrapError "JSON decoding error" json.typeError)).
Proof.
  intros Hend Hurl Hresp Hbody.
  rewrite (GetRecords_dispatch _ _ _ Hend Hurl), Hresp. cbn [fst].
  assert (E : GetRecords_response (mkResponse 200 status (Ok (Some body)))
              = GetRecords_response (mkResponse 200 status (Ok (Some (json.JArray vs))))).
  { destruct Hbody as [-> | ->]; [reflexivity | apply GetRecords_response_shapes]. }
  rewrite E. split; [| split; [| split]].
  - apply storeRecord_ok.
  - intros rs. apply GetRecords_response_array_Ok.
  - intros rs Hrs. apply GetRecords_response_array_Ok in Hrs.
    symmetry. eapply Forall2_length. exact Hrs.
  - intros (v & Hin & Hv). rewrite GetRecords_response_array.
    destruct (forallb wellTyped vs) eqn:Hall; [| reflexivity].
    rewrite forallb_forall in Hall. rewrite (Hall v Hin) in Hv. discriminate.
Qed.

(** *** Keys *)

Lemma foldName_ascii (k : string) :
  isASCII k = true -> json.foldName k = string_map strings.upperByte k.
Proof. intros Ha. unfold json.foldName. now rewrite Ha. Qed.

Lemma recordFields_key (k name : string) (f : json.field) :
  In (name, f) json.recordFields ->
  isASCII k = true ->
  string_map strings.upperByte k = string_map strings.upperByte name ->
  json.findField json.recordFields k = Some f.
Proof.
  intros Hin Ha Hk.
  assert (Hn : isASCII name = true).
  { cbn in Hin. repeat destruct Hin as [Hin | Hin]; try contradiction;
      inversion Hin; reflexivity. }
  assert (Hfold : json.foldName k = json.foldName name) by (now rewrite !foldName_ascii).
  unfold json.findField.
  destruct (find (fun x => String.eqb (fst x) k) json.recordFields) as [x |] eqn:Hx.
  - apply find_some in Hx as [Hin' Heq]. apply String.eqb_eq in Heq. subst k.
    cbn in Hin, Hin'.
    repeat destruct Hin as [Hin | Hin]; try contradiction;
      repeat destruct Hin' as [Hin' | Hin']; try contradiction;
      inversion Hin; subst; cbn in Hk; try discriminate; reflexivity.
  - rewrite Hfold. cbn in Hin.
    repeat destruct Hin as [Hin | Hin]; try contradiction; inversion Hin; subst;
      reflexivity.
Qed.

Lemma responseFields_key (k : string) :
  isASCII k = true ->
  string_map strings.upperByte k = "RECORDS" ->
  json.findField json.responseFields k = Some tt.
Proof.
  intros Ha Hk. unfold json.findField.
  destruct (find (fun x => String.eqb (fst x) k) json.responseFields) as [[name []] |];
    [reflexivity |].
  cbn [find json.responseFields fst]. rewrite (foldName_ascii k Ha), Hk. reflexivity.
Qed.

Lemma storeMember_skip (st : json.apiRecord * bool) (k : string) (x : json.value) :
  json.findField json.recordFields k = None \/ x = json.JNull ->
  json.storeMember st (k, x) = st.
Proof.
  destruct st as [r ok]. unfold json.storeMember. cbn [fst snd].
  intros [-> | ->]; [reflexivity |].
  destruct (json.findField json.recordFields k) as [[| | |] |]; cbn;
    rewrite ?andb_true_r; destruct r; reflexivity.
Qed.

Lemma storeRecord_skip (cur : json.apiRecord) (before after : list (string * json.value))
  (k : string) (x : json.value) :
  json.findField json.recordFields k = None \/ x = json.JNull ->
  json.storeRecord cur (json.JObject (before ++ (k, x) :: after))
  = json.storeRecord cur (json.JObject (before ++ after)).
Proof.
  intros Hskip. cbn [json.storeRecord]. rewrite !fold_left_app. cbn [fold_left].
  now rewrite storeMember_skip.
Qed.

Lemma storeMember_keeps (st : json.apiRecord * bool) (kv : string * json.value) :
  (json.findField json.recordFields (fst kv) <> Some json.FName ->
   json.Name (fst (json.storeMember st kv)) = json.Name (fst st))
  /\ (json.findField json.recordFields (fst kv) <> Some json.FType ->
      json.Type_ (fst (json.storeMember st kv)) = json.Type_ (fst st))
  /\ (json.findField json.recordFields (fst kv) <> Some json.FValue ->
      json.Value (fst (json.storeMember st kv)) = json.Value (fst st))
  /\ (json.findField json.recordFields (fst kv) <> Some json.FTTL ->
      json.TTL (fst (json.storeMember st kv)) = json.TTL (fst st)).
Proof.
  destruct st as [r ok]. unfold json.storeMember.
  destruct (json.findField json.recordFields (fst kv)) as [[| | |] |];
    repeat split; intros Hno; try congruence;
    try (destruct (json.storeString _ _)); try (destruct (json.storeInt _ _));
    reflexivity.
Qed.

Lemma storeMembers_keep (members : list (string * json.value)) (st : json.apiRecord * bool) :
  (noMemberFor json.FName members ->
   json.Name (fst (fold_left json.storeMember members st)) = json.Name (fst st))
  /\ (noMemberFor json.FType members ->
      json.Type_ (fst (fold_left json.storeMember members st)) = json.Type_ (fst st))
  /\ (noMemberFor json.FValue members ->
      json.Value (fst (fold_left json.storeMember members st)) = json.Value (fst st))
  /\ (noMemberFor json.FTTL members ->
      json.TTL (fst (fold_left json.storeMember members st)) = json.TTL (fst st)).
Proof.
  revert st. induction members as [| kv rest IH]; intros st; [repeat split |].
  cbn [fold_left].
  destruct (IH (json.storeMember st kv)) as (I1 & I2 & I3 & I4).
  destruct (storeMember_keeps st kv) as (K1 & K2 & K3 & K4).
  assert (Hsplit : forall f, noMemberFor f (kv :: rest) ->
                     json.findField json.recordFields (fst kv) <> Some f
                     /\ noMemberFor f rest).
  { intros f Hno. split; [apply Hno; now left |].
    intros kv' Hin. apply Hno. now right. }
  repeat split; intros Hno; apply Hsplit in Hno as [Hk Hrest].
  - now rewrite (I1 Hrest), (K1 Hk).
  - now rewrite (I2 Hrest), (K2 Hk).
  - now rewrite (I3 Hrest), (K3 Hk).
  - now rewrite (I4 Hrest), (K4 Hk).
Qed.

Lemma storeRecord_last (cur : json.apiRecord) (members : list (string * json.value))
  (k : string) :
  (forall s, json.findField json.recordFields k = Some json.FName ->
     json.Name (fst (json.storeRecord cur (json.JObject (members ++ [(k, json.JString s)]))))
     = s)
  /\ (forall s, json.findField json.recordFields k = Some json.FType ->
        json.Type_ (fst (json.storeRecord cur (json.JObject (members ++ [(k, json.JString s)]))))
        = s)
  /\ (forall s, json.findField json.recordFields k = Some json.FValue ->
        json.Value (fst (json.storeRecord cur (json.JObject (members ++ [(k, json.JString s)]))))
        = s)
  /\ (forall z, json.findField json.recordFields k = Some json.FTTL ->
        time.inInt64 z = true ->
        json.TTL (fst (json.storeRecord cur
                         (json.JObject (members ++ [(k, json.JNumber (json.NumInt z))]))))
        = z).
Proof.
  cbn [json.storeRecord]. repeat split; intros v Hk; try intros Hz;
    rewrite fold_left_app; cbn [fold_left];
    destruct (fold_left json.storeMember members (cur, true)) as [r ok];
    unfold json.storeMember; cbn [fst snd]; rewrite Hk; cbn; rewrite ?Hz; reflexivity.
Qed.

(** An element without a [type] member is listed as a generic record
    of empty type. *)
Lemma untyped_element_is_generic (members : list (string * json.value)) :
  noMemberFor json.FType members ->
  let a := decodeElement (json.JObject members) in
  convertAPIRecordToLibDNS a
  = Ok (Generic (mkRR (json.Name a) (time.mul64 (json.TTL a) time.Second) ""
                   (json.Value a))).
Proof.
  intros Hno a.
  destruct (storeMembers_keep members (json.zeroRecord, true)) as (_ & Ht & _).
  specialize (Ht Hno). cbn [fst json.zeroRecord json.Type_] in Ht.
  unfold convertAPIRecordToLibDNS. fold a.
  assert (E : json.Type_ a = "") by exact Ht.
  rewrite E. reflexivity.
Qed.

(** How the members of an element are read.  A key selects a field
    without regard to the case of ASCII letters; a member whose key
    selects no field, or whose value is [null], changes nothing; a
    field that no member selects keeps its zero value (the empty
    string, TTL 0), so that an element without a [type] member is
    listed as a generic record of empty type; and the last member that
    selects a field with a value of its type decides it.  The key
    [records] of the enclosing object is matched in the same way. *)
Theorem element_members_select_fields :
  (forall k name f,
      In (name, f) json.recordFields ->
      isASCII k = true ->
      string_map strings.upperByte k = string_map strings.upperByte name ->
      json.findField json.recordFields k = Some f)
  /\ (forall k,
        isASCII k = true ->
        string_map strings.upperByte k = "RECORDS" ->
        json.findField json.responseFields k = Some tt)
  /\ (forall cur before after k x,
        json.findField json.recordFields k = None \/ x = json.JNull ->
        json.storeRecord cur (json.JObject (before ++ (k, x) :: after))
        = json.storeRecord cur (json.JObject (before ++ after)))
  /\ (forall members,
        (noMemberFor json.FName members ->
         json.Name (decodeElement (json.JObject members)) = "")
        /\ (noMemberFor json.FType members ->
            json.Type_ (decodeElement (json.JObject members)) = "")
        /\ (noMemberFor json.FValue members ->
            json.Value (decodeElement (json.JObject members)) = "")
        /\ (noMemberFor json.FTTL members ->
            json.TTL (decodeElement (json.JObject members)) = 0))
  /\ (forall members k,
        (forall s, json.findField json.recordFields k = Some json.FName ->
           json.Name (decodeElement (json.JObject (members ++ [(k, json.JString s)]))) = s)
        /\ (forall s, json.findField json.recordFields k = Some json.FType ->
              json.Type_ (decodeElement (json.JObject (members ++ [(k, json.JString s)])))
              = s)
        /\ (forall s, json.findField json.recordFields k = Some json.FValue ->
              json.Value (decodeElement (json.JObject (members ++ [(k, json.JString s)])))
              = s)
        /\ (forall z, json.findField json.recordFields k = Some json.FTTL ->
              time.inInt64 z = true ->
              json.TTL (decodeElement
                          (json.JObject (members ++ [(k, json.JNumber (json.NumInt z))])))
              = z))
  /\ (forall members,
        noMemberFor json.FType members ->
        let a := decodeElement (json.JObject members) in
        convertAPIRecordToLibDNS a
        = Ok (Generic (mkRR (json.Name a) (time.mul64 (json.TTL a) time.Second) ""
                         (json.Value a)))).
Proof.
  split; [| split; [| split; [| split; [| split]]]].
  - apply recordFields_key.
  - apply responseFields_key.
  - apply storeRecord_skip.
  - intros members. apply (storeMembers_keep members (json.zeroRecord, true)).
  - intros members k. apply storeRecord_last.
  - apply untyped_element_is_generic.
Qed.

End Elements.

(** *** Listing, then writing *)

Section ReadThenWrite.
Context `{GoLibrary}.

Lemma convertAPIRecordToLibDNS_data (a : json.apiRecord) (r : Record_) :
  convertAPIRecordToLibDNS a = Ok r ->
  isAddressTag (json.Type_ a) = false ->
  strings.ToUpper (json.Type_ a) <> "MX" ->
  RR_Data (Record_RR r) = json.Value a.
Proof.
  unfold convertAPIRecordToLibDNS, isAddressTag. intros E Haddr Hmx.
  rewrite Haddr in E.
  destruct (String.eqb_spec (strings.ToUpper (json.Type_ a)) "MX") as [Em | _];
    [contradiction |].
  repeat match type of E with
         | context [if ?b then _ else _] => destruct b
         end; inversion E; reflexivity.
Qed.

Lemma flooredWire_listed (a : json.apiRecord) (r : Record_) :
  convertAPIRecordToLibDNS a = Ok r ->
  0 <= json.TTL a <= maxSeconds ->
  writtenAs 120 a (flooredWire r).
Proof.
  intros E Httl. destruct (convertAPIRecordToLibDNS_name_ttl a r E) as [Hn Ht].
  rewrite mul64_seconds in Ht by (unfold maxSeconds in *; lia).
  unfold writtenAs, flooredWire. cbn [w_name w_ttl w_data]. rewrite Hn, Ht.
  split; [reflexivity |]. split; [| now apply convertAPIRecordToLibDNS_data].
  unfold defaultMinTTL, time.Second, maxSeconds in *.
  destruct (Z.ltb_spec (json.TTL a * 1000000000) (120 * 1000000000)).
  - change (wireTTL (120 * 1000000000)) with 120. lia.
  - change 1000000000 with time.Second. rewrite wireTTL_whole_seconds.
    + lia.
    + change (2 ^ 53) with 9007199254740992. lia.
Qed.

Lemma plainWire_listed (a : json.apiRecord) (r : Record_) :
  convertAPIRecordToLibDNS a = Ok r ->
  0 <= json.TTL a <= maxSeconds ->
  writtenAs 0 a (plainWire r).
Proof.
  intros E Httl. destruct (convertAPIRecordToLibDNS_name_ttl a r E) as [Hn Ht].
  rewrite mul64_seconds in Ht by (unfold maxSeconds in *; lia).
  unfold writtenAs, plainWire. cbn [w_name w_ttl w_data]. rewrite Hn, Ht.
  split; [reflexivity |]. split; [| now apply convertAPIRecordToLibDNS_data].
  change 1000000000 with time.Second. rewrite wireTTL_whole_seconds.
  - lia.
  - unfold maxSeconds in *. change (2 ^ 53) with 9007199254740992. lia.
Qed.

Lemma Forall2_writtenAs (floor : Z) (wire : Record_ -> wireRecord)
  (apiRecords : list json.apiRecord) (rs : list Record_) :
  (forall a r, convertAPIRecordToLibDNS a = Ok r ->
               0 <= json.TTL a <= maxSeconds -> writtenAs floor a (wire r)) ->
  Forall2 (fun a r => convertAPIRecordToLibDNS a = Ok r) apiRecords rs ->
  Forall (fun a => 0 <= json.TTL a <= maxSeconds) apiRecords ->
  Forall2 (writtenAs floor) apiRecords (map wire rs).
Proof.
  intros Hw HF. induction HF as [| a r l l' Hr _ IH]; intros Httl; [constructor |].
  inversion Httl; subst. cbn [map]. constructor; [now apply Hw | now apply IH].
Qed.

(** Writing back what a listing returned.  When the records converted
    from elements with a [ttl] between 0 and 9223372036 are passed to
    [AppendRecords], [SetRecords] or [DeleteRecords], the body of the
    request holds, element by element, the name of the listed element,
    its [ttl] (raised to 120 by an append and by a set, as it is by a
    delete) and, for a type that is neither an address nor MX, its
    value. *)
Theorem listed_records_are_written_back (p : Provider) (zone : string) (w : World)
  (apiRecords : list json.apiRecord) (rs : list Record_) :
  Endpoint p <> "" ->
  url_Parse_ok (Endpoint p ++ zonePath zone) = true ->
  convertRecords apiRecords [] = Ok rs ->
  rs <> [] ->
  Forall (fun a => 0 <= json.TTL a <= maxSeconds) apiRecords ->
  (exists req body,
      sent (snd (AppendRecords p zone rs w)) = (sent w ++ [req])%list
      /\ ReqBody req = Some body
      /\ Forall2 (writtenAs 120) apiRecords (records body))
  /\ (exists req body,
        sent (snd (SetRecords p zone rs w)) = (sent w ++ [req])%list
        /\ ReqBody req = Some body
        /\ Forall2 (writtenAs 120) apiRecords (records body))
  /\ (exists req body,
        sent (snd (DeleteRecords p zone rs w)) = (sent w ++ [req])%list
        /\ ReqBody req = Some body
        /\ Forall2 (writtenAs 0) apiRecords (records body)).
Proof.
  intros Hend Hurl Hconv Hne Httl.
  apply convertRecords_Ok in Hconv as (converted & E & HF). cbn [List.app] in E.
  subst converted.
  rewrite (AppendRecords_dispatch _ _ _ _ Hne Hend Hurl),
    (SetRecords_dispatch _ _ _ _ Hne Hend Hurl),
    (DeleteRecords_dispatch _ _ _ _ Hne Hend Hurl).
  cbn [snd sent].
  split; [| split]; eexists; eexists; (split; [reflexivity |]);
    (split; [reflexivity |]); cbn [records].
  - exact (Forall2_writtenAs 120 flooredWire _ _ flooredWire_listed HF Httl).
  - exact (Forall2_writtenAs 120 flooredWire _ _ flooredWire_listed HF Httl).
  - exact (Forall2_writtenAs 0 plainWire _ _ plainWire_listed HF Httl).
Qed.

End ReadThenWrite.

(** *** TTLs in the body of a write *)

(** The exponent of the rounded value. *)
Lemma binary_round_aux_grid (m0 e : Z) (l : location) (den T : Z) :
  locates (shr_record_of_loc m0 l) den T ->
  0 < m0 ->
  53 <= Zdigits2 m0 ->
  -1074 <= e + (Zdigits2 m0 - 53) <= 970 ->
  exists (mf : positive) (ef : Z),
    binary_round_aux 53 1024 false m0 e l = S754_finite false mf ef
    /\ e + (Zdigits2 m0 - 53) <= ef <= e + (Zdigits2 m0 - 53) + 1.
Proof.
  intros Hl Hm0 HD He.
  set (n := Zdigits2 m0 - 53) in *.
  assert (Hn : 0 <= n) by lia.
  pose proof (Zdigits2_bounds m0 Hm0) as [Dlo Dhi].
  replace (Zdigits2 m0 - 1) with (52 + n) in Dlo by lia.
  replace (Zdigits2 m0) with (53 + n) in Dhi by lia.
  rewrite Z.pow_add_r in Dlo, Dhi by lia.
  assert (HP : 0 < 2 ^ n) by (apply Z.pow_pos_nonneg; lia).
  pose proof Hl as (Hden & _ & Hrn0 & _). rewrite shr_m_of_loc in Hrn0.
  unfold binary_round_aux, shr_fexp.
  rewrite fexp_normal by lia.
  replace (Zdigits2 m0 + e - 53 - e) with n by lia.
  destruct (locates_shr (shr_record_of_loc m0 l) e n den T Hn Hl) as [Hl' He'].
  destruct (shr (shr_record_of_loc m0 l) e n) as [mrs' e'] eqn:Hshr.
  cbn [fst snd] in Hl', He'. subst e'.
  destruct (round_nearest_even_locates mrs' (2 ^ n * den) T Hl') as [Hmr Hnear].
  set (mr := round_nearest_even (shr_m mrs') (loc_of_shr_record mrs')) in *.
  destruct Hl' as (_ & Hm' & Hrn' & _).
  assert (Hm'lo : 2 ^ 52 <= shr_m mrs') by nia.
  assert (Hm'hi : shr_m mrs' < 2 ^ 53) by nia.
  destruct (Z.eq_dec mr (2 ^ 53)) as [Etop | Ntop].
  - rewrite Etop in *.
    replace (Zdigits2 (2 ^ 53)) with 54 by reflexivity.
    rewrite fexp_normal by lia.
    replace (54 + (e + n) - 53 - (e + n)) with 1 by lia.
    cbn [shr_record_of_loc shr iter_pos].
    change (shr_1 {| shr_m := 2 ^ 53; shr_r := false; shr_s := false |})
      with {| shr_m := 2 ^ 52; shr_r := false; shr_s := false |}.
    cbn [shr_m]. change (2 ^ 52) with (Z.pos (2 ^ 52)).
    destruct (Z.leb_spec (e + n + 1) (1024 - 53)); [| lia].
    exists (2 ^ 52)%positive, (e + n + 1). split; [reflexivity | lia].
  - assert (Hmrlo : 2 ^ 52 <= mr < 2 ^ 53) by lia.
    assert (Hdig : Zdigits2 mr = 53) by (apply Zdigits2_unique; simpl; lia).
    rewrite Hdig, fexp_normal by lia.
    replace (53 + (e + n) - 53 - (e + n)) with 0 by lia.
    cbn [shr_record_of_loc shr shr_m].
    destruct mr as [| mf | mf] eqn:Emr; try lia.
    destruct (Z.leb_spec (e + n) (1024 - 53)); [| lia].
    exists mf, (e + n). split; [reflexivity | lia].
Qed.

Lemma binary_normalize_grid (M ez : Z) :
  2 ^ 52 <= M ->
  -1074 <= ez + (Zdigits2 M - 53) <= 970 ->
  exists (mf : positive) (ef : Z),
    binary_normalize 53 1024 M ez false = S754_finite false mf ef
    /\ ez + (Zdigits2 M - 53) <= ef <= ez + (Zdigits2 M - 53) + 1
    /\ - 2 ^ (Zdigits2 M - 53) <= 2 * (Z.pos mf * 2 ^ (ef - ez) - M)
       <= 2 ^ (Zdigits2 M - 53).
Proof.
  intros HM He.
  destruct (binary_normalize_nearest M ez HM He) as (mf & ef & E & _ & Hnear).
  exists mf, ef. split; [exact E |]. split; [| exact Hnear].
  pose proof (Zdigits2_ge_53 M HM) as HD.
  assert (HM0 : 0 < M) by (change (2 ^ 52) with 4503599627370496 in HM; lia).
  destruct M as [| pM | pM]; try lia.
  revert E. unfold binary_normalize, binary_round, shl_align.
  change (Z.pos (digits2_pos pM)) with (Zdigits2 (Z.pos pM)).
  rewrite fexp_normal by lia.
  assert (Hloc : locates (shr_record_of_loc (Z.pos pM) loc_Exact) 1 (Z.pos pM)).
  { unfold locates. cbn [shr_record_of_loc shr_m shr_r shr_s].
    repeat split; try lia; reflect_cmp; try reflexivity; lia. }
  destruct (binary_round_aux_grid (Z.pos pM) ez loc_Exact 1 (Z.pos pM) Hloc HM0 HD He)
    as (mf' & ef' & E' & Hef').
  destruct (Zdigits2 (Z.pos pM) + ez - 53 - ez) as [| d | d] eqn:Hd; try lia;
    cbn [fst snd]; rewrite E'; intros E; inversion E; subst; exact Hef'.
Qed.

(** Whole seconds, or one more. *)
Lemma wireTTL_within_one (d : Z) :
  0 <= d <= time.maxInt64 ->
  Z.quot d time.Second <= wireTTL d <= Z.quot d time.Second + 1.
Proof.
  intros [Hd Hmax].
  destruct (Z.lt_ge_cases (Z.quot d time.Second) (2 ^ 24)) as [Hsmall | Hbig].
  { rewrite (wireTTL_below_2_24 d Hd Hsmall). lia. }
  pose proof (Z.quot_rem' d time.Second) as Hqr.
  pose proof (Z.rem_bound_pos d time.Second Hd ltac:(reflexivity)) as Hrem.
  assert (Hsec : Z.quot d time.Second <= 9223372036).
  { unfold time.maxInt64, time.Second in *.
    change (2 ^ 63 - 1) with 9223372036854775807 in Hmax. lia. }
  destruct (Z.eq_dec (Z.rem d time.Second) 0) as [E0 | N0].
  - rewrite Hqr at 2 3. rewrite E0, Z.add_0_r, Z.mul_comm.
    rewrite wireTTL_whole_seconds; [lia |].
    change (2 ^ 24) with 16777216 in Hbig. change (2 ^ 53) with 9007199254740992. lia.
  - unfold wireTTL, time.Seconds.
    set (sec := Z.quot d time.Second) in *. set (nsec := Z.rem d time.Second) in *.
    destruct (fraction_bounds nsec) as (mq & eq & Eq & Heq & Hlo & Hhi);
      [unfold nanosPerSecond, time.Second in *; lia |].
    rewrite Eq. unfold nanosPerSecond in Hlo, Hhi.
    assert (Hpq : 0 < 2 ^ (- eq)) by (apply Z.pow_pos_nonneg; lia).
    change (2 ^ 53) with 9007199254740992 in Hlo, Hhi.
    change (2 ^ 24) with 16777216 in Hbig.
    destruct sec as [| ps | ps] eqn:Esec; try lia.
    destruct (float64_of_int_pos ps) as (mx & kx & Ex & Hkx & Hmx & Hmxb).
    { change (2 ^ 53) with 9007199254740992. lia. }
    rewrite <- Esec in *. clear Esec.
    rewrite Ex. cbn [SFadd cond_Zopp].
    set (ez := Z.min (- kx) eq).
    rewrite !shl_align_value by (unfold ez; lia).
    set (M := Z.pos mx * 2 ^ (- kx - ez) + Z.pos mq * 2 ^ (eq - ez)).
    assert (Hez : ez <= 0) by (unfold ez; lia).
    assert (Hpz : 0 < 2 ^ (- ez)) by (apply Z.pow_pos_nonneg; lia).
    assert (Hgx : 2 ^ kx * 2 ^ (- kx - ez) = 2 ^ (- ez)).
    { rewrite <- Z.pow_add_r by (unfold ez; lia). f_equal. lia. }
    assert (Hgq : 2 ^ (- eq) * 2 ^ (eq - ez) = 2 ^ (- ez)).
    { rewrite <- Z.pow_add_r by (unfold ez; lia). f_equal. lia. }
    assert (Hg1 : 0 < 2 ^ (- kx - ez)) by (apply Z.pow_pos_nonneg; unfold ez; lia).
    assert (Hg2 : 0 < 2 ^ (eq - ez)) by (apply Z.pow_pos_nonneg; unfold ez; lia).
    assert (HMx : Z.pos mx * 2 ^ (- kx - ez) = sec * 2 ^ (- ez)).
    { rewrite Hmx, <- Hgx. ring. }
    set (Y := Z.pos mq * 2 ^ (eq - ez)) in *.
    assert (HYlo : (9007199254740992 - 1000000000) * 2 ^ (- ez)
                   <= Y * 1000000000 * 9007199254740992).
    { unfold Y. rewrite <- Hgq. nia. }
    assert (HYhi : Y * 1000000000 * 9007199254740992
                   <= ((1000000000 - 1) * 9007199254740992 + 1000000000) * 2 ^ (- ez)).
    { unfold Y. rewrite <- Hgq. nia. }
    assert (HM : M = sec * 2 ^ (- ez) + Y) by (unfold M; rewrite HMx; reflexivity).
    assert (HM52 : 2 ^ 52 <= M).
    { unfold M. change (2 ^ 52) with 4503599627370496 in *. nia. }
    assert (HMlo : sec * 2 ^ (- ez) <= M) by (rewrite HM; nia).
    assert (HMhi : M < (sec + 1) * 2 ^ (- ez)) by (rewrite HM; nia).
    assert (HM34 : M < 2 ^ 34 * 2 ^ (- ez)).
    { change (2 ^ 34) with 17179869184. nia. }
    assert (HD : Zdigits2 M <= 34 - ez).
    { apply Zdigits2_le; [change (2 ^ 52) with 4503599627370496 in HM52; lia |].
      replace (34 - ez) with (34 + - ez) by lia. rewrite Z.pow_add_r by lia. exact HM34. }
    pose proof (Zdigits2_ge_53 M HM52) as HD53.
    destruct (binary_normalize_grid M ez HM52) as (mf & ef & E & Hef & Hnear).
    { unfold ez in *. lia. }
    rewrite E.
    set (n := Zdigits2 M - 53) in *.
    assert (Hef0 : ef < 0) by lia.
    set (G := 2 ^ (ef - ez)) in *. set (Q := 2 ^ (- ef)).
    assert (HG : 0 < G) by (apply Z.pow_pos_nonneg; lia).
    assert (HQ : 0 < Q) by (apply Z.pow_pos_nonneg; lia).
    assert (HGn : 2 ^ n <= G) by (apply Z.pow_le_mono_r; lia).
    assert (Hc0 : 0 < 2 ^ n) by (apply Z.pow_pos_nonneg; lia).
    assert (HPz : 2 ^ (- ez) = Q * G).
    { unfold Q, G. rewrite <- Z.pow_add_r by lia. f_equal. lia. }
    rewrite HPz in HMlo, HMhi.
    assert (Hlow : sec * Q <= Z.pos mf).
    { destruct (Z.le_gt_cases (sec * Q) (Z.pos mf)) as [Hle | Hgt]; [assumption |].
      assert (Z.pos mf * G <= (sec * Q - 1) * G) by (apply Z.mul_le_mono_nonneg_r; lia).
      lia. }
    assert (Hhigh : Z.pos mf <= (sec + 1) * Q).
    { destruct (Z.le_gt_cases (Z.pos mf) ((sec + 1) * Q)) as [Hle | Hgt]; [assumption |].
      assert (((sec + 1) * Q + 1) * G <= Z.pos mf * G)
        by (apply Z.mul_le_mono_nonneg_r; lia).
      lia. }
    unfold time.int_of_float64.
    destruct (Z.leb_spec 0 ef); [lia |]. fold Q.
    split.
    + apply Z.div_le_lower_bound; lia.
    + apply Z.div_le_upper_bound; [lia |]. lia.
Qed.

Section WrittenTTL.
Context `{GoLibrary}.

Lemma flooredWire_within_one (r : Record_) :
  time.inInt64 (RR_TTL (Record_RR r)) = true ->
  120 <= w_ttl (flooredWire r) /\ ttlWithinOne defaultMinTTL r (flooredWire r).
Proof.
  unfold time.inInt64, time.minInt64. intros Hr.
  apply andb_true_iff in Hr as [_ Hmax]. apply Z.leb_le in Hmax.
  unfold ttlWithinOne, flooredWire. cbn [w_ttl].
  destruct (Z.ltb_spec (RR_TTL (Record_RR r)) defaultMinTTL) as [Hlt | Hge].
  - rewrite Z.max_r by lia. change (wireTTL defaultMinTTL) with 120.
    change (Z.quot defaultMinTTL time.Second) with 120. lia.
  - rewrite Z.max_l by lia.
    assert (H0 : 0 <= RR_TTL (Record_RR r))
      by (unfold defaultMinTTL, time.Second in Hge; lia).
    pose proof (wireTTL_within_one (RR_TTL (Record_RR r)) (conj H0 Hmax)) as Hw.
    assert (Hq : 120 <= Z.quot (RR_TTL (Record_RR r)) time.Second).
    { apply Z.quot_le_lower_bound; [reflexivity |].
      unfold defaultMinTTL in Hge. lia. }
    lia.
Qed.

Lemma plainWire_within_one (r : Record_) :
  time.inInt64 (RR_TTL (Record_RR r)) = true ->
  0 <= RR_TTL (Record_RR r) ->
  ttlWithinOne 0 r (plainWire r).
Proof.
  unfold time.inInt64, time.minInt64. intros Hr H0.
  apply andb_true_iff in Hr as [_ Hmax]. apply Z.leb_le in Hmax.
  unfold ttlWithinOne, plainWire. cbn [w_ttl]. rewrite Z.max_l by lia.
  exact (wireTTL_within_one _ (conj H0 Hmax)).
Qed.

Lemma flooredWire_all (records : list Record_) :
  Forall (fun r => time.inInt64 (RR_TTL (Record_RR r)) = true) records ->
  Forall (fun sentRecord => 120 <= w_ttl sentRecord) (map flooredWire records)
  /\ Forall2 (ttlWithinOne defaultMinTTL) records (map flooredWire records).
Proof.
  induction 1 as [| r l Hr _ [IH1 IH2]]; cbn [map]; [split; constructor |].
  destruct (flooredWire_within_one r Hr) as [Hf Hw]. split; constructor; assumption.
Qed.

Lemma plainWire_all (records : list Record_) :
  Forall (fun r => time.inInt64 (RR_TTL (Record_RR r)) = true) records ->
  Forall (fun r => 0 <= RR_TTL (Record_RR r)) records ->
  Forall2 (ttlWithinOne 0) records (map plainWire records).
Proof.
  induction 1 as [| r l Hr _ IH]; intros Hpos; cbn [map]; [constructor |].
  inversion Hpos; subst. constructor; [now apply plainWire_within_one | now apply IH].
Qed.

(** The TTLs in the body of a write, for records whose TTL is an
    [int64].  Every element that [AppendRecords] or [SetRecords] sends
    has a [ttl] of at least 120: the whole seconds of the record's TTL
    raised to 120 s, or one more.  Every element that [DeleteRecords]
    sends for a record of non-negative TTL has the whole seconds of
    that TTL, or one more. *)
Theorem written_ttl_is_floored_and_within_one_second (p : Provider) (zone : string)
  (records : list Record_) (w : World) (req : Request) (body : requestBody) :
  Forall (fun r => time.inInt64 (RR_TTL (Record_RR r)) = true) records ->
  ReqBody req = Some body ->
  (sent (snd (AppendRecords p zone records w)) = (sent w ++ [req])%list
   \/ sent (snd (SetRecords p zone records w)) = (sent w ++ [req])%list ->
   Forall (fun sentRecord => 120 <= w_ttl sentRecord) (http.records body)
   /\ Forall2 (ttlWithinOne defaultMinTTL) records (http.records body))
  /\ (sent (snd (DeleteRecords p zone records w)) = (sent w ++ [req])%list ->
      Forall (fun r => 0 <= RR_TTL (Record_RR r)) records ->
      Forall2 (ttlWithinOne 0) records (http.records body)).
Proof.
  intros Hrange Hbody.
  destruct records as [| r0 rest].
  { split; [intros [Hs | Hs] | intros Hs]; now apply not_grown in Hs. }
  split.
  - intros Hs.
    assert (E : req = requestOf p (Method req) zone
                        (Some (mkBody (map flooredWire (r0 :: rest))))).
    { destruct Hs as [Hs | Hs].
      - rewrite AppendRecords_world in Hs. apply makeRequest_sent in Hs. now subst req.
      - rewrite SetRecords_world in Hs. apply makeRequest_sent in Hs. now subst req. }
    rewrite E in Hbody. cbn [ReqBody requestOf] in Hbody. inversion Hbody. cbn [http.records].
    exact (flooredWire_all (r0 :: rest) Hrange).
  - intros Hs Hpos.
    rewrite DeleteRecords_world in Hs. apply makeRequest_sent in Hs. subst req.
    cbn [ReqBody requestOf] in Hbody. inversion Hbody. cbn [http.records].
    exact (plainWire_all (r0 :: rest) Hrange Hpos).
Qed.

End WrittenTTL.

(** *** Tokens *)

Lemma between_within (lo hi : Z) (c : ascii) :
  128 <= lo -> hi <= 191 -> between 128 191 c = false -> between lo hi c = false.
Proof.
  unfold between. intros Hlo Hhi Hc.
  apply andb_false_iff in Hc. apply andb_false_iff.
  destruct Hc as [Hc | Hc]; [left | right].
  - apply Z.leb_gt in Hc. apply Z.leb_gt. lia.
  - apply Z.leb_gt in Hc. apply Z.leb_gt. lia.
Qed.

Lemma DecodeRuneInString_width (s : string) :
  (snd (utf8.DecodeRuneInString s) <= String.length s)%nat.
Proof.
  destruct s as [| c0 t]; [apply Nat.le_refl |].
  unfold utf8.DecodeRuneInString.
  repeat match goal with
         | |- context [if ?b then _ else _] => destruct b
         | |- context [match ?t with EmptyString => _ | String _ _ => _ end] =>
           destruct t
         end; cbn [snd String.length]; lia.
Qed.

Lemma DecodeRuneInString_prefix (u rest : string) :
  u <> "" ->
  startsWithContinuation rest = false ->
  utf8.DecodeRuneInString (u ++ rest) = utf8.DecodeRuneInString u.
Proof.
  intros Hu Hrest. destruct u as [| c0 u']; [contradiction |].
  cbn [append]. unfold utf8.DecodeRuneInString.
  destruct (byte c0 <? RuneSelf); [reflexivity |].
  destruct ((byte c0 <? 194) || (244 <? byte c0)); [reflexivity |].
  destruct (byte c0 <? 224).
  { destruct u' as [| c1 u'']; cbn [append]; [| reflexivity].
    destruct rest as [| cy y']; [reflexivity |].
    cbn [startsWithContinuation] in Hrest. now rewrite Hrest. }
  destruct (byte c0 <? 240).
  { set (lo := if byte c0 =? 224 then 160 else 128).
    set (hi := if byte c0 =? 237 then 159 else 191).
    assert (Hlo : 128 <= lo) by (unfold lo; destruct (byte c0 =? 224); lia).
    assert (Hhi : hi <= 191) by (unfold hi; destruct (byte c0 =? 237); lia).
    destruct u' as [| c1 [| c2 u'']]; cbn [append]; [| | reflexivity].
    - destruct rest as [| cy [| cy2 y']]; try reflexivity.
      cbn [startsWithContinuation] in Hrest.
      now rewrite (between_within lo hi cy Hlo Hhi Hrest).
    - destruct rest as [| cy y']; [reflexivity |].
      cbn [startsWithContinuation] in Hrest. now rewrite Hrest, andb_false_r. }
  set (lo := if byte c0 =? 240 then 144 else 128).
  set (hi := if byte c0 =? 244 then 143 else 191).
  assert (Hlo : 128 <= lo) by (unfold lo; destruct (byte c0 =? 240); lia).
  assert (Hhi : hi <= 191) by (unfold hi; destruct (byte c0 =? 244); lia).
  destruct u' as [| c1 [| c2 [| c3 u'']]]; cbn [append]; [| | | reflexivity].
  - destruct rest as [| cy [| cy2 [| cy3 y']]]; try reflexivity.
    cbn [startsWithContinuation] in Hrest.
    now rewrite (between_within lo hi cy Hlo Hhi Hrest).
  - destruct rest as [| cy [| cy2 y']]; try reflexivity.
    cbn [startsWithContinuation] in Hrest. now rewrite Hrest, andb_false_r.
  - destruct rest as [| cy y']; [reflexivity |].
    cbn [startsWithContinuation] in Hrest. now rewrite Hrest, andb_false_r.
Qed.

Lemma space_starts_rune (s : string) :
  unicode.IsSpace (fst (utf8.DecodeRuneInString s)) = true ->
  startsWithContinuation s = false.
Proof.
  destruct s as [| c0 t]; [reflexivity |].
  cbn [startsWithContinuation]. unfold utf8.DecodeRuneInString.
  destruct (between 128 191 c0) eqn:Hc; [| reflexivity].
  unfold between in Hc. apply andb_true_iff in Hc as [Hlo Hhi].
  apply Z.leb_le in Hlo, Hhi.
  destruct (Z.ltb_spec (byte c0) RuneSelf) as [Hlt | _]; [unfold RuneSelf in Hlt; lia |].
  destruct (Z.ltb_spec (byte c0) 194) as [_ | Hge]; [| lia].
  cbn [orb fst]. intros E. discriminate E.
Qed.

Lemma spaceFreeBefore_alone (f : string) (skip : nat) (rest : string) :
  startsWithContinuation rest = false ->
  (skip <= String.length f)%nat ->
  spaceFreeBefore f skip rest = spaceFree f skip.
Proof.
  intros Hrest. revert skip. induction f as [| c t IH]; intros skip Hskip; [reflexivity |].
  destruct skip as [| k].
  - unfold spaceFreeBefore; fold spaceFreeBefore. unfold spaceFree; fold spaceFree.
    rewrite (DecodeRuneInString_prefix (String c t) rest) by (discriminate || assumption).
    pose proof (DecodeRuneInString_width (String c t)) as Hw.
    destruct (utf8.DecodeRuneInString (String c t)) as [r w].
    cbn [snd String.length] in Hw. rewrite IH by lia. reflexivity.
  - cbn [spaceFreeBefore spaceFree]. apply IH. cbn [String.length] in Hskip. lia.
Qed.

(** The fields that the loop returns. *)
Lemma fieldsLoop_isField (s : string) (skip : nat) (cur : option string) :
  (skip <= String.length s)%nat ->
  match cur with
  | Some g =>
    g <> ""
    /\ forall x y, s = x ++ y -> (skip <= String.length x)%nat ->
                   spaceFreeBefore (g ++ x) 0 y = spaceFreeBefore x skip y
  | None => True
  end ->
  Forall isField (strings.fieldsLoop s skip cur).
Proof.
  revert skip cur. induction s as [| c t IH]; intros skip cur Hskip Hcur.
  - cbn [strings.fieldsLoop]. destruct cur as [g |]; [| constructor].
    destruct Hcur as [Hg HJ]. constructor; [| constructor]. split; [assumption |].
    cbn [String.length] in Hskip. assert (skip = 0%nat) by lia. subst skip.
    specialize (HJ "" "" eq_refl (Nat.le_refl _)). rewrite append_nil_r in HJ.
    rewrite <- (spaceFreeBefore_alone g 0 "" eq_refl (Nat.le_0_l _)). exact HJ.
  - cbn [String.length] in Hskip. destruct skip as [| k].
    + unfold strings.fieldsLoop; fold strings.fieldsLoop.
      pose proof (DecodeRuneInString_width (String c t)) as Hw.
      pose proof (space_starts_rune (String c t)) as Hstart.
      destruct (utf8.DecodeRuneInString (String c t)) as [r w] eqn:Hdec.
      cbn [fst snd String.length] in Hw, Hstart.
      destruct (unicode.IsSpace r) eqn:Hsp.
      * assert (Hrest : Forall isField (strings.fieldsLoop t (pred w) None))
          by (apply IH; [lia | exact I]).
        destruct cur as [g |]; [| exact Hrest].
        destruct Hcur as [Hg HJ]. constructor; [| exact Hrest].
        split; [assumption |].
        specialize (HJ "" (String c t) eq_refl (Nat.le_refl _)).
        rewrite append_nil_r in HJ.
        rewrite <- (spaceFreeBefore_alone g 0 (String c t) (Hstart eq_refl) (Nat.le_0_l _)).
        exact HJ.
      * assert (Hnext : forall g,
                   (forall x y, String c t = x ++ y -> (0 <= String.length x)%nat ->
                      spaceFreeBefore (g ++ x) 0 y = spaceFreeBefore x 0 y) ->
                   forall x y, t = x ++ y -> (pred w <= String.length x)%nat ->
                     spaceFreeBefore ((g ++ String c EmptyString) ++ x) 0 y
                     = spaceFreeBefore x (pred w) y).
        { intros g HJ x y Ht Hx. rewrite append_assoc. cbn [append].
          rewrite (HJ (String c x) y) by (cbn [append]; (now rewrite Ht) || apply Nat.le_0_l).
          unfold spaceFreeBefore at 1; fold spaceFreeBefore.
          cbn [append]. rewrite <- Ht, Hdec, Hsp. reflexivity. }
        destruct cur as [g |].
        -- destruct Hcur as [Hg HJ]. apply IH; [lia |]. split.
           ++ destruct g; discriminate.
           ++ apply Hnext. exact HJ.
        -- apply IH; [lia |]. split; [discriminate |].
           intros x y Ht Hx. cbn [append].
           unfold spaceFreeBefore at 1; fold spaceFreeBefore.
           cbn [append]. rewrite <- Ht, Hdec, Hsp. reflexivity.
    + cbn [strings.fieldsLoop]. destruct cur as [g |].
      * destruct Hcur as [Hg HJ]. apply IH; [lia |]. split.
        -- destruct g; discriminate.
        -- intros x y Ht Hx. rewrite append_assoc. cbn [append].
           rewrite (HJ (String c x) y).
           ++ reflexivity.
           ++ cbn [append]. now rewrite Ht.
           ++ cbn [String.length]. lia.
      * apply IH; [lia | exact I].
Qed.

Lemma Fields_isField (s : string) : Forall isField (strings.Fields s).
Proof. apply fieldsLoop_isField; [apply Nat.le_0_l | exact I]. Qed.

(** A field followed by a space. *)
Lemma fieldsLoop_field_space (f : string) (skip : nat) (g rest : string) :
  spaceFree f skip = true ->
  (skip <= String.length f)%nat ->
  strings.fieldsLoop (f ++ " " ++ rest) skip (Some g)
  = (g ++ f) :: strings.fieldsLoop rest 0 None.
Proof.
  revert skip g. induction f as [| c t IH]; intros skip g Hfree Hskip.
  - cbn [String.length] in Hskip. assert (skip = 0%nat) by lia. subst skip.
    rewrite append_nil_r. reflexivity.
  - destruct skip as [| k].
    + cbn [append]. unfold strings.fieldsLoop; fold strings.fieldsLoop.
      change (String c (t ++ String " " rest)) with (String c t ++ String " " rest).
      rewrite (DecodeRuneInString_prefix (String c t) (String " " rest))
        by (discriminate || reflexivity).
      unfold spaceFree in Hfree; fold spaceFree in Hfree.
      pose proof (DecodeRuneInString_width (String c t)) as Hw.
      destruct (utf8.DecodeRuneInString (String c t)) as [r w].
      cbn [snd String.length] in Hw.
      apply andb_true_iff in Hfree as [Hr Ht]. apply negb_true_iff in Hr. rewrite Hr.
      change (t ++ String " " rest) with (t ++ " " ++ rest).
      rewrite (IH _ _ Ht) by lia. now rewrite append_assoc.
    + cbn [append strings.fieldsLoop]. cbn [spaceFree] in Hfree.
      cbn [String.length] in Hskip.
      change (t ++ String " " rest) with (t ++ " " ++ rest).
      rewrite (IH _ _ Hfree) by lia. now rewrite append_assoc.
Qed.

Lemma Fields_field_space (f rest : string) :
  isField f -> strings.Fields (f ++ " " ++ rest) = f :: strings.Fields rest.
Proof.
  intros [Hne Hfree]. destruct f as [| c t]; [contradiction |].
  unfold strings.Fields. cbn [append].
  unfold strings.fieldsLoop; fold strings.fieldsLoop.
  change (String c (t ++ String " " rest)) with (String c t ++ String " " rest).
  rewrite (DecodeRuneInString_prefix (String c t) (String " " rest))
    by (discriminate || reflexivity).
  unfold spaceFree in Hfree; fold spaceFree in Hfree.
  pose proof (DecodeRuneInString_width (String c t)) as Hw.
  destruct (utf8.DecodeRuneInString (String c t)) as [r w].
  cbn [snd String.length] in Hw.
  apply andb_true_iff in Hfree as [Hr Ht]. apply negb_true_iff in Hr. rewrite Hr.
  change (t ++ String " " rest) with (t ++ " " ++ rest).
  rewrite (fieldsLoop_field_space _ _ _ _ Ht) by lia. reflexivity.
Qed.

(** Fields joined by single spaces split into the same fields. *)
Lemma Fields_Join (fields : list string) :
  Forall isField fields -> strings.Fields (strings.Join fields " ") = fields.
Proof.
  induction 1 as [| f rest Hf Hrest IH]; [reflexivity |].
  destruct rest as [| f' rest'].
  - cbn [strings.Join]. destruct Hf as [Hne Hfree]. now apply Fields_spaceFree.
  - change (strings.Join (f :: f' :: rest') " ")
      with (f ++ " " ++ strings.Join (f' :: rest') " ").
    rewrite (Fields_field_space _ _ Hf), IH. reflexivity.
Qed.

(** *** Re-typing twice *)

Section Idempotence.
Context `{GoLibrary}.

Lemma mxParts_cases (value : string) :
  hasPreference value \/ mxParts value = (10, value).
Proof.
  destruct (strings.Fields value) as [| first [| second rest]] eqn:HF.
  - right. apply mxParts_default. left. rewrite HF. simpl. lia.
  - right. apply mxParts_default. left. rewrite HF. simpl. lia.
  - destruct (parseUint16 first) as [n |] eqn:Hn.
    + left. exists first, (second :: rest), n.
      repeat split; [assumption | discriminate | assumption].
    + right. apply mxParts_default. right. rewrite HF. exact Hn.
Qed.

Lemma mxParts_settled (value : string) :
  hasPreference value \/ readsBack value ->
  0 <= fst (mxParts value) < 65536 /\ readsBack (snd (mxParts value)).
Proof.
  intros Hc.
  assert (Hpref : hasPreference value ->
                  0 <= fst (mxParts value) < 65536 /\ readsBack (snd (mxParts value))).
  { intros (first & rest & n & HF & Hrest & Hp).
    rewrite (mxParts_with_preference value first rest n HF Hrest Hp). cbn [fst snd].
    split; [exact (parseUint16_range first n Hp) |].
    pose proof (Fields_isField value) as Hfields. rewrite HF in Hfields.
    apply Forall_inv_tail in Hfields.
    unfold readsBack. rewrite (Fields_Join rest Hfields). split; [assumption | reflexivity]. }
  destruct (mxParts_cases value) as [Hp | Hdef]; [now apply Hpref |].
  destruct Hc as [Hp | Hback]; [now apply Hpref |].
  rewrite Hdef. cbn [fst snd]. split; [lia | assumption].
Qed.

Lemma convertToSpecificType_settles (r : Record_) :
  settlesOnRetype r ->
  convertToSpecificType (convertToSpecificType r) = convertToSpecificType r.
Proof.
  intros [Haddr Hmx]. unfold isAddressTag in Haddr.
  remember (convertToSpecificType r) as r' eqn:Er'.
  unfold convertToSpecificType in Er'.
  destruct (String.eqb (strings.ToUpper (RR_Type (Record_RR r))) "A"
            || String.eqb (strings.ToUpper (RR_Type (Record_RR r))) "AAAA") eqn:Ea.
  - destruct (netip_ParseAddr (RR_Data (Record_RR r))) as [ip |] eqn:Eip; subst r'.
    + specialize (Haddr eq_refl ip eq_refl).
      unfold convertToSpecificType. cbn [Record_RR RR_Type RR_Data RR_Name RR_TTL].
      rewrite (@netip_ParseAddr_IsValid _ _ _ Eip).
      destruct (Addr_Is6 ip); cbn; rewrite Haddr; reflexivity.
    + unfold convertToSpecificType. cbn [Record_RR]. rewrite Ea, Eip. reflexivity.
  - destruct (String.eqb (strings.ToUpper (RR_Type (Record_RR r))) "TXT") eqn:Et;
      [subst r'; reflexivity |].
    destruct (String.eqb (strings.ToUpper (RR_Type (Record_RR r))) "CNAME") eqn:Ec;
      [subst r'; reflexivity |].
    destruct (String.eqb_spec (strings.ToUpper (RR_Type (Record_RR r))) "MX") as [Em | Nm].
    + destruct (mxParts_settled _ (Hmx Em)) as [Hrange Hback].
      destruct (mxParts (RR_Data (Record_RR r))) as [preference target].
      cbn [fst snd] in Hrange, Hback. subst r'.
      now apply retype_MX_iff.
    + destruct (String.eqb (strings.ToUpper (RR_Type (Record_RR r))) "NS") eqn:En;
        [subst r'; reflexivity |].
      subst r'. unfold convertToSpecificType. cbn [Record_RR]. rewrite Ea, Et, Ec, En.
      destruct (String.eqb_spec (strings.ToUpper (RR_Type (Record_RR r))) "MX");
        [contradiction | reflexivity].
Qed.

Lemma convertToSpecificType_mx_settles (r : Record_) :
  strings.ToUpper (RR_Type (Record_RR r)) = "MX" ->
  convertToSpecificType (convertToSpecificType r) = convertToSpecificType r ->
  hasPreference (RR_Data (Record_RR r)) \/ readsBack (RR_Data (Record_RR r)).
Proof.
  intros Em Hfix. rewrite (retype_mx r Em) in Hfix.
  set (value := RR_Data (Record_RR r)) in *.
  destruct (mxParts_cases value) as [Hp | Hdef]; [left; exact Hp | right].
  rewrite Hdef in Hfix. cbn [fst snd] in Hfix.
  apply (retype_MX_iff (RR_Name (Record_RR r)) (RR_TTL (Record_RR r)) 10 value); [lia |].
  exact Hfix.
Qed.

(** Re-typing twice is re-typing once on records that settle (the text
    of a parsed address parses back to it; the data of an MX record
    starts with a preference or is a target the MX case reads back).
    For an MX record the condition is also necessary.  A record that
    decode returns is left as it is by re-typing when its generic form
    settles. *)
Theorem retype_is_idempotent :
  (forall records : list Record_,
      Forall settlesOnRetype records ->
      convertToSpecificTypes (convertToSpecificTypes records)
      = convertToSpecificTypes records)
  /\ (forall r : Record_,
        strings.ToUpper (RR_Type (Record_RR r)) = "MX" ->
        convertToSpecificTypes (convertToSpecificTypes [r]) = convertToSpecificTypes [r] ->
        hasPreference (RR_Data (Record_RR r)) \/ readsBack (RR_Data (Record_RR r)))
  /\ (forall (a : json.apiRecord) (r : Record_),
        convertAPIRecordToLibDNS a = Ok r ->
        settlesOnRetype
          (Generic (mkRR (json.Name a) (time.mul64 (json.TTL a) time.Second)
                      (json.Type_ a) (json.Value a))) ->
        convertToSpecificTypes [r] = [r]).
Proof.
  split; [| split].
  - intros records Hall. rewrite !convertToSpecificTypes_map, map_map.
    induction Hall as [| r rest Hr _ IH]; [reflexivity |].
    cbn [map]. now rewrite (convertToSpecificType_settles r Hr), IH.
  - intros r Em Hfix. rewrite !convertToSpecificTypes_map in Hfix. cbn [map] in Hfix.
    injection Hfix as Hfix. now apply convertToSpecificType_mx_settles.
  - intros a r Ha Hs. rewrite convertToSpecificTypes_map. cbn [map]. f_equal.
    rewrite <- (retype_follows_decode a r Ha).
    now apply convertToSpecificType_settles.
Qed.

End Idempotence.

Section Tokens.
Context `{GoLibrary}.

(** The tokens of a value are not empty and hold no white space;
    joined by single spaces they split into the same tokens, so the
    target that the MX case builds from the tokens after a preference
    is read back as it is. *)
Theorem tokens_join_and_split_back (value : string) :
  Forall isField (strings.Fields value)
  /\ strings.Fields (strings.Join (strings.Fields value) " ") = strings.Fields value
  /\ (forall first rest n,
        strings.Fields value = first :: rest ->
        rest <> [] ->
        parseUint16 first = Some n ->
        mxParts (fmt.Sprintf_d_s (fst (mxParts value)) (snd (mxParts value)))
        = mxParts value).
Proof.
  split; [apply Fields_isField |]. split; [apply Fields_Join, Fields_isField |].
  intros first rest n HF Hrest Hp.
  rewrite (mxParts_with_preference value first rest n HF Hrest Hp). cbn [fst snd].
  rewrite (mxParts_Sprintf n _ (parseUint16_range first n Hp)).
  pose proof (Fields_isField value) as Hfields. rewrite HF in Hfields.
  apply Forall_inv_tail in Hfields. rewrite (Fields_Join rest Hfields).
  destruct rest; [contradiction | reflexivity].
Qed.

End Tokens.

(** *** The preference of an MX value, by the text of its first token *)

Lemma leading_digits (tok : string) :
  exists digits rest,
    tok = digits ++ rest
    /\ string_forallb strconv.isDigit digits = true
    /\ startsWithDigit rest = false.
Proof.
  induction tok as [| c t (digits & rest & E & Hd & Hrest)].
  - exists "", "". repeat split.
  - destruct (strconv.isDigit c) eqn:Hc.
    + exists (String c digits), rest. simpl. rewrite Hc, Hd, <- E. repeat split.
      exact Hrest.
    + exists "", (String c t). simpl. repeat split. exact Hc.
Qed.

Lemma startsWithDigit_scanNumber (rest : string) :
  startsWithDigit rest = false -> fmt.scanNumber rest = "".
Proof. destruct rest as [| c t]; simpl; [reflexivity | now intros ->]. Qed.

Lemma ParseUint10_digits (s : string) (n : Z) :
  strconv.ParseUint10 s = Some n ->
  s <> "" /\ string_forallb strconv.isDigit s = true.
Proof.
  unfold strconv.ParseUint10. destruct s as [| c t]; [discriminate |].
  destruct (string_forallb strconv.isDigit (String c t)); [| discriminate].
  intros _. split; [discriminate | reflexivity].
Qed.

Lemma parseUint16_of_digits (digits rest : string) :
  digits <> "" ->
  string_forallb strconv.isDigit digits = true ->
  startsWithDigit rest = false ->
  parseUint16 (digits ++ rest)
  = match strconv.ParseUint10 digits with
    | Some i => if i <? 2 ^ 16 then Some i else None
    | None => None
    end.
Proof.
  intros Hne Hd Hrest. unfold parseUint16, fmt.Sscanf_d_uint16.
  destruct digits as [| c t] eqn:E; [contradiction |].
  pose proof Hd as Hd'. simpl in Hd'. apply andb_true_iff in Hd' as [Hc _].
  change (String c t ++ rest) with (String c (t ++ rest)).
  rewrite (SkipSpace_digit c (t ++ rest) Hc).
  change (String c (t ++ rest)) with (String c t ++ rest).
  rewrite (scanNumber_digits_app _ _ Hd (startsWithDigit_scanNumber rest Hrest)).
  reflexivity.
Qed.

Lemma parseUint16_startsWithUint16 (tok : string) (n : Z) :
  startsWithUint16 tok n -> parseUint16 tok = Some n.
Proof.
  intros (digits & rest & -> & Hrest & Hv & Hn).
  destruct (ParseUint10_digits digits n Hv) as [Hne Hd].
  rewrite (parseUint16_of_digits digits rest Hne Hd Hrest), Hv.
  destruct (Z.ltb_spec n (2 ^ 16)); [reflexivity | lia].
Qed.

(** A field starts with no white space, so the scan starts at its
    first byte. *)
Lemma SkipSpace_isField (tok : string) : isField tok -> fmt.SkipSpace tok 0 = Some tok.
Proof.
  intros [Hne Hfree]. destruct tok as [| c t]; [contradiction |].
  unfold spaceFree in Hfree; fold spaceFree in Hfree.
  unfold fmt.SkipSpace; fold fmt.SkipSpace.
  destruct (utf8.DecodeRuneInString (String c t)) as [r w].
  apply andb_true_iff in Hfree as [Hr _]. apply negb_true_iff in Hr.
  destruct (Z.eqb_spec r 10) as [-> | _]; [discriminate Hr |].
  rewrite Hr. reflexivity.
Qed.

Lemma parseUint16_startsWithNoUint16 (tok : string) :
  isField tok -> startsWithNoUint16 tok -> parseUint16 tok = None.
Proof.
  intros Hfield [Hnone | (digits & rest & -> & Hne & Hd & Hrest & Hlarge)].
  - unfold parseUint16, fmt.Sscanf_d_uint16.
    rewrite (SkipSpace_isField tok Hfield), (startsWithDigit_scanNumber tok Hnone).
    reflexivity.
  - rewrite (parseUint16_of_digits digits rest Hne Hd Hrest).
    destruct (strconv.ParseUint10 digits) as [i |]; [| reflexivity].
    specialize (Hlarge i eq_refl).
    destruct (Z.ltb_spec i (2 ^ 16)); [| reflexivity].
    change (2 ^ 16) with 65536 in *. lia.
Qed.

Section FirstToken.
Context `{GoLibrary}.

(** C1, as the code has it.  A record whose type tag upper-cases to
    ["MX"], in decode and in re-typing alike.  The first token of the
    value need not be an integer as a whole: it is enough that it
    starts with the decimal numeral of a value below 65536, and what
    follows the numeral in the token is dropped.
    - With at least two white-space separated tokens, of which the
      first starts with such a numeral, the result is an MX record
      with that value as preference and the remaining tokens joined by
      single spaces as target.
    - With at least two tokens, of which the first does not start with
      a digit or starts with the numeral of a value of 65536 or more,
      and with fewer than two tokens, the result is an MX record with
      preference 10 and the whole value as target.
    A token that is a 16-bit integer as a whole starts with its own
    numeral, and every token falls under one of the two cases. *)
Theorem mx_value_parsing (a : json.apiRecord) (r : Record_) (value : string) :
  strings.ToUpper (json.Type_ a) = "MX" ->
  json.Value a = value ->
  strings.ToUpper (RR_Type (Record_RR r)) = "MX" ->
  RR_Data (Record_RR r) = value ->
  (forall (first : string) (rest : list string) (n : Z),
      strings.Fields value = first :: rest ->
      rest <> [] ->
      startsWithUint16 first n ->
      0 <= n < 65536
      /\ convertAPIRecordToLibDNS a
         = Ok (MX (json.Name a) (time.mul64 (json.TTL a) time.Second) n
                 (strings.Join rest " "))
      /\ convertToSpecificTypes [r]
         = [MX (RR_Name (Record_RR r)) (RR_TTL (Record_RR r)) n (strings.Join rest " ")])
  /\ (forall (first : string) (rest : list string),
        strings.Fields value = first :: rest ->
        rest <> [] ->
        startsWithNoUint16 first ->
        convertAPIRecordToLibDNS a
        = Ok (MX (json.Name a) (time.mul64 (json.TTL a) time.Second) 10 value)
        /\ convertToSpecificTypes [r]
           = [MX (RR_Name (Record_RR r)) (RR_TTL (Record_RR r)) 10 value])
  /\ ((List.length (strings.Fields value) < 2)%nat ->
      convertAPIRecordToLibDNS a
      = Ok (MX (json.Name a) (time.mul64 (json.TTL a) time.Second) 10 value)
      /\ convertToSpecificTypes [r]
         = [MX (RR_Name (Record_RR r)) (RR_TTL (Record_RR r)) 10 value])
  /\ (forall (tok : string) (n : Z), parsesAsUint16 tok n -> startsWithUint16 tok n)
  /\ (forall tok : string, (exists n, startsWithUint16 tok n) \/ startsWithNoUint16 tok).
Proof.
  intros Hta Hva Htr Hvr.
  rewrite (convert_mx a Hta), convertToSpecificTypes_map. simpl map.
  rewrite (retype_mx r Htr), Hva, Hvr.
  split; [| split; [| split; [| split]]].
  - intros first rest n HF Hrest Hp.
    pose proof (parseUint16_startsWithUint16 first n Hp) as Hscan.
    rewrite (mxParts_with_preference value first rest n HF Hrest Hscan). simpl.
    split; [exact (parseUint16_range first n Hscan) | split; reflexivity].
  - intros first rest HF Hrest Hnone.
    pose proof (Fields_isField value) as Hfields. rewrite HF in Hfields.
    apply Forall_inv in Hfields.
    assert (Hdefault : mxParts value = (10, value)).
    { apply mxParts_default. right. rewrite HF.
      exact (parseUint16_startsWithNoUint16 first Hfields Hnone). }
    rewrite Hdefault. simpl. split; reflexivity.
  - intros Hlen. rewrite (mxParts_default value (or_introl Hlen)). simpl.
    split; reflexivity.
  - intros tok n [Hv Hn]. exists tok, "". rewrite append_nil_r. repeat split; assumption.
  - intros tok. destruct (leading_digits tok) as (digits & rest & E & Hd & Hrest).
    destruct digits as [| c t] eqn:Edigits.
    + right. left. simpl in E. now subst tok.
    + assert (Hne : String c t <> "") by discriminate.
      rewrite <- Edigits in *. clear Edigits.
      destruct (strconv.ParseUint10 digits) as [i |] eqn:Hv.
      * destruct (Z.lt_ge_cases i 65536) as [Hlt | Hge].
        -- left. exists i, digits, rest. repeat split; assumption.
        -- right. right. exists digits, rest.
           repeat split; try assumption.
           intros n En. assert (n = i) by congruence. lia.
      * right. right. exists digits, rest.
        repeat split; try assumption.
        intros n En. congruence.
Qed.

End FirstToken.

(** *** Bodies *)

Section Bodies.
Context `{GoLibrary}.

Lemma convertAPIRecordToLibDNS_total (a : json.apiRecord) :
  (isAddressTag (json.Type_ a) = true -> netip_ParseAddr (json.Value a) <> None) <->
  exists r, convertAPIRecordToLibDNS a = Ok r.
Proof.
  split.
  - intros Hip. destruct (convertAPIRecordToLibDNS a) as [r | e] eqn:E; [now exists r |].
    apply convertAPIRecordToLibDNS_Err in E as (Htag & Hnone & _).
    now destruct (Hip Htag).
  - intros [r E] Htag Hnone.
    rewrite (convertAPIRecordToLibDNS_invalid a Htag Hnone) in E. discriminate.
Qed.

Lemma Forall_convertible (vs : list json.value) :
  Forall convertible vs <-> exists rs, Forall2 listedAs vs rs.
Proof.
  split.
  - induction 1 as [| v vs [Hw Hip] _ [rs IH]]; [exists []; constructor |].
    apply convertAPIRecordToLibDNS_total in Hip as [r Hr].
    exists (r :: rs). constructor; [split; assumption | assumption].
  - intros [rs HF]. induction HF as [| v r vs rs [Hw Hr] _ IH]; constructor; [| assumption].
    split; [assumption |]. apply convertAPIRecordToLibDNS_total. now exists r.
Qed.

(** A listing of status 200 whose body is an array of elements, bare
    or under [records], succeeds exactly when every element can be
    converted: it is well typed and, when its type is an address tag,
    its value parses as an address. *)
Theorem listing_succeeds_iff_elements_convert (p : Provider) (zone : string) (w : World)
  (status : string) (vs : list json.value) (body : json.value) :
  Endpoint p <> "" ->
  url_Parse_ok (Endpoint p ++ zonePath zone) = true ->
  remote w (sent w) (requestOf p "GET" zone None)
  = Ok (mkResponse 200 status (Ok (Some body))) ->
  body = json.JArray vs \/ body = json.JObject [("records", json.JArray vs)] ->
  (exists rs, fst (GetRecords p zone w) = Ok rs) <-> Forall convertible vs.
Proof.
  intros Hend Hurl Hresp Hbody.
  rewrite (GetRecords_dispatch _ _ _ Hend Hurl), Hresp. cbn [fst].
  assert (E : GetRecords_response (mkResponse 200 status (Ok (Some body)))
              = GetRecords_response (mkResponse 200 status (Ok (Some (json.JArray vs))))).
  { destruct Hbody as [-> | ->]; [reflexivity | apply GetRecords_response_shapes]. }
  rewrite E, Forall_convertible.
  split; intros [rs Hrs]; exists rs;
    apply (GetRecords_response_array_Ok status vs rs); exact Hrs.
Qed.

(** Bodies of status 200 without elements.  [null], an empty array,
    and an object whose [records] is [null] or an empty array give an
    empty list and no error; a body that is no JSON text gives "JSON
    decoding error" with the syntax error; a body that is a boolean, a
    number or a string gives "JSON decoding error" with the type
    error. *)
Theorem listing_of_empty_and_malformed_bodies (p : Provider) (zone : string) (w : World)
  (status : string) (body : json.document) :
  Endpoint p <> "" ->
  url_Parse_ok (Endpoint p ++ zonePath zone) = true ->
  remote w (sent w) (requestOf p "GET" zone None)
  = Ok (mkResponse 200 status (Ok body)) ->
  (body = Some json.JNull
   \/ body = Some (json.JArray [])
   \/ body = Some (json.JObject [("records", json.JNull)])
   \/ body = Some (json.JObject [("records", json.JArray [])]) ->
   fst (GetRecords p zone w) = Ok [])
  /\ (body = None ->
      fst (GetRecords p zone w) = Err (wrapError "JSON decoding error" json.syntaxError))
  /\ ((exists b, body = Some (json.JBool b))
      \/ (exists n, body = Some (json.JNumber n))
      \/ (exists s, body = Some (json.JString s)) ->
      fst (GetRecords p zone w) = Err (wrapError "JSON decoding error" json.typeError)).
Proof.
  intros Hend Hurl Hresp.
  rewrite (GetRecords_dispatch _ _ _ Hend Hurl), Hresp. cbn [fst].
  split; [| split].
  - intros [-> | [-> | [-> | ->]]]; reflexivity.
  - intros ->. reflexivity.
  - intros [[b ->] | [[n ->] | [s ->]]]; reflexivity.
Qed.

End Bodies.

(** *** The test driver *)

Section Driver.
Context `{GoLibrary}.
Variable zeroAddr : Addr.

Lemma GetRecords_sent (p : Provider) (zone : string) (w : World) :
  Endpoint p <> "" ->
  url_Parse_ok (Endpoint p ++ zonePath zone) = true ->
  snd (GetRecords p zone w) = mkWorld (sent w ++ [requestOf p "GET" zone None]) (remote w).
Proof. intros Hend Hurl. now rewrite (GetRecords_dispatch _ _ _ Hend Hurl). Qed.

Lemma AppendRecords_sent (p : Provider) (zone : string) (records : list Record_)
  (w : World) :
  records <> [] ->
  Endpoint p <> "" ->
  url_Parse_ok (Endpoint p ++ zonePath zone) = true ->
  snd (AppendRecords p zone records w)
  = mkWorld (sent w ++ [requestOf p "POST" zone (Some (mkBody (map flooredWire records)))])
      (remote w).
Proof. intros Hne Hend Hurl. now rewrite (AppendRecords_dispatch _ _ _ _ Hne Hend Hurl). Qed.

Lemma SetRecords_sent (p : Provider) (zone : string) (records : list Record_)
  (w : World) :
  records <> [] ->
  Endpoint p <> "" ->
  url_Parse_ok (Endpoint p ++ zonePath zone) = true ->
  snd (SetRecords p zone records w)
  = mkWorld (sent w ++ [requestOf p "PUT" zone (Some (mkBody (map flooredWire records)))])
      (remote w).
Proof. intros Hne Hend Hurl. now rewrite (SetRecords_dispatch _ _ _ _ Hne Hend Hurl). Qed.

Lemma DeleteRecords_sent (p : Provider) (zone : string) (records : list Record_)
  (w : World) :
  records <> [] ->
  Endpoint p <> "" ->
  url_Parse_ok (Endpoint p ++ zonePath zone) = true ->
  snd (DeleteRecords p zone records w)
  = mkWorld (sent w ++ [requestOf p "DELETE" zone (Some (mkBody (map plainWire records)))])
      (remote w).
Proof. intros Hne Hend Hurl. now rewrite (DeleteRecords_dispatch _ _ _ _ Hne Hend Hurl). Qed.

(** When [API_TOKEN] or [ENDPOINT] is empty the driver stops in
    [log.Fatal] with exit status 1, before it writes anything else and
    before it dispatches a request. *)
Theorem driver_requires_environment (getenv : string -> string) (w : World) :
  getenv "API_TOKEN" = "" \/ getenv "ENDPOINT" = "" ->
  exists message,
    test_provider.main zeroAddr getenv w
    = (test_provider.Exited 1, [test_provider.log_Fatal message], w).
Proof.
  intros Hc. unfold test_provider.main.
  destruct (String.eqb_spec (getenv "API_TOKEN") "") as [Et | Nt].
  - eexists. reflexivity.
  - destruct Hc as [Hc | Hc]; [contradiction |]. rewrite Hc. eexists. reflexivity.
Qed.

(** With both variables set the driver attempts its five operations
    whatever the earlier ones returned (a failure is logged, no more),
    and returns: it writes its banner first and its closing line last;
    when the HTTP library accepts the URL of the zone [example.com] it
    dispatches exactly the five requests [driverRequests], a GET, a
    POST, a PUT, a DELETE and a POST; when the URL is rejected it
    dispatches nothing. *)
Theorem driver_attempts_every_operation (getenv : string -> string) (w : World) :
  getenv "API_TOKEN" <> "" ->
  getenv "ENDPOINT" <> "" ->
  let p := mkProvider (getenv "API_TOKEN") (getenv "ENDPOINT") in
  let '(ended, out, w') := test_provider.main zeroAddr getenv w in
  ended = test_provider.Returned
  /\ hd_error out
     = Some (test_provider.fmt_Println "=== Testing immosquare DNS provider ===")
  /\ last out (test_provider.fmt_Println "")
     = test_provider.fmt_Println (test_provider.nl ++ "=== Test completed ===")
  /\ (url_Parse_ok (getenv "ENDPOINT" ++ "/zones/example.com/records") = true ->
      sent w' = (sent w ++ driverRequests zeroAddr p)%list)
  /\ (url_Parse_ok (getenv "ENDPOINT" ++ "/zones/example.com/records") = false ->
      w' = w).
Proof.
  intros Ht He p. unfold test_provider.main.
  destruct (String.eqb_spec (getenv "API_TOKEN") "") as [Et | _]; [contradiction |].
  destruct (String.eqb_spec (getenv "ENDPOINT") "") as [Ee | _]; [contradiction |].
  fold p.
  set (ip1 := test_provider.parseOrZero zeroAddr "192.99.250.180").
  set (ip2 := test_provider.parseOrZero zeroAddr "192.99.250.181").
  set (ip3 := test_provider.parseOrZero zeroAddr "192.99.250.182").
  destruct (GetRecords p "example.com" w) as [r1 w1] eqn:E1.
  destruct (AppendRecords p "example.com" _ w1) as [r2 w2] eqn:E2.
  destruct (SetRecords p "example.com" _ w2) as [r3 w3] eqn:E3.
  destruct (DeleteRecords p "example.com" _ w3) as [r4 w4] eqn:E4.
  destruct (AppendRecords p "example.com" _ w4) as [r5 w5] eqn:E5.
  apply (f_equal snd) in E1, E2, E3, E4, E5. cbn [snd] in E1, E2, E3, E4, E5.
  split; [reflexivity |]. split; [| split].
  - rewrite <- !app_assoc. reflexivity.
  - apply last_last.
  - assert (Hend : Endpoint p <> "") by exact He.
    split.
    + intros Hurl.
      assert (Hurl' : url_Parse_ok (Endpoint p ++ zonePath "example.com") = true)
        by exact Hurl.
      rewrite (GetRecords_sent _ _ _ Hend Hurl') in E1.
      rewrite AppendRecords_sent in E2; [| discriminate | exact Hend | exact Hurl'].
      rewrite SetRecords_sent in E3; [| discriminate | exact Hend | exact Hurl'].
      rewrite DeleteRecords_sent in E4; [| discriminate | exact Hend | exact Hurl'].
      rewrite AppendRecords_sent in E5; [| discriminate | exact Hend | exact Hurl'].
      subst w1 w2 w3 w4 w5. cbn [sent]. rewrite <- !app_assoc. cbn [List.app].
      reflexivity.
    + intros Hurl.
      assert (Hno : forall method body w0,
                 snd (makeRequest p method (zonePath "example.com") body w0) = w0).
      { intros method body w0.
        unfold makeRequest, initClient, NewRequestWithContext, url.Parse.
        destruct (String.eqb_spec (Endpoint p) "") as [E | _]; [reflexivity |].
        change (Endpoint p ++ zonePath "example.com")
          with (getenv "ENDPOINT" ++ "/zones/example.com/records").
        rewrite Hurl. reflexivity. }
      rewrite GetRecords_world, Hno in E1.
      rewrite AppendRecords_world, Hno in E2.
      rewrite SetRecords_world, Hno in E3.
      rewrite DeleteRecords_world, Hno in E4.
      rewrite AppendRecords_world, Hno in E5.
      congruence.
Qed.

End Driver.

(** * The properties on concrete inputs *)

#[local] Existing Instance Example.library.

Ltac conjuncts := repeat match goal with |- _ /\ _ => split end.

(** C1 on [10 mail.example.com] (type [mx], decoded and re-typed); on
    [1_000 mail.example.com], whose first token starts with the numeral
    [1]; and on [abc mail.example.com], whose first token starts with
    no digit. *)
Lemma mx_value_parsing_example :
  (@strings.ToUpper Example.library "mx" = "MX"
   /\ strings.Fields "10 mail.example.com" = ["10"; "mail.example.com"]
   /\ parsesAsUint16 "10" 10
   /\ @convertAPIRecordToLibDNS Example.library
        (json.mkApiRecord "@" "mx" "10 mail.example.com" 3600)
      = Ok (MX "@" 3600000000000 10 "mail.example.com")
   /\ @convertToSpecificTypes Example.library
        [Generic (mkRR "@" 3600000000000 "Mx" "10 mail.example.com")]
      = [MX "@" 3600000000000 10 "mail.example.com"])
  /\ (startsWithUint16 "1_000" 1
      /\ @convertAPIRecordToLibDNS Example.library
           (json.mkApiRecord "@" "MX" "1_000 mail.example.com" 3600)
         = Ok (MX "@" 3600000000000 1 "mail.example.com")
      /\ @convertToSpecificTypes Example.library
           [Generic (mkRR "@" 3600000000000 "MX" "1_000 mail.example.com")]
         = [MX "@" 3600000000000 1 "mail.example.com"])
  /\ (startsWithNoUint16 "abc"
      /\ @convertAPIRecordToLibDNS Example.library
           (json.mkApiRecord "@" "MX" "abc mail.example.com" 3600)
         = Ok (MX "@" 3600000000000 10 "abc mail.example.com")
      /\ @convertToSpecificTypes Example.library
           [Generic (mkRR "@" 3600000000000 "MX" "abc mail.example.com")]
         = [MX "@" 3600000000000 10 "abc mail.example.com"]).
Proof.
  assert (Hten : parsesAsUint16 "10" 10) by (split; [reflexivity | lia]).
  assert (Hone : startsWithUint16 "1_000" 1).
  { exists "1", "_000". split; [reflexivity |]. split; [reflexivity |].
    split; [reflexivity | lia]. }
  assert (Habc : startsWithNoUint16 "abc") by (left; reflexivity).
  split; [| split].
  - destruct (@mx_value_parsing Example.library
                (json.mkApiRecord "@" "mx" "10 mail.example.com" 3600)
                (Generic (mkRR "@" 3600000000000 "Mx" "10 mail.example.com"))
                "10 mail.example.com" eq_refl eq_refl eq_refl eq_refl)
      as (Hwith & _ & _ & Hwhole & _).
    destruct (Hwith "10" ["mail.example.com"] 10 eq_refl ltac:(discriminate)
                (Hwhole "10" 10 Hten))
      as (_ & Hdecode & Hretype).
    conjuncts; first [assumption | reflexivity].
  - destruct (@mx_value_parsing Example.library
                (json.mkApiRecord "@" "MX" "1_000 mail.example.com" 3600)
                (Generic (mkRR "@" 3600000000000 "MX" "1_000 mail.example.com"))
                "1_000 mail.example.com" eq_refl eq_refl eq_refl eq_refl)
      as (Hwith & _).
    destruct (Hwith "1_000" ["mail.example.com"] 1 eq_refl ltac:(discriminate) Hone)
      as (_ & Hdecode & Hretype).
    conjuncts; assumption.
  - destruct (@mx_value_parsing Example.library
                (json.mkApiRecord "@" "MX" "abc mail.example.com" 3600)
                (Generic (mkRR "@" 3600000000000 "MX" "abc mail.example.com"))
                "abc mail.example.com" eq_refl eq_refl eq_refl eq_refl)
      as (_ & Hdefault & _).
    destruct (Hdefault "abc" ["mail.example.com"] eq_refl ltac:(discriminate) Habc)
      as (Hdecode & Hretype).
    conjuncts; assumption.
Defined.

(** C2 on a challenge record of TTL 0 and a record of TTL 300.5 s,
    appended to a server that answers 201. *)
Lemma write_ttl_floor_example :
  let records := [@TXT Example.library "_acme-challenge" 0 "token";
                  TXT "www" 300500000000 "v"] in
  let w := Example.always (mkResponse 201 "201 Created" (Ok None)) in
  map (fun req => option_map (fun b => map w_ttl (http.records b)) (ReqBody req))
    (sent (snd (AppendRecords Example.provider "example.com" records w)))
  = [Some [120; 300]]
  /\ w_ttl (flooredWire (@TXT Example.library "_acme-challenge" 0 "token")) = 120
  /\ w_ttl (flooredWire (@TXT Example.library "www" 300500000000 "v")) = 300
  /\ fst (AppendRecords Example.provider "example.com" records w) = Ok records.
Proof.
  intros records w.
  destruct (@write_ttl_floor_on_wire_only Example.library Example.provider "example.com"
              records w ltac:(discriminate) ltac:(discriminate) eq_refl)
    as (Hsent & _ & Hfloor & Hbelow & _ & _).
  conjuncts.
  - rewrite Hsent. reflexivity.
  - apply Hfloor. reflexivity.
  - apply (Hbelow (@TXT Example.library "www" 300500000000 "v"));
      [discriminate | reflexivity].
  - reflexivity.
Defined.

(** C3 on a server that answers 500 to everything. *)
Lemma delete_swallows_failure_example :
  let records := [@TXT Example.library "_acme-challenge" 0 "token"] in
  let resp := mkResponse 500 "500 Internal Server Error" (Ok None) in
  let w := Example.always resp in
  fst (DeleteRecords Example.provider "example.com" records w) = Ok []
  /\ map (fun req => option_map (fun b => map w_ttl (http.records b)) (ReqBody req))
       (sent (snd (DeleteRecords Example.provider "example.com" records w)))
     = [Some [0]]
  /\ fst (GetRecords Example.provider "example.com" w)
     = Err (errorString "API error: 500 Internal Server Error")
  /\ fst (AppendRecords Example.provider "example.com" records w)
     = Err (errorString "API error during addition: 500 Internal Server Error")
  /\ fst (SetRecords Example.provider "example.com" records w)
     = Err (errorString "API error during update: 500 Internal Server Error").
Proof.
  intros records resp w.
  destruct (@delete_swallows_failure_statuses Example.library Example.provider
              "example.com" records w resp
              ltac:(discriminate) ltac:(discriminate) eq_refl)
    as (Hdelete & _ & Hget & Happend & Hset).
  conjuncts.
  - rewrite (Hdelete eq_refl). reflexivity.
  - rewrite (Hdelete eq_refl). reflexivity.
  - apply (Hget eq_refl). discriminate.
  - apply (Happend eq_refl); discriminate.
  - apply (Hset eq_refl). discriminate.
Defined.

(** C4 on an address, an MX record with a host name as target, and a
    generic SRV record. *)
Lemma retype_round_trip_example :
  convertToSpecificTypes [Address "www" 600000000000 (192, 99, 250, 180)]
  = [Address "www" 600000000000 (192, 99, 250, 180)]
  /\ (readsBack "mail.example.com"
      /\ convertToSpecificTypes [MX "@" 600000000000 10 "mail.example.com"]
         = [MX "@" 600000000000 10 "mail.example.com"])
  /\ convertToSpecificTypes [Generic (mkRR "_sip._tcp" 60000000000 "SRV" "0 5 5060 sip")]
     = [Generic (mkRR "_sip._tcp" 60000000000 "SRV" "0 5 5060 sip")].
Proof.
  destruct (@retype_round_trip Example.library)
    as (Haddress & _ & _ & _ & Hmx & Hfree & Hgeneric & _ & _).
  assert (Hrb : readsBack "mail.example.com")
    by (apply Hfree; [discriminate | reflexivity]).
  conjuncts.
  - apply Haddress. reflexivity.
  - exact Hrb.
  - apply (Hmx "@" 600000000000 10 "mail.example.com"); [lia | exact Hrb].
  - apply Hgeneric. reflexivity.
Defined.

(** C5 on the two bodies of the interface description: one TXT
    record, wrapped and bare. *)
Lemma body_is_object_else_array_example :
  let wrapped := Some (json.JObject [("records", json.JArray [Example.txtElement])]) in
  let bare := Some (json.JArray [Example.txtElement]) in
  fst (GetRecords Example.provider "example.com" (Example.always (Example.ok200 wrapped)))
  = Ok [TXT "a" 60000000000 "x"]
  /\ fst (GetRecords Example.provider "example.com" (Example.always (Example.ok200 bare)))
     = Ok [TXT "a" 60000000000 "x"]
  /\ fst (GetRecords Example.provider "example.com"
            (Example.always (Example.ok200 (Some (json.JString "records")))))
     = Err (wrapError "JSON decoding error" json.typeError).
Proof.
  intros wrapped bare. conjuncts.
  - destruct (@body_is_object_else_array Example.library Example.provider "example.com"
                (Example.always (Example.ok200 wrapped)) (Example.ok200 wrapped) wrapped
                ltac:(discriminate) eq_refl eq_refl eq_refl eq_refl) as (Hobject & _).
    rewrite (Hobject [json.mkApiRecord "a" "TXT" "x" 60] eq_refl). reflexivity.
  - destruct (@body_is_object_else_array Example.library Example.provider "example.com"
                (Example.always (Example.ok200 bare)) (Example.ok200 bare) bare
                ltac:(discriminate) eq_refl eq_refl eq_refl eq_refl) as (_ & Harray & _).
    rewrite (Harray json.typeError [json.mkApiRecord "a" "TXT" "x" 60] eq_refl eq_refl).
    reflexivity.
  - destruct (@body_is_object_else_array Example.library Example.provider "example.com"
                (Example.always (Example.ok200 (Some (json.JString "records"))))
                (Example.ok200 (Some (json.JString "records")))
                (Some (json.JString "records"))
                ltac:(discriminate) eq_refl eq_refl eq_refl eq_refl) as (_ & _ & Hnone & _).
    apply (Hnone json.typeError json.typeError eq_refl eq_refl).
Defined.

(** C6 on a response with a valid TXT record followed by an A record
    whose value is [not-an-ip]. *)
Lemma invalid_address_fails_whole_listing_example :
  let body :=
    Some (json.JObject
            [("records", json.JArray [Example.txtElement; Example.badAddressElement])]) in
  Example.ParseAddr4 "not-an-ip" = None
  /\ exists value,
       fst (GetRecords Example.provider "example.com" (Example.always (Example.ok200 body)))
       = Err (conversionError value).
Proof.
  intros body. split; [reflexivity |].
  apply (@invalid_address_fails_whole_listing Example.library Example.provider
           "example.com" (Example.always (Example.ok200 body)) (Example.ok200 body) body
           [json.mkApiRecord "a" "TXT" "x" 60; json.mkApiRecord "www" "A" "not-an-ip" 60]
           (json.mkApiRecord "www" "A" "not-an-ip" 60)
           ltac:(discriminate) eq_refl eq_refl eq_refl eq_refl
           (or_introl eq_refl) (or_intror (or_introl eq_refl)) eq_refl eq_refl).
Defined.

(** C7 on a list of a generic TXT, a generic AAAA without an address, a
    generic A, a typed MX and a TXT of another implementation: each is
    re-typed as decode types its name, type and data. *)
Lemma retype_is_total_and_ordered_example :
  let records :=
    [Generic (mkRR "a" 0 "txt" "hello");
     Generic (mkRR "b" 5 "aaaa" "not-an-ip");
     Generic (mkRR "c" 7 "a" "192.99.250.180");
     MX "d" 9 20 "mail.example.com  ";
     Other (mkRR "e" 11 "TXT" "hello")] in
  convertToSpecificTypes records
  = [TXT "a" 0 "hello";
     Generic (mkRR "b" 5 "aaaa" "not-an-ip");
     Address "c" 7 (192, 99, 250, 180);
     MX "d" 9 20 "mail.example.com";
     TXT "e" 11 "hello"]
  /\ convertToSpecificTypes [Generic (mkRR "b" 5 "aaaa" "not-an-ip")]
     = [Generic (mkRR "b" 5 "aaaa" "not-an-ip")]
  /\ convertToSpecificTypes [Generic (mkRR "c" (time.mul64 7 time.Second) "a" "192.99.250.180")]
     = [Address "c" 7000000000 (192, 99, 250, 180)]
  /\ convertToSpecificTypes [MX "d" 9 20 "mail.example.com  "]
     = [withTTL 9 (MX "d" 0 20 "mail.example.com")].
Proof.
  intros records.
  destruct (@retype_is_total_and_ordered Example.library records)
    as (_ & _ & Hnth & _ & Hbad & Hdecode).
  destruct (@retype_is_total_and_ordered Example.library
              [MX "d" 9 20 "mail.example.com  "])
    as (_ & Hdispatch & _).
  conjuncts.
  - apply nth_error_ext. intros i. rewrite Hnth.
    destruct i as [| [| [| [| [| [| i]]]]]]; reflexivity.
  - apply (Hbad (Generic (mkRR "b" 5 "aaaa" "not-an-ip"))); reflexivity.
  - apply (Hdecode (json.mkApiRecord "c" "a" "192.99.250.180" 7)). reflexivity.
  - inversion Hdispatch as [| r out rest outs Hhead Htail Er Eouts].
    change (convertToSpecificTypes [MX "d" 9 20 "mail.example.com  "])
      with [convertToSpecificType (MX "d" 9 20 "mail.example.com  ")].
    apply (f_equal (fun out => [out])). exact (Hhead 0).
Defined.

(** C10 on the bodies [{}] and [{"zone": "example.com"}]. *)
Lemma object_body_decoding_example :
  fst (GetRecords Example.provider "example.com"
         (Example.always (Example.ok200 (Some (json.JObject [])))))
  = Ok []
  /\ fst (GetRecords Example.provider "example.com"
            (Example.always
               (Example.ok200
                  (Some (json.JObject [("zone", json.JString "example.com")])))))
     = Ok [].
Proof.
  split.
  - destruct (@object_body_decoding Example.library Example.provider "example.com"
                (Example.always (Example.ok200 (Some (json.JObject []))))
                (Example.ok200 (Some (json.JObject []))) []
                ltac:(discriminate) eq_refl eq_refl eq_refl eq_refl) as (Hempty & _).
    apply Hempty. intros kv [].
  - destruct (@object_body_decoding Example.library Example.provider "example.com"
                (Example.always
                   (Example.ok200
                      (Some (json.JObject [("zone", json.JString "example.com")]))))
                (Example.ok200 (Some (json.JObject [("zone", json.JString "example.com")])))
                [("zone", json.JString "example.com")]
                ltac:(discriminate) eq_refl eq_refl eq_refl eq_refl) as (Hother & _).
    apply Hother. intros kv [<- | []]. reflexivity.
Defined.

(** C9 on the zone [example.com]. *)
Lemma request_url_example :
  let w := Example.always (Example.ok200 (Some (json.JObject []))) in
  map URL (sent (snd (GetRecords Example.provider "example.com" w)))
  = [url.parsed "https://dns.example/api/zones/example.com/records"]
  /\ map URL (sent (snd (DeleteRecords Example.provider "example.com"
                            [@TXT Example.library "a" 0 "x"] w)))
     = [url.parsed "https://dns.example/api/zones/example.com/records"].
Proof.
  intros w.
  destruct (@request_url_concatenates_zone_unescaped Example.library Example.provider
              "example.com" [@TXT Example.library "a" 0 "x"] w) as [_ Hone].
  destruct (Hone ltac:(discriminate) eq_refl) as (Hget & Hwrites).
  destruct (Hwrites ltac:(discriminate)) as (_ & _ & Hdelete).
  split; [exact Hget | exact Hdelete].
Defined.

(** A first token that starts with digits: [20abc] is read as 20. *)
Lemma parseUint16_accepts_digit_prefix_example :
  parseUint16 "20abc" = Some 20
  /\ convertAPIRecordToLibDNS (json.mkApiRecord "@" "MX" "20abc mail.example.com" 3600)
     = Ok (MX "@" 3600000000000 20 "mail.example.com").
Proof.
  assert (Hp : parseUint16 "20abc" = Some 20).
  { apply (parseUint16_accepts_digit_prefix "20" "abc" 20);
      [discriminate | reflexivity | reflexivity | reflexivity | lia]. }
  split; [exact Hp | reflexivity].
Defined.

(** A provider configured with a token and no endpoint. *)
Lemma endpoint_is_required_example :
  let p := mkProvider "secret" "" in
  let w := Example.always (Example.ok200 (Some (json.JObject []))) in
  GetRecords p "example.com" w
  = (Err (wrapError "GET request error"
            (errorString "endpoint is required for the immosquare provider")), w)
  /\ sent (snd (DeleteRecords p "example.com" [@TXT Example.library "a" 0 "x"] w)) = [].
Proof.
  intros p w.
  destruct (@endpoint_is_required Example.library p "example.com"
              [@TXT Example.library "a" 0 "x"] w eq_refl ltac:(discriminate))
    as (Hget & _ & _ & Hdelete).
  split; [exact Hget | rewrite Hdelete; reflexivity].
Defined.

(** The GET of a provider with the token [secret]. *)
Lemma requests_carry_example :
  let w := Example.always (Example.ok200 (Some (json.JObject []))) in
  let req := mkRequest "GET" (url.parsed "https://dns.example/api/zones/example.com/records")
               [("Authorization", "Bearer secret")] None in
  sent (snd (GetRecords Example.provider "example.com" w)) = [req]
  /\ Method req = "GET" /\ ReqBody req = None /\ carriesCredentials Example.provider req.
Proof.
  intros w req.
  destruct (@requests_carry_method_token_and_content_type Example.library
              Example.provider "example.com" [] w req) as (Hget & _).
  split; [reflexivity | apply Hget; reflexivity].
Defined.

(** A network that is down. *)
Lemma transport_failures_example :
  let w := mkWorld [] (fun _ _ => Err (libraryError "net/http")) in
  let records := [@TXT Example.library "a" 0 "x"] in
  fst (GetRecords Example.provider "example.com" w)
  = Err (wrapError "GET request error" (libraryError "net/http"))
  /\ fst (DeleteRecords Example.provider "example.com" records w)
     = Err (wrapError "DELETE request error" (libraryError "net/http"))
  /\ List.length (sent (snd (DeleteRecords Example.provider "example.com" records w)))
     = 1%nat.
Proof.
  intros w records.
  destruct (@transport_failures_are_returned Example.library Example.provider
              "example.com" records w ltac:(discriminate) ltac:(discriminate))
    as (Hdown & _).
  destruct (Hdown (libraryError "net/http") eq_refl (fun _ _ => eq_refl))
    as (Hget & _ & _ & Hdelete & Hsent).
  split; [exact Hget | split; [exact Hdelete | exact Hsent]].
Defined.

(** [txt] and [TxT]. *)
Lemma type_tag_is_case_insensitive_example :
  @convertAPIRecordToLibDNS Example.library (json.mkApiRecord "a" "txt" "x" 60)
  = convertAPIRecordToLibDNS (json.mkApiRecord "a" "TxT" "x" 60)
  /\ @convertAPIRecordToLibDNS Example.library (json.mkApiRecord "a" "txt" "x" 60)
     = Ok (TXT "a" 60000000000 "x").
Proof.
  destruct (@type_tag_is_case_insensitive Example.library "a" "txt" "TxT" "x" 60
              eq_refl eq_refl eq_refl eq_refl) as [Hdecode _].
  split; [exact Hdecode | reflexivity].
Defined.

(** A TTL of 60 seconds. *)
Lemma listed_ttl_example :
  @convertAPIRecordToLibDNS Example.library (json.mkApiRecord "a" "TXT" "x" 60)
  = Ok (TXT "a" 60000000000 "x")
  /\ RR_TTL (Record_RR (@TXT Example.library "a" 60000000000 "x")) = 60 * 1000000000.
Proof.
  split; [reflexivity |].
  apply (@listed_ttl_is_seconds_until_overflow Example.library
           (json.mkApiRecord "a" "TXT" "x" 60) (TXT "a" 60000000000 "x") eq_refl).
  unfold maxSeconds. cbn [json.TTL]. lia.
Defined.

(** The tag [a] before an IPv4 address, and the tag [spf]. *)
Lemma listed_type_example :
  (exists ip,
      Example.ParseAddr4 "192.0.2.1" = Some ip
      /\ RR_Type (@Record_RR Example.library (Address "www" 60000000000 (192, 0, 2, 1)))
         = "A")
  /\ @convertAPIRecordToLibDNS Example.library (json.mkApiRecord "a" "spf" "v=spf1" 60)
     = Ok (Generic (mkRR "a" 60000000000 "spf" "v=spf1")).
Proof.
  split.
  - destruct (@listed_type_is_canonical Example.library
                (json.mkApiRecord "www" "a" "192.0.2.1" 60)
                (@Address Example.library "www" 60000000000 (192, 0, 2, 1)) eq_refl)
    as (Haddr & _).
    destruct (Haddr eq_refl) as (ip & Hip & Htype).
    exists ip. split; [exact Hip | exact Htype].
  - reflexivity.
Defined.

(** [70000 mail.example.com]. *)
Lemma mx_preference_out_of_range_example :
  @convertAPIRecordToLibDNS Example.library
    (json.mkApiRecord "@" "MX" "70000 mail.example.com" 300)
  = Ok (MX "@" 300000000000 10 "70000 mail.example.com").
Proof.
  apply (@mx_preference_out_of_range Example.library
           (json.mkApiRecord "@" "MX" "70000 mail.example.com" 300)
           "70000" "mail.example.com" 70000 eq_refl eq_refl eq_refl).
  lia.
Defined.

(** A TXT element, then two A elements whose values are no
    addresses: the error names the first of the two. *)
Lemma listing_reports_first_invalid_address_example :
  let second := json.JObject [("name", json.JString "w2"); ("type", json.JString "A");
                              ("value", json.JString "also-bad")] in
  let body := Some (json.JArray [Example.txtElement; Example.badAddressElement; second]) in
  let w := Example.always (Example.ok200 body) in
  fst (GetRecords Example.provider "example.com" w)
  = Err (wrapError "record conversion error"
           (wrapError "invalid IP address 'not-an-ip'" (libraryError "netip.ParseAddr"))).
Proof.
  intros second body w.
  apply (@listing_reports_first_invalid_address Example.library Example.provider
           "example.com" w (Example.ok200 body) body
           [json.mkApiRecord "a" "TXT" "x" 60]
           [json.mkApiRecord "w2" "A" "also-bad" 0]
           (json.mkApiRecord "www" "A" "not-an-ip" 60)).
  - discriminate.
  - reflexivity.
  - reflexivity.
  - reflexivity.
  - reflexivity.
  - right. split; [eexists; reflexivity | reflexivity].
  - constructor; [| constructor]. eexists. reflexivity.
  - reflexivity.
  - reflexivity.
Defined.

(** A listing of one TXT element under [records]. *)
Lemma listing_is_elementwise_example :
  let body := json.JObject [("records", json.JArray [Example.txtElement])] in
  let w := Example.always (Example.ok200 (Some body)) in
  fst (GetRecords Example.provider "example.com" w) = Ok [TXT "a" 60000000000 "x"].
Proof.
  intros body w.
  destruct (@listing_is_elementwise Example.library Example.provider "example.com" w
              "200 OK" [Example.txtElement] body ltac:(discriminate) eq_refl eq_refl
              (or_intror eq_refl)) as (_ & Hlist & _).
  apply Hlist. constructor; [| constructor]. split; reflexivity.
Defined.

(** The keys [TTL] and [Name], a member [comment], and an element
    without members. *)
Lemma element_members_example :
  json.findField json.recordFields "TTL" = Some json.FTTL
  /\ json.storeRecord json.zeroRecord
       (json.JObject [("Name", json.JString "a"); ("comment", json.JString "c")])
     = json.storeRecord json.zeroRecord (json.JObject [("Name", json.JString "a")])
  /\ json.TTL (decodeElement (json.JObject [("name", json.JString "a")])) = 0
  /\ json.Name (decodeElement (json.JObject [("name", json.JString "a");
                                             ("NAME", json.JString "b")])) = "b".
Proof.
  destruct (@element_members_select_fields Example.library)
    as (Hkey & _ & Hskip & Hzero & Hlast & _).
  split; [| split; [| split]].
  - apply (Hkey "TTL" "ttl" json.FTTL); [cbn; tauto | reflexivity | reflexivity].
  - apply (Hskip json.zeroRecord [("Name", json.JString "a")] [] "comment"
             (json.JString "c")).
    left. reflexivity.
  - destruct (Hzero [("name", json.JString "a")]) as (_ & _ & _ & Httl).
    apply Httl. intros kv [<- | []]. discriminate.
  - destruct (Hlast [("name", json.JString "a")] "NAME") as (Hname & _).
    apply Hname. reflexivity.
Defined.

(** A TXT record of 60 seconds, listed and written back. *)
Lemma listed_records_are_written_back_example :
  let w := Example.always (Example.ok200 None) in
  let rs := [@TXT Example.library "a" 60000000000 "x"] in
  exists req body,
    sent (snd (SetRecords Example.provider "example.com" rs w)) = [req]
    /\ ReqBody req = Some body
    /\ Forall2 (writtenAs 120) [json.mkApiRecord "a" "TXT" "x" 60] (records body).
Proof.
  intros w rs.
  destruct (@listed_records_are_written_back Example.library Example.provider
              "example.com" w [json.mkApiRecord "a" "TXT" "x" 60] rs
              ltac:(discriminate) eq_refl eq_refl ltac:(discriminate))
    as (_ & Hset & _).
  - constructor; [| constructor]. unfold maxSeconds. cbn [json.TTL]. lia.
  - exact Hset.
Defined.

(** A record without TTL is sent with 120. *)
Lemma written_ttl_example :
  let w := Example.always (Example.ok200 None) in
  let records := [@TXT Example.library "a" 0 "x"] in
  let body := mkBody [mkWire "a" "TXT" "x" 120] in
  let req := mkRequest "POST" (url.parsed "https://dns.example/api/zones/example.com/records")
               [("Content-Type", "application/json"); ("Authorization", "Bearer secret")]
               (Some body) in
  sent (snd (AppendRecords Example.provider "example.com" records w)) = [req]
  /\ Forall (fun sentRecord => 120 <= w_ttl sentRecord) (http.records body).
Proof.
  intros w records body req. split; [reflexivity |].
  destruct (@written_ttl_is_floored_and_within_one_second Example.library
              Example.provider "example.com" records w req body) as (Hwrite & _).
  - constructor; [reflexivity | constructor].
  - reflexivity.
  - destruct Hwrite as (Hfloor & _); [left; reflexivity | exact Hfloor].
Defined.

(** An MX record whose target holds two spaces in a row settles after
    one re-typing. *)
Lemma retype_is_idempotent_example :
  let records := [@MX Example.library "@" 0 10 "mail  backup"] in
  convertToSpecificTypes records = [MX "@" 0 10 "mail backup"]
  /\ convertToSpecificTypes (convertToSpecificTypes records)
     = convertToSpecificTypes records.
Proof.
  intros records. split; [reflexivity |].
  destruct (@retype_is_idempotent Example.library) as (Hall & _).
  apply Hall. constructor; [| constructor]. split.
  - discriminate.
  - intros _. left. exists "10", ["mail"; "backup"], 10.
    split; [reflexivity | split; [discriminate | reflexivity]].
Defined.

(** The tokens of [10  mail.example.com ]. *)
Lemma tokens_join_and_split_back_example :
  strings.Fields "10  mail.example.com " = ["10"; "mail.example.com"]
  /\ strings.Fields (strings.Join (strings.Fields "10  mail.example.com ") " ")
     = strings.Fields "10  mail.example.com "
  /\ mxParts "10 mail.example.com" = mxParts "10  mail.example.com ".
Proof.
  destruct (tokens_join_and_split_back "10  mail.example.com ") as (_ & Hsplit & Hmx).
  split; [reflexivity |]. split; [exact Hsplit |].
  exact (Hmx "10" ["mail.example.com"] 10 eq_refl ltac:(discriminate) eq_refl).
Defined.

(** A listing of a TXT element and of an A element with an address. *)
Lemma listing_succeeds_example :
  let address := json.JObject [("name", json.JString "www"); ("type", json.JString "A");
                               ("value", json.JString "192.0.2.1")] in
  let w := Example.always
             (Example.ok200 (Some (json.JArray [Example.txtElement; address]))) in
  exists rs, fst (GetRecords Example.provider "example.com" w) = Ok rs.
Proof.
  intros address w.
  apply (@listing_succeeds_iff_elements_convert Example.library Example.provider
           "example.com" w "200 OK" [Example.txtElement; address]
           (json.JArray [Example.txtElement; address])
           ltac:(discriminate) eq_refl eq_refl (or_introl eq_refl)).
  constructor; [| constructor; [| constructor]]; split;
    [reflexivity | discriminate | reflexivity | discriminate].
Defined.

(** The body [null]. *)
Lemma listing_of_null_example :
  let w := Example.always (Example.ok200 (Some json.JNull)) in
  fst (GetRecords Example.provider "example.com" w) = Ok [].
Proof.
  intros w.
  destruct (@listing_of_empty_and_malformed_bodies Example.library Example.provider
              "example.com" w "200 OK" (Some json.JNull)
              ltac:(discriminate) eq_refl eq_refl) as (Hempty & _).
  apply Hempty. left. reflexivity.
Defined.

(** The driver with both variables set, on a network that is down:
    it returns, after five requests. *)
Lemma driver_attempts_every_operation_example :
  let getenv := fun name : string =>
                  if String.eqb name "API_TOKEN" then "secret" else "https://dns.example/api" in
  let w := mkWorld [] (fun _ _ => Err (libraryError "net/http")) in
  let zeroAddr : Example.Addr4 := (0, 0, 0, 0) in
  fst (fst (@test_provider.main Example.library zeroAddr getenv w)) = test_provider.Returned
  /\ map Method (sent (snd (@test_provider.main Example.library zeroAddr getenv w)))
     = ["GET"; "POST"; "PUT"; "DELETE"; "POST"].
Proof.
  intros getenv w zeroAddr.
  pose proof (@driver_attempts_every_operation Example.library zeroAddr getenv w
                ltac:(discriminate) ltac:(discriminate)) as Hdriver.
  cbv zeta in Hdriver.
  destruct (@test_provider.main Example.library zeroAddr getenv w) as [[ended out] w'].
  destruct Hdriver as (Hended & _ & _ & Hsent & _).
  split; [exact Hended |].
  cbn [snd]. rewrite (Hsent eq_refl). reflexivity.
Defined.

(** The driver without [API_TOKEN]. *)
Lemma driver_requires_environment_example :
  let w := Example.always (Example.ok200 None) in
  exists message,
    @test_provider.main Example.library ((0, 0, 0, 0) : Example.Addr4) (fun _ => "") w
    = (test_provider.Exited 1, [test_provider.log_Fatal message], w).
Proof.
  intros w.
  apply (@driver_requires_environment Example.library (0, 0, 0, 0) (fun _ => "") w).
  left. reflexivity.
Defined.

(** * Where the description and the code part *)

(** C1.  The value [20abc mail.example.com] has two tokens, and the
    first, [20abc], is no unsigned 16-bit integer.  Decode and
    re-typing take the digits it starts with as the preference, 20,
    and drop [abc]; by the description the preference is 10 and the
    target is the whole value. *)
Lemma mx_first_token_with_trailing_text :
  strings.Fields "20abc mail.example.com" = ["20abc"; "mail.example.com"]
  /\ (forall n, ~ parsesAsUint16 "20abc" n)
  /\ @convertAPIRecordToLibDNS Example.library
       (json.mkApiRecord "@" "MX" "20abc mail.example.com" 3600)
     = Ok (MX "@" 3600000000000 20 "mail.example.com")
  /\ @convertAPIRecordToLibDNS Example.library
       (json.mkApiRecord "@" "MX" "20abc mail.example.com" 3600)
     <> Ok (MX "@" 3600000000000 10 "20abc mail.example.com")
  /\ @convertToSpecificTypes Example.library
       [Generic (mkRR "@" 3600000000000 "MX" "20abc mail.example.com")]
     = [MX "@" 3600000000000 20 "mail.example.com"]
  /\ @convertToSpecificTypes Example.library
       [Generic (mkRR "@" 3600000000000 "MX" "20abc mail.example.com")]
     <> [MX "@" 3600000000000 10 "20abc mail.example.com"].
Proof.
  conjuncts; [reflexivity | | reflexivity | discriminate | reflexivity | discriminate].
  intros n [E _]. discriminate E.
Qed.

(** C2.  A TTL of 16777216.999999999 s is at least 120 s and its whole
    seconds are 16777216; the record goes on the wire with 16777217:
    [Duration.Seconds] adds the fraction in [float64], where the sum
    rounds to the next integer. *)
Lemma ttl_fraction_rounds_up_on_wire :
  let ttl := 16777216999999999 in
  let records := [@TXT Example.library "_acme-challenge" ttl "token"] in
  let w := Example.always (mkResponse 201 "201 Created" (Ok None)) in
  120 * time.Second <= ttl
  /\ time.inInt64 ttl = true
  /\ Z.quot ttl time.Second = 16777216
  /\ map (fun req => option_map (fun b => map w_ttl (http.records b)) (ReqBody req))
       (sent (snd (AppendRecords Example.provider "example.com" records w)))
     = [Some [16777217]]
  /\ map (fun req => option_map (fun b => map w_ttl (http.records b)) (ReqBody req))
       (sent (snd (AppendRecords Example.provider "example.com" records w)))
     <> [Some [Z.quot ttl time.Second]].
Proof.
  intros ttl records w. conjuncts.
  - vm_compute. discriminate.
  - reflexivity.
  - reflexivity.
  - vm_compute. reflexivity.
  - vm_compute. discriminate.
Qed.

(** C4.  An MX record with an empty target: its generic form has the
    data ["5 "], a single token, so re-typing takes the default
    preference and the whole data as target.  Neither the preference
    nor the target is the original one. *)
Lemma mx_empty_target_does_not_round_trip :
  RR_Data (Record_RR (@MX Example.library "@" 3600000000000 5 "")) = "5 "
  /\ convertToSpecificTypes [@MX Example.library "@" 3600000000000 5 ""]
     = [MX "@" 3600000000000 10 "5 "]
  /\ convertToSpecificTypes [@MX Example.library "@" 3600000000000 5 ""]
     <> [MX "@" 3600000000000 5 ""].
Proof. conjuncts; [reflexivity | reflexivity | discriminate]. Qed.

(** C9.  For the zone [a/b] the URL of the request is the one parsed
    from [.../zones/a/b/records], in which the zone is two segments of
    the path; the path-escaped form of the zone is [a%2Fb], one
    segment. *)
Lemma request_url_is_not_path_escaped :
  let w := Example.always (Example.ok200 (Some (json.JObject []))) in
  url.PathEscape "a/b" = "a%2Fb"
  /\ map URL (sent (snd (GetRecords Example.provider "a/b" w)))
     = [url.parsed "https://dns.example/api/zones/a/b/records"]
  /\ map URL (sent (snd (GetRecords Example.provider "a/b" w)))
     <> [url.parsed
           (Endpoint Example.provider ++ "/zones/" ++ url.PathEscape "a/b" ++ "/records")].
Proof. intros w. conjuncts; [reflexivity | reflexivity | discriminate]. Qed.

(** C10.  The body [{"records": 5}] is a JSON object; decoding it as
    an object fails on the type of the member, the bare-array decoding
    is tried and fails, and the result is the decoding error, not an
    empty list. *)
Lemma object_with_mistyped_records_is_decode_error :
  let body := Some (json.JObject [("records", json.JNumber (json.NumInt 5))]) in
  @json.Unmarshal_apiResponse Example.library body = Err json.typeError
  /\ fst (GetRecords Example.provider "example.com" (Example.always (Example.ok200 body)))
     = Err (wrapError "JSON decoding error" json.typeError)
  /\ fst (GetRecords Example.provider "example.com" (Example.always (Example.ok200 body)))
     <> Ok [].
Proof. intros body. conjuncts; [reflexivity | reflexivity | discriminate]. Qed.
